(** * Market data push service: a shallow embedding of the Go core

    The development follows the two Go files of the core:
    the market service (quote parsing, short-lived caches, the trading
    calendar) and the market data pusher (subscriptions, change
    detection, incremental candle push, news flashes).

    Conventions.
    - [float64] is Rocq's primitive binary64 float; [int64] and [int] are [Z],
      and the one sum that can leave the 64-bit range (the running total
      of [calculateOrderBookTotals]) is wrapped by [wrap64].
    - A Go slice is a [list]; an out-of-range index is a panic, modelled by
      [None] in the [option] monad.
    - A Go [map] is a stdpp [gmap].
    - Functions of Go's standard library whose text is not part of the
      repository ([strconv], [time.Parse]) are fields of a type class; the
      theorems hold for every instance, and one reference instance is
      given to run the code on concrete records. *)

From Stdlib Require Import ZArith List String Ascii Bool Lia Floats DecimalString.
From stdpp Require Import base option list gmap strings sorting.

Set Warnings "-inexact-float".
Local Open Scope Z_scope.

(* ================================================================== *)
(** * Part I. The model                                                *)
(* ================================================================== *)

(** ** Go's [(T, error)] results *)

Inductive error : Type :=
| ErrTransport      (* the HTTP round trip failed *)
| ErrBody           (* reading the response body failed *)
| ErrJSON           (* json.Unmarshal rejected the document *)
| ErrFile.          (* os.ReadFile / os.WriteFile failed *)

Inductive Result (A : Type) : Type :=
| Ok (a : A)
| Err (e : error).
Arguments Ok {A} a.
Arguments Err {A} e.

Definition is_Err {A} (r : Result A) : bool :=
  match r with Ok _ => false | Err _ => true end.

(** ** models: the structs the core fills in

    The [models] package is not among the source files; the fields are
    the ones the composite literals of the core write. *)

Module Stock.
Record t : Type := mk {
  Symbol : string;
  Name : string;
  Price : float;
  Open : float;
  High : float;
  Low : float;
  PreClose : float;
  Change : float;
  ChangePercent : float;
  Volume : Z;
  Amount : float }.
End Stock.

Module OrderBookItem.
Record t : Type := mk {
  Price : float;
  Size : Z;
  Total : Z;
  Percent : float }.
End OrderBookItem.

Module OrderBook.
Record t : Type := mk {
  Bids : list OrderBookItem.t;
  Asks : list OrderBookItem.t }.
Definition empty : t := mk [] [].
End OrderBook.

Module KLineData.
Record t : Type := mk {
  Time : string;
  Open : float;
  High : float;
  Low : float;
  Close : float;
  Volume : Z;
  Amount : float;
  MA5 : float;
  MA10 : float;
  MA20 : float;
  Avg : float }.
End KLineData.

(** StockWithOrderBook embeds models.Stock and adds the book. *)
Record StockWithOrderBook : Type := {
  swob_Stock : Stock.t;
  swob_OrderBook : OrderBook.t }.

(** ** strconv and integer/float conversions *)

(** [strconv.ParseFloat(s, 64)] and [strconv.ParseInt(s, 10, 64)], value
    component only: every call site of the core drops the error
    ([x, _ := strconv.ParseFloat(...)]). *)
Class Strconv : Type := {
  ParseFloat : string -> float;
  ParseInt : string -> Z }.

(** [float64(n)] for an [int64] [n]: round to nearest, ties to even. *)
Definition float64_of_int (n : Z) : float :=
  SF2Prim (binary_normalize 53 1024 n 0 false).

(** Go's [a > b] on float64 (false when either side is NaN). *)
Definition fgt (a b : float) : bool := PrimFloat.ltb b a.

(** *** A reference instance: plain decimal literals

    [sign? digits* ('.' digits* )?] with at least one digit, which is
    the form of every numeric field of the quote feed. The value is the
    binary64 nearest to the decimal (one correctly rounded division of
    the digit string by a power of ten); anything else is a syntax
    error, for which Go returns 0. *)

Definition digit_of (c : ascii) : option Z :=
  let n := Z.of_nat (nat_of_ascii c) in
  if (48 <=? n) && (n <=? 57) then Some (n - 48) else None.

(** Reads digits; returns the accumulated value, how many digits were
    read and the rest of the string. *)
Fixpoint read_digits (s : string) (acc : Z) (n : Z) : Z * Z * string :=
  match s with
  | String c s' =>
      match digit_of c with
      | Some d => read_digits s' (10 * acc + d) (n + 1)
      | None => (acc, n, s)
      end
  | EmptyString => (acc, n, s)
  end.

Definition read_sign (s : string) : bool * string :=
  match s with
  | String "-" s' => (true, s')
  | String "+" s' => (false, s')
  | _ => (false, s)
  end.

(** sign, digits with the point removed, number of fractional digits *)
Definition parse_decimal (s : string) : option (bool * Z * Z) :=
  let '(neg, s1) := read_sign s in
  let '(ip, ni, s2) := read_digits s1 0 0 in
  match s2 with
  | EmptyString => if 0 <? ni then Some (neg, ip, 0) else None
  | String "." s3 =>
      let '(m, nf, s4) := read_digits s3 ip 0 in
      match s4 with
      | EmptyString => if 0 <? ni + nf then Some (neg, m, nf) else None
      | _ => None
      end
  | _ => None
  end.

Definition decimal_to_float (neg : bool) (m k : Z) : float :=
  match m with
  | Zpos p =>
      SF2Prim (SFdiv 53 1024 (S754_finite neg p 0)
                              (S754_finite false (Z.to_pos (10 ^ k)) 0))
  | _ => SF2Prim (S754_zero neg)
  end.

Definition decimal_ParseFloat (s : string) : float :=
  match parse_decimal s with
  | Some (neg, m, k) => decimal_to_float neg m k
  | None => 0%float
  end.

Definition int64_max : Z := 2 ^ 63 - 1.
Definition int64_min : Z := - 2 ^ 63.

Definition decimal_ParseInt (s : string) : Z :=
  let '(neg, s1) := read_sign s in
  let '(v, n, rest) := read_digits s1 0 0 in
  match rest with
  | EmptyString =>
      if 0 <? n then
        let z := if neg then - v else v in
        Z.max int64_min (Z.min int64_max z)
      else 0
  | _ => 0
  end.

Definition decimalStrconv : Strconv :=
  {| ParseFloat := decimal_ParseFloat; ParseInt := decimal_ParseInt |}.

(** ** strings.Split(s, ",") and strings.Join *)

Fixpoint split_on (sep : ascii) (s : string) (cur : string) : list string :=
  match s with
  | EmptyString => [cur]
  | String c s' =>
      if Ascii.eqb c sep then cur :: split_on sep s' EmptyString
      else split_on sep s' (cur +:+ String c EmptyString)
  end.

Definition strings_Split_comma (s : string) : list string :=
  split_on "," s EmptyString.

Definition strings_Join (l : list string) (sep : string) : string :=
  String.concat sep l.

(** Two's-complement wrap-around of [int64] arithmetic. *)
Definition wrap64 (z : Z) : Z := (z + 2 ^ 63) mod 2 ^ 64 - 2 ^ 63.

(* ------------------------------------------------------------------ *)
(** ** Market service: parsing one record of the quote feed            *)
(* ------------------------------------------------------------------ *)

Section Parsing.
Context `{Strconv}.

(** parseStockFields.  [parts[i]] panics when [i] is out of range:
    [None]. *)
Definition parseStockFields (code : string) (parts : list string)
  : option Stock.t :=
  p3 ← parts !! 3%nat;
  p1 ← parts !! 1%nat;
  p4 ← parts !! 4%nat;
  p5 ← parts !! 5%nat;
  p2 ← parts !! 2%nat;
  p8 ← parts !! 8%nat;
  p9 ← parts !! 9%nat;
  p0 ← parts !! 0%nat;
  let price := ParseFloat p3 in
  let open := ParseFloat p1 in
  let high := ParseFloat p4 in
  let low := ParseFloat p5 in
  let preClose := ParseFloat p2 in
  let volume := ParseInt p8 in
  let amount := ParseFloat p9 in
  let change := (price - preClose)%float in
  let changePercent :=
    if fgt preClose 0 then ((change / preClose) * 100)%float else 0%float in
  Some (Stock.mk code p0 price open high low preClose
          change changePercent volume amount).

(** calculateOrderBookTotals: the first loop finds the largest size
    (starting from 0), the second writes the running total and, when
    the largest size is positive, the share of each level. *)
Definition maxSizeOf (items : list OrderBookItem.t) : Z :=
  fold_left (fun m it => if m <? OrderBookItem.Size it
                         then OrderBookItem.Size it else m) items 0.

Fixpoint fillTotals (maxSize total : Z) (items : list OrderBookItem.t)
  : list OrderBookItem.t :=
  match items with
  | [] => []
  | it :: rest =>
      let total' := wrap64 (total + OrderBookItem.Size it) in
      let pct :=
        if 0 <? maxSize
        then (float64_of_int (OrderBookItem.Size it)
              / float64_of_int maxSize)%float
        else OrderBookItem.Percent it in
      OrderBookItem.mk (OrderBookItem.Price it) (OrderBookItem.Size it)
        total' pct
      :: fillTotals maxSize total' rest
  end.

Definition calculateOrderBookTotals (items : list OrderBookItem.t)
  : list OrderBookItem.t :=
  match items with
  | [] => []
  | _ => fillTotals (maxSizeOf items) 0 items
  end.

(** One turn of the level loop of parseStockWithOrderBook, for the side
    whose first volume field is at index [base] (10 for bids, 20 for
    asks): the level is appended when its price is positive, and the
    loop goes on to the next level either way. *)
Definition parseLevel (parts : list string) (base : nat)
    (acc : list OrderBookItem.t) (i : nat) : option (list OrderBookItem.t) :=
  let volIdx := (base + i * 2)%nat in
  let priceIdx := (base + 1 + i * 2)%nat in
  if (priceIdx <? length parts)%nat then
    v ← parts !! volIdx;
    p ← parts !! priceIdx;
    let vol := ParseInt v in
    let price := ParseFloat p in
    if fgt price 0
    then Some (acc ++ [OrderBookItem.mk price (Z.quot vol 100) 0 0%float])
    else Some acc
  else Some acc.

Fixpoint levelLoop (parts : list string) (base : nat)
    (acc : list OrderBookItem.t) (idxs : list nat)
  : option (list OrderBookItem.t) :=
  match idxs with
  | [] => Some acc
  | i :: rest =>
      acc' ← parseLevel parts base acc i;
      levelLoop parts base acc' rest
  end.

(** [if len(parts) >= base+10 { for i := 0; i < 5; i++ {...} }] *)
Definition parseSide (parts : list string) (base : nat)
  : option (list OrderBookItem.t) :=
  if (base + 10 <=? length parts)%nat
  then levelLoop parts base [] (seq 0 5)
  else Some [].

Definition parseStockWithOrderBook (code : string) (parts : list string)
  : option StockWithOrderBook :=
  stock ← parseStockFields code parts;
  bids ← parseSide parts 10;
  asks ← parseSide parts 20;
  Some {| swob_Stock := stock;
          swob_OrderBook :=
            OrderBook.mk (calculateOrderBookTotals bids)
                         (calculateOrderBookTotals asks) |}.

(** parseSinaStockDataWithOrderBook, on the submatches
    [(code, quoted text)] the feed's regular expression finds in the
    response body.  Empty and short records are skipped. *)
Fixpoint parseSinaStockDataWithOrderBook (matches : list (string * string))
  : option (list StockWithOrderBook) :=
  match matches with
  | [] => Some []
  | (code, text) :: rest =>
      if String.eqb text EmptyString
      then parseSinaStockDataWithOrderBook rest
      else
        let parts := strings_Split_comma text in
        if (length parts <? 32)%nat
        then parseSinaStockDataWithOrderBook rest
        else
          stock ← parseStockWithOrderBook code parts;
          stocks ← parseSinaStockDataWithOrderBook rest;
          Some (stock :: stocks)
  end.

(** parseSinaStockData: the same walk with parseStockFields. *)
Fixpoint parseSinaStockData (matches : list (string * string))
  : option (list Stock.t) :=
  match matches with
  | [] => Some []
  | (code, text) :: rest =>
      if String.eqb text EmptyString
      then parseSinaStockData rest
      else
        let parts := strings_Split_comma text in
        if (length parts <? 32)%nat
        then parseSinaStockData rest
        else
          stock ← parseStockFields code parts;
          stocks ← parseSinaStockData rest;
          Some (stock :: stocks)
  end.

End Parsing.

(** A record of the feed in the layout the source documents: name, open,
    previous close, price, high, low, bid, ask, volume, amount, five
    bid levels (volume, price), five ask levels, date, time. *)
Definition sample_record : string :=
  "600000,10.00,9.90,10.05,10.10,9.80,10.04,10.05,1234500,12400000.00,"
  +:+ "20000,10.04,30000,10.03,40000,10.02,50000,10.01,60000,10.00,"
  +:+ "15000,10.05,25000,10.06,35000,10.07,45000,10.08,55000,10.09,"
  +:+ "2024-01-02,10:30:00".

(** The same record with the best bid's price zeroed. *)
Definition gap_record : string :=
  "600000,10.00,9.90,10.05,10.10,9.80,10.04,10.05,1234500,12400000.00,"
  +:+ "20000,0.00,30000,10.03,40000,10.02,50000,10.01,60000,10.00,"
  +:+ "15000,10.05,25000,10.06,35000,10.07,45000,10.08,55000,10.09,"
  +:+ "2024-01-02,10:30:00".


(* ------------------------------------------------------------------ *)
(** ** fmt: the verbs [%.2f] and [%.0f]                                *)
(* ------------------------------------------------------------------ *)

(** Go prints the shortest-width decimal with [prec] digits after the
    point that is nearest to the exact binary value, ties to even. *)

Definition Z_to_string (n : Z) : string :=
  NilZero.string_of_uint (N.to_uint (Z.to_N n)).

Fixpoint zeros (n : nat) : string :=
  match n with
  | O => EmptyString
  | S n' => String "0" (zeros n')
  end.

Definition pad0 (width : nat) (s : string) : string :=
  zeros (width - String.length s) +:+ s.

(** The integer nearest to [num / den] ([0 <= num], [0 < den]), ties to
    the even neighbour. *)
Definition round_half_even (num den : Z) : Z :=
  let q := num / den in
  let r := num mod den in
  match 2 * r ?= den with
  | Lt => q
  | Gt => q + 1
  | Eq => if Z.even q then q else q + 1
  end.

(** [n] hundredths (for [prec = 2]) written as [int.frac]. *)
Definition fixed_digits (prec : nat) (n : Z) : string :=
  let scale := 10 ^ Z.of_nat prec in
  let ip := Z_to_string (n / scale) in
  match prec with
  | O => ip
  | _ => ip +:+ "." +:+ pad0 prec (Z_to_string (n mod scale))
  end.

Definition sign_string (neg : bool) : string :=
  if neg then "-" else EmptyString.

Definition format_f (prec : nat) (x : float) : string :=
  match Prim2SF x with
  | S754_nan => "NaN"
  | S754_infinity false => "+Inf"
  | S754_infinity true => "-Inf"
  | S754_zero neg => sign_string neg +:+ fixed_digits prec 0
  | S754_finite neg m e =>
      let scale := 10 ^ Z.of_nat prec in
      let n :=
        if 0 <=? e then Zpos m * 2 ^ e * scale
        else round_half_even (Zpos m * scale) (2 ^ (- e)) in
      sign_string neg +:+ fixed_digits prec n
  end.

(* ------------------------------------------------------------------ *)
(** ** time: instants, a fixed-offset civil clock, dates               *)
(* ------------------------------------------------------------------ *)

(** A [time.Time] is an instant (nanoseconds since the Unix epoch) and
    the offset, in seconds east of UTC, of the zone it is shown in.
    Zones are fixed offsets, as [time.FixedZone] has them. *)
Record Time : Type := {
  unixNano : Z;
  zoneOffset : Z }.

Definition second : Z := 1000000000.       (* time.Second, in ns *)
Definition hour_ns : Z := 3600 * second.   (* time.Hour *)

Definition Time_In (t : Time) (offset : Z) : Time :=
  {| unixNano := unixNano t; zoneOffset := offset |}.

(** [a.Sub(b)], a Duration in nanoseconds. *)
Definition Time_Sub (a b : Time) : Z := unixNano a - unixNano b.

Definition Time_Unix (t : Time) : Z := unixNano t / second.

Definition localSeconds (t : Time) : Z := Time_Unix t + zoneOffset t.
Definition localDays (t : Time) : Z := localSeconds t / 86400.

Definition Time_Hour (t : Time) : Z := (localSeconds t mod 86400) / 3600.
Definition Time_Minute (t : Time) : Z := (localSeconds t mod 3600) / 60.

(** [time.Weekday]: Sunday = 0 ... Saturday = 6; 1970-01-01 was a
    Thursday. *)
Definition Sunday : Z := 0.
Definition Saturday : Z := 6.
Definition Time_Weekday (t : Time) : Z := (localDays t + 4) mod 7.

(** Days since the epoch to the proleptic Gregorian (year, month, day),
    and back. *)
Definition civil_from_days (days : Z) : Z * Z * Z :=
  let z := days + 719468 in
  let era := z / 146097 in
  let doe := z - era * 146097 in
  let yoe := (doe - doe / 1460 + doe / 36524 - doe / 146096) / 365 in
  let y := yoe + era * 400 in
  let doy := doe - (365 * yoe + yoe / 4 - yoe / 100) in
  let mp := (5 * doy + 2) / 153 in
  let d := doy - (153 * mp + 2) / 5 + 1 in
  let m := if mp <? 10 then mp + 3 else mp - 9 in
  (if m <=? 2 then y + 1 else y, m, d).

Definition days_from_civil (y m d : Z) : Z :=
  let y' := if m <=? 2 then y - 1 else y in
  let era := y' / 400 in
  let yoe := y' - era * 400 in
  let doy := (153 * (if 2 <? m then m - 3 else m + 9) + 2) / 5 + d - 1 in
  let doe := yoe * 365 + yoe / 4 - yoe / 100 + doy in
  era * 146097 + doe - 719468.

Definition Time_Year (t : Time) : Z := fst (fst (civil_from_days (localDays t))).

(** [t.Format("2006-01-02")] (years 0..9999). *)
Definition Time_FormatDate (t : Time) : string :=
  let '(y, m, d) := civil_from_days (localDays t) in
  pad0 4 (Z_to_string y) +:+ "-" +:+ pad0 2 (Z_to_string m)
  +:+ "-" +:+ pad0 2 (Z_to_string d).

(** [t.AddDate(0, 0, n)] in a fixed-offset zone: [n] civil days. *)
Definition Time_AddDays (t : Time) (n : Z) : Time :=
  {| unixNano := unixNano t + n * 86400 * second; zoneOffset := zoneOffset t |}.

(** The zone of the market: [time.FixedZone("CST", 8*60*60)]. *)
Definition CST : Z := 8 * 60 * 60.

(** [time.Parse("2006-01-02 15:04:05", s)] followed by [Unix()]: the
    seconds since the epoch when the text parses, nothing otherwise. *)
Class TimeParse : Type := {
  time_Parse_datetime : string -> option Z }.

(** A reference instance for the fixed-width form
    [YYYY-MM-DD hh:mm:ss] with in-range fields. *)
Definition two_digits (s : string) (i : nat) : option Z :=
  a ← String.get i s; b ← String.get (S i) s;
  x ← digit_of a; y ← digit_of b; Some (10 * x + y).

Definition char_is (s : string) (i : nat) (c : ascii) : bool :=
  match String.get i s with
  | Some c' => Ascii.eqb c c'
  | None => false
  end.

Definition is_leap (y : Z) : bool :=
  ((y mod 4 =? 0) && negb (y mod 100 =? 0)) || (y mod 400 =? 0).

Definition days_in (y m : Z) : Z :=
  if m =? 2 then (if is_leap y then 29 else 28)
  else if (m =? 4) || (m =? 6) || (m =? 9) || (m =? 11) then 30 else 31.

Definition fixed_Parse_datetime (s : string) : option Z :=
  if negb (String.length s =? 19)%nat then None
  else if negb (char_is s 4 "-" && char_is s 7 "-" && char_is s 10 " "
                && char_is s 13 ":" && char_is s 16 ":") then None
  else
    yh ← two_digits s 0; yl ← two_digits s 2;
    mo ← two_digits s 5; d ← two_digits s 8;
    h ← two_digits s 11; mi ← two_digits s 14; sec ← two_digits s 17;
    let y := 100 * yh + yl in
    if (1 <=? mo) && (mo <=? 12) && (1 <=? d) && (d <=? days_in y mo)
       && (h <? 24) && (mi <? 60) && (sec <? 60)
    then Some (days_from_civil y mo d * 86400 + h * 3600 + mi * 60 + sec)
    else None.

Definition fixedTimeParse : TimeParse :=
  {| time_Parse_datetime := fixed_Parse_datetime |}.


(* ------------------------------------------------------------------ *)
(** ** The market service and the world around it                      *)
(* ------------------------------------------------------------------ *)

(** The bytes of a file or of a response body, seen through
    [json.Unmarshal]: they decode to a value or they do not. *)
Inductive Doc (A : Type) : Type :=
| Garbled
| Parsed (a : A).
Arguments Garbled {A}.
Arguments Parsed {A} a.

Record holidayDay : Type := {
  hday_Name : string;
  hday_Date : string;
  hday_IsOffDay : bool }.

Record holidayData : Type := {
  hd_Year : Z;
  hd_Days : list holidayDay }.

Record tradeDatesCache : Type := {
  TradeDates : list string;
  UpdatedAt : Time }.

Record stockCache : Type := {
  sc_data : list StockWithOrderBook;
  sc_timestamp : Time }.

Record klineCache : Type := {
  kc_data : list KLineData.t;
  kc_timestamp : Time }.

Record MarketStatus : Type := {
  Status : string;
  StatusText : string;
  IsTradeDay : bool;
  HolidayName : string }.

(** What the service writes to its log. *)
Inductive LogEntry : Type :=
| WarnHolidayLoadFailed (year : Z) (e : error)
| InfoHolidayLoaded (year : Z) (n : nat)
| DebugUseTradeDatesCache (n : nat)
| InfoFetchTradeDates
| WarnUseStaleTradeDates (e : error)
| WarnSaveTradeDatesFailed (e : error)
| InfoGotTradeDates (n : nat).

Definition is_warning (l : LogEntry) : bool :=
  match l with
  | WarnHolidayLoadFailed _ _ | WarnUseStaleTradeDates _
  | WarnSaveTradeDatesFailed _ => true
  | _ => false
  end.

(** Requests sent upstream. *)
Inductive Request : Type :=
| ReqStock (codes : list string)
| ReqKLine (code period : string) (days : Z)
| ReqHoliday (year : Z).

(** The fields of [MarketService], the package-level holiday table, the
    cache directory, and the environment: a clock (the n-th reading of
    [time.Now]), the host's zone, and what each upstream would answer to
    the n-th request. *)
Record World : Type := {
  ms_cache : gmap string stockCache;
  cacheTTL : Z;
  ms_klineCache : gmap string klineCache;
  klineCacheTTL : Z;
  holidayCacheData : gmap Z (gmap string bool);
  holidayFiles : gmap Z (Doc holidayData);
  tradeDatesFile : option (Doc tradeDatesCache);
  fs_writable : bool;
  clock : nat -> Z;
  clock_reads : nat;
  hostZone : Z;
  net_stock : nat -> list string -> Result (list (string * string));
  net_kline : nat -> string -> string -> Z -> Result (list KLineData.t);
  net_holiday : nat -> Z -> Result (Doc holidayData);
  requests : list Request;
  logs : list LogEntry }.

Definition set_ms_cache (f : gmap string stockCache -> gmap string stockCache)
  (w : World) : World :=
  {| ms_cache := f (ms_cache w); cacheTTL := cacheTTL w;
     ms_klineCache := ms_klineCache w; klineCacheTTL := klineCacheTTL w;
     holidayCacheData := holidayCacheData w; holidayFiles := holidayFiles w;
     tradeDatesFile := tradeDatesFile w; fs_writable := fs_writable w;
     clock := clock w; clock_reads := clock_reads w; hostZone := hostZone w;
     net_stock := net_stock w; net_kline := net_kline w;
     net_holiday := net_holiday w; requests := requests w; logs := logs w |}.

Definition set_ms_klineCache
  (f : gmap string klineCache -> gmap string klineCache) (w : World) : World :=
  {| ms_cache := ms_cache w; cacheTTL := cacheTTL w;
     ms_klineCache := f (ms_klineCache w); klineCacheTTL := klineCacheTTL w;
     holidayCacheData := holidayCacheData w; holidayFiles := holidayFiles w;
     tradeDatesFile := tradeDatesFile w; fs_writable := fs_writable w;
     clock := clock w; clock_reads := clock_reads w; hostZone := hostZone w;
     net_stock := net_stock w; net_kline := net_kline w;
     net_holiday := net_holiday w; requests := requests w; logs := logs w |}.

Definition set_holidayCacheData
  (f : gmap Z (gmap string bool) -> gmap Z (gmap string bool)) (w : World)
  : World :=
  {| ms_cache := ms_cache w; cacheTTL := cacheTTL w;
     ms_klineCache := ms_klineCache w; klineCacheTTL := klineCacheTTL w;
     holidayCacheData := f (holidayCacheData w); holidayFiles := holidayFiles w;
     tradeDatesFile := tradeDatesFile w; fs_writable := fs_writable w;
     clock := clock w; clock_reads := clock_reads w; hostZone := hostZone w;
     net_stock := net_stock w; net_kline := net_kline w;
     net_holiday := net_holiday w; requests := requests w; logs := logs w |}.

Definition set_holidayFiles
  (f : gmap Z (Doc holidayData) -> gmap Z (Doc holidayData)) (w : World)
  : World :=
  {| ms_cache := ms_cache w; cacheTTL := cacheTTL w;
     ms_klineCache := ms_klineCache w; klineCacheTTL := klineCacheTTL w;
     holidayCacheData := holidayCacheData w; holidayFiles := f (holidayFiles w);
     tradeDatesFile := tradeDatesFile w; fs_writable := fs_writable w;
     clock := clock w; clock_reads := clock_reads w; hostZone := hostZone w;
     net_stock := net_stock w; net_kline := net_kline w;
     net_holiday := net_holiday w; requests := requests w; logs := logs w |}.

Definition set_tradeDatesFile (d : option (Doc tradeDatesCache)) (w : World)
  : World :=
  {| ms_cache := ms_cache w; cacheTTL := cacheTTL w;
     ms_klineCache := ms_klineCache w; klineCacheTTL := klineCacheTTL w;
     holidayCacheData := holidayCacheData w; holidayFiles := holidayFiles w;
     tradeDatesFile := d; fs_writable := fs_writable w;
     clock := clock w; clock_reads := clock_reads w; hostZone := hostZone w;
     net_stock := net_stock w; net_kline := net_kline w;
     net_holiday := net_holiday w; requests := requests w; logs := logs w |}.

Definition set_clock_reads (n : nat) (w : World) : World :=
  {| ms_cache := ms_cache w; cacheTTL := cacheTTL w;
     ms_klineCache := ms_klineCache w; klineCacheTTL := klineCacheTTL w;
     holidayCacheData := holidayCacheData w; holidayFiles := holidayFiles w;
     tradeDatesFile := tradeDatesFile w; fs_writable := fs_writable w;
     clock := clock w; clock_reads := n; hostZone := hostZone w;
     net_stock := net_stock w; net_kline := net_kline w;
     net_holiday := net_holiday w; requests := requests w; logs := logs w |}.

Definition set_requests (r : list Request) (w : World) : World :=
  {| ms_cache := ms_cache w; cacheTTL := cacheTTL w;
     ms_klineCache := ms_klineCache w; klineCacheTTL := klineCacheTTL w;
     holidayCacheData := holidayCacheData w; holidayFiles := holidayFiles w;
     tradeDatesFile := tradeDatesFile w; fs_writable := fs_writable w;
     clock := clock w; clock_reads := clock_reads w; hostZone := hostZone w;
     net_stock := net_stock w; net_kline := net_kline w;
     net_holiday := net_holiday w; requests := r; logs := logs w |}.

Definition set_logs (l : list LogEntry) (w : World) : World :=
  {| ms_cache := ms_cache w; cacheTTL := cacheTTL w;
     ms_klineCache := ms_klineCache w; klineCacheTTL := klineCacheTTL w;
     holidayCacheData := holidayCacheData w; holidayFiles := holidayFiles w;
     tradeDatesFile := tradeDatesFile w; fs_writable := fs_writable w;
     clock := clock w; clock_reads := clock_reads w; hostZone := hostZone w;
     net_stock := net_stock w; net_kline := net_kline w;
     net_holiday := net_holiday w; requests := requests w; logs := l |}.

(** *** A state monad with panics *)

Definition M (A : Type) : Type := World -> option (A * World).

Definition ret {A} (a : A) : M A := fun w => Some (a, w).

Definition bind {A B} (m : M A) (k : A -> M B) : M B :=
  fun w => match m w with
           | Some (a, w') => k a w'
           | None => None
           end.

Definition panic {A} : M A := fun _ => None.

Notation "x <~ m ;; k" := (bind m (fun x => k))
  (at level 100, m at next level, right associativity).
Notation "m ;;; k" := (bind m (fun _ => k))
  (at level 100, right associativity).

(** [time.Now()], shown in the host's zone. *)
Definition time_Now : M Time :=
  fun w => Some ({| unixNano := clock w (clock_reads w);
                    zoneOffset := hostZone w |},
                 set_clock_reads (S (clock_reads w)) w).

(** [time.Since(t)] *)
Definition time_Since (t : Time) : M Z :=
  now <~ time_Now ;; ret (Time_Sub now t).

Definition log (l : LogEntry) : M unit :=
  fun w => Some (tt, set_logs (logs w ++ [l]) w).

Definition send (r : Request) : M nat :=
  fun w => Some (length (requests w), set_requests (requests w ++ [r]) w).

Definition get {A} (f : World -> A) : M A := fun w => Some (f w, w).

Definition modify (f : World -> World) : M unit := fun w => Some (tt, f w).

(** What came out of a run. *)
Definition result_of {A} (r : option (A * World)) : option A :=
  option_map fst r.

(** A view of the world it left. *)
Definition left_with {A B} (view : World -> B) (r : option (A * World))
  : option B :=
  option_map (fun aw => view (snd aw)) r.

(** [sort.Strings]: ascending byte order. *)
Fixpoint insert_sorted (x : string) (l : list string) : list string :=
  match l with
  | [] => [x]
  | y :: l' => if String.leb x y then x :: l else y :: insert_sorted x l'
  end.

Definition sort_Strings (l : list string) : list string :=
  fold_right insert_sorted [] l.

(** [%d] *)
Definition Z_to_decimal (z : Z) : string :=
  if z <? 0 then "-" +:+ Z_to_string (- z) else Z_to_string z.

Section MarketService.
Context `{Strconv}.

(** *** Quotes with order book, behind a short-lived cache *)

(** fetchStockDataWithOrderBook: one round trip to the quote source (the
    URL carries a clock reading), then the records are parsed. *)
Definition fetchStockDataWithOrderBook (codes : list string)
  : M (Result (list StockWithOrderBook)) :=
  _ <~ time_Now ;;
  n <~ send (ReqStock codes) ;;
  reply <~ get (fun w => net_stock w n codes) ;;
  match reply with
  | Err e => ret (Err e)
  | Ok matches =>
      match parseSinaStockDataWithOrderBook matches with
      | Some stocks => ret (Ok stocks)
      | None => panic
      end
  end.

Definition stockCacheKey (codes : list string) : string :=
  strings_Join (sort_Strings codes) ",".

(** The tail of GetStockDataWithOrderBook and GetKLineData after a miss. *)
Definition storeStock (cacheKey : string)
    (r : Result (list StockWithOrderBook))
  : M (Result (list StockWithOrderBook)) :=
  match r with
  | Err e => ret (Err e)
  | Ok data =>
      now <~ time_Now ;;
      modify (set_ms_cache
                <[cacheKey := {| sc_data := data; sc_timestamp := now |}]>) ;;;
      ret (Ok data)
  end.

Definition GetStockDataWithOrderBook (codes : list string)
  : M (Result (list StockWithOrderBook)) :=
  match codes with
  | [] => ret (Ok [])
  | _ =>
      let cacheKey := stockCacheKey codes in
      entry <~ get (fun w => ms_cache w !! cacheKey) ;;
      ttl <~ get cacheTTL ;;
      match entry with
      | Some cached =>
          age <~ time_Since (sc_timestamp cached) ;;
          if age <? ttl then ret (Ok (sc_data cached))
          else (data <~ fetchStockDataWithOrderBook codes ;;
                storeStock cacheKey data)
      | None =>
          data <~ fetchStockDataWithOrderBook codes ;;
          storeStock cacheKey data
      end
  end.

(** GetRealOrderBook *)
Definition GetRealOrderBook (code : string) : M (Result OrderBook.t) :=
  r <~ GetStockDataWithOrderBook [code] ;;
  match r with
  | Err e => ret (Err e)
  | Ok [] => ret (Ok OrderBook.empty)
  | Ok (first :: _) => ret (Ok (swob_OrderBook first))
  end.

(** *** Candles behind their own cache *)

(** [s[:10]]: the first ten bytes, a panic on a shorter string. *)
Definition first10 (s : string) : option string :=
  if (10 <=? String.length s)%nat then Some (String.substring 0 10 s)
  else None.

(** The test [len(k.Time) >= 10 && k.Time[:10] == day] of
    filterTodayKLines. *)
Definition onDay (day : string) (k : KLineData.t) : bool :=
  match first10 (KLineData.Time k) with
  | Some d => String.eqb d day
  | None => false
  end.

(** filterTodayKLines: the buckets of today (the host's date); when
    there is none, the buckets of the day of the last bucket. *)
Definition filterTodayKLines (klines : list KLineData.t)
  : M (list KLineData.t) :=
  match klines with
  | [] => ret klines
  | _ =>
      now <~ time_Now ;;
      let today := Time_FormatDate now in
      let result := List.filter (onDay today) klines in
      match result with
      | [] =>
          match last klines with
          | Some lastBucket =>
              match first10 (KLineData.Time lastBucket) with
              | Some lastDay => ret (List.filter (onDay lastDay) klines)
              | None => panic
              end
          | None => ret result
          end
      | _ => ret result
      end
  end.

Definition set_Avg (avg : float) (k : KLineData.t) : KLineData.t :=
  KLineData.mk (KLineData.Time k) (KLineData.Open k) (KLineData.High k)
    (KLineData.Low k) (KLineData.Close k) (KLineData.Volume k)
    (KLineData.Amount k) (KLineData.MA5 k) (KLineData.MA10 k)
    (KLineData.MA20 k) avg.

(** The loop of calculateAvgLine: running amount over running volume. *)
Fixpoint avgLoop (totalAmount : float) (totalVolume : Z)
    (klines : list KLineData.t) : list KLineData.t :=
  match klines with
  | [] => []
  | k :: rest =>
      let totalAmount' := (totalAmount + KLineData.Amount k)%float in
      let totalVolume' := wrap64 (totalVolume + KLineData.Volume k) in
      (if 0 <? totalVolume'
       then set_Avg (totalAmount' / float64_of_int totalVolume')%float k
       else k)
      :: avgLoop totalAmount' totalVolume' rest
  end.

(** calculateAvgLine *)
Definition calculateAvgLine (klines : list KLineData.t)
  : list KLineData.t :=
  avgLoop 0%float 0 klines.

(** The tail of fetchKLineData: in minute mode ([period == "1m"]) only
    the buckets of one day are returned, with the average line. *)
Definition minuteMode (period : string) (klines : list KLineData.t)
  : M (list KLineData.t) :=
  if String.eqb period "1m" then
    today <~ filterTodayKLines klines ;;
    ret (calculateAvgLine today)
  else ret klines.

(** fetchKLineData: one round trip to the candle source ([net_kline] is
    what parseKLineData makes of the reply), then the minute mode. *)
Definition fetchKLineData (code period : string) (days : Z)
  : M (Result (list KLineData.t)) :=
  n <~ send (ReqKLine code period days) ;;
  reply <~ get (fun w => net_kline w n code period days) ;;
  match reply with
  | Err e => ret (Err e)
  | Ok klines =>
      klines' <~ minuteMode period klines ;;
      ret (Ok klines')
  end.

Definition klineCacheKey (code period : string) (days : Z) : string :=
  code +:+ ":" +:+ period +:+ ":" +:+ Z_to_decimal days.

Definition storeKLine (cacheKey : string) (r : Result (list KLineData.t))
  : M (Result (list KLineData.t)) :=
  match r with
  | Err e => ret (Err e)
  | Ok klines =>
      now <~ time_Now ;;
      modify (set_ms_klineCache
                <[cacheKey := {| kc_data := klines; kc_timestamp := now |}]>) ;;;
      ret (Ok klines)
  end.

Definition GetKLineData (code period : string) (days : Z)
  : M (Result (list KLineData.t)) :=
  let cacheKey := klineCacheKey code period days in
  entry <~ get (fun w => ms_klineCache w !! cacheKey) ;;
  ttl <~ get klineCacheTTL ;;
  match entry with
  | Some cached =>
      age <~ time_Since (kc_timestamp cached) ;;
      if age <? ttl then ret (Ok (kc_data cached))
      else (klines <~ fetchKLineData code period days ;;
            storeKLine cacheKey klines)
  | None =>
      klines <~ fetchKLineData code period days ;;
      storeKLine cacheKey klines
  end.

(** *** The trading calendar *)

(** parseHolidayData *)
Definition parseHolidayData (hd : holidayData) : gmap string bool :=
  fold_left (fun data day => <[hday_Date day := hday_IsOffDay day]> data)
            (hd_Days hd) ∅.

(** fetchHolidayData: the yearly document from the CDN; on success it is
    written to the year's file (a failed write is not looked at) and
    kept in memory. *)
Definition fetchHolidayData (year : Z) : M (Result (gmap string bool)) :=
  n <~ send (ReqHoliday year) ;;
  reply <~ get (fun w => net_holiday w n year) ;;
  match reply with
  | Err e => ret (Err e)
  | Ok Garbled => ret (Err ErrJSON)
  | Ok (Parsed hd) =>
      modify (fun w => if fs_writable w
                       then set_holidayFiles <[year := Parsed hd]> w
                       else w) ;;;
      let data := parseHolidayData hd in
      modify (set_holidayCacheData <[year := data]>) ;;;
      log (InfoHolidayLoaded year (length (hd_Days hd))) ;;;
      ret (Ok data)
  end.

(** loadHolidayData: memory, then the year's file, then the CDN. *)
Definition loadHolidayData (year : Z) : M (Result (gmap string bool)) :=
  mem <~ get (fun w => holidayCacheData w !! year) ;;
  match mem with
  | Some data => ret (Ok data)
  | None =>
      file <~ get (fun w => holidayFiles w !! year) ;;
      match file with
      | Some (Parsed hd) =>
          let data := parseHolidayData hd in
          modify (set_holidayCacheData <[year := data]>) ;;;
          ret (Ok data)
      | _ => fetchHolidayData year
      end
  end.

(** getHolidayNote: the name is read from the year's file. *)
Definition getHolidayNote (year : Z) (dateStr : string) : M string :=
  file <~ get (fun w => holidayFiles w !! year) ;;
  match file with
  | Some (Parsed hd) =>
      match List.find (fun day => String.eqb (hday_Date day) dateStr)
                      (hd_Days hd) with
      | Some day => ret (hday_Name day)
      | None => ret EmptyString
      end
  | _ => ret EmptyString
  end.

(** getHolidayStatus: (isOffDay, inList, note). *)
Definition getHolidayStatus (date : Time) : M (bool * bool * string) :=
  let dateStr := Time_FormatDate date in
  let year := Time_Year date in
  yearData <~ loadHolidayData year ;;
  match yearData with
  | Err e =>
      log (WarnHolidayLoadFailed year e) ;;;
      ret (false, false, EmptyString)
  | Ok data =>
      match data !! dateStr with
      | Some isOff =>
          noteName <~ getHolidayNote year dateStr ;;
          ret (isOff, true, noteName)
      | None => ret (false, false, EmptyString)
      end
  end.

Definition weekend_note : string := "周末".

(** isTradeDay *)
Definition isTradeDay (date : Time) : M (bool * string) :=
  let weekday := Time_Weekday date in
  if (weekday =? Saturday) || (weekday =? Sunday)
  then ret (false, weekend_note)
  else
    st <~ getHolidayStatus date ;;
    let '(isOffDay, inList, note) := st in
    if inList && isOffDay then ret (false, note)
    else ret (true, EmptyString).

(** GetMarketStatus *)
Definition GetMarketStatus : M MarketStatus :=
  now0 <~ time_Now ;;
  let now := Time_In now0 CST in
  td <~ isTradeDay now ;;
  let '(isTradeDay_, holidayName) := td in
  if negb isTradeDay_ then
    let statusText :=
      if negb (String.eqb holidayName EmptyString)
      then holidayName +:+ "休市"
      else if (Time_Weekday now =? Saturday) || (Time_Weekday now =? Sunday)
           then "周末休市"
           else "休市" in
    ret {| Status := "closed"; StatusText := statusText;
           IsTradeDay := false; HolidayName := holidayName |}
  else
    let currentMinutes := Time_Hour now * 60 + Time_Minute now in
    if currentMinutes <? 9 * 60 + 15 then
      ret {| Status := "pre_market"; StatusText := "盘前";
             IsTradeDay := true; HolidayName := EmptyString |}
    else if currentMinutes <? 9 * 60 + 30 then
      ret {| Status := "pre_market"; StatusText := "集合竞价";
             IsTradeDay := true; HolidayName := EmptyString |}
    else if currentMinutes <? 11 * 60 + 30 then
      ret {| Status := "trading"; StatusText := "交易中";
             IsTradeDay := true; HolidayName := EmptyString |}
    else if currentMinutes <? 13 * 60 then
      ret {| Status := "lunch_break"; StatusText := "午间休市";
             IsTradeDay := true; HolidayName := EmptyString |}
    else if currentMinutes <? 15 * 60 then
      ret {| Status := "trading"; StatusText := "交易中";
             IsTradeDay := true; HolidayName := EmptyString |}
    else
      ret {| Status := "closed"; StatusText := "已收盘";
             IsTradeDay := true; HolidayName := EmptyString |}.

(** isTradeDate *)
Definition isTradeDate (date : Time) : M bool :=
  td <~ isTradeDay date ;; ret (fst td).

(** *** The rolling window of trading dates *)

(** filterTradeDates; [dates[:days]] panics on a negative bound. *)
Definition filterTradeDates (dates : list string) (days : Z)
  : M (list string) :=
  if Z.of_nat (length dates) <=? days then ret dates
  else if days <? 0 then panic
  else ret (take (Z.to_nat days) dates).

(** loadTradeDatesCache *)
Definition loadTradeDatesCache : M (Result tradeDatesCache) :=
  file <~ get tradeDatesFile ;;
  match file with
  | None => ret (Err ErrFile)
  | Some Garbled => ret (Err ErrJSON)
  | Some (Parsed c) => ret (Ok c)
  end.

(** saveTradeDatesCache *)
Definition saveTradeDatesCache (dates : list string) : M (Result unit) :=
  now <~ time_Now ;;
  writable <~ get fs_writable ;;
  if writable then
    modify (set_tradeDatesFile
              (Some (Parsed {| TradeDates := dates; UpdatedAt := now |}))) ;;;
    ret (Ok tt)
  else ret (Err ErrFile).

Definition upto (days : Z) : list Z := map Z.of_nat (seq 0 (Z.to_nat days)).

(** The preloading loop of fetchTradeDates: a failure is logged and the
    loop goes on.  (Go ranges over a map; the years are taken here in
    the order they are first met.) *)
Fixpoint preloadYears (years : list Z) : M unit :=
  match years with
  | [] => ret tt
  | year :: rest =>
      r <~ loadHolidayData year ;;
      match r with
      | Err e => log (WarnHolidayLoadFailed year e)
      | Ok _ => ret tt
      end ;;;
      preloadYears rest
  end.

Fixpoint collectTradeDates (today : Time) (offsets : list Z)
    (tradeDates : list string) : M (list string) :=
  match offsets with
  | [] => ret tradeDates
  | i :: rest =>
      let date := Time_AddDays today (- i) in
      let dateStr := Time_FormatDate date in
      ok <~ isTradeDate date ;;
      collectTradeDates today rest
        (if ok then tradeDates ++ [dateStr] else tradeDates)
  end.

(** fetchTradeDates *)
Definition fetchTradeDates (days : Z) : M (Result (list string)) :=
  today <~ time_Now ;;
  let yearsNeeded :=
    remove_dups (map (fun i => Time_Year (Time_AddDays today (- i)))
                     (upto days)) in
  preloadYears yearsNeeded ;;;
  tradeDates <~ collectTradeDates today (upto days) [] ;;
  log (InfoGotTradeDates (length tradeDates)) ;;;
  ret (Ok tradeDates).

(** The part of GetTradeDates after the freshness check. *)
Definition refreshTradeDates (cached : option tradeDatesCache) (days : Z)
  : M (Result (list string)) :=
  log InfoFetchTradeDates ;;;
  r <~ fetchTradeDates 90 ;;
  match r with
  | Err e =>
      match cached with
      | Some c =>
          if (0 <? length (TradeDates c))%nat then
            log (WarnUseStaleTradeDates e) ;;;
            l <~ filterTradeDates (TradeDates c) days ;; ret (Ok l)
          else ret (Err e)
      | None => ret (Err e)
      end
  | Ok tradeDates =>
      s <~ saveTradeDatesCache tradeDates ;;
      match s with
      | Err e => log (WarnSaveTradeDatesFailed e)
      | Ok _ => ret tt
      end ;;;
      l <~ filterTradeDates tradeDates days ;; ret (Ok l)
  end.

(** GetTradeDates *)
Definition GetTradeDates (days : Z) : M (Result (list string)) :=
  loaded <~ loadTradeDatesCache ;;
  match loaded with
  | Ok c =>
      if (0 <? length (TradeDates c))%nat then
        age <~ time_Since (UpdatedAt c) ;;
        if age <? 24 * hour_ns then
          log (DebugUseTradeDatesCache (length (TradeDates c))) ;;;
          l <~ filterTradeDates (TradeDates c) days ;; ret (Ok l)
        else refreshTradeDates (Some c) days
      else refreshTradeDates (Some c) days
  | Err _ => refreshTradeDates None days
  end.

End MarketService.

(* ------------------------------------------------------------------ *)
(** ** The market data pusher                                          *)
(* ------------------------------------------------------------------ *)

Record KLineSubscription : Type := {
  Code : string;
  Period : string }.

Record MarketDataPusher : Type := {
  subscribedCodes : list string;
  currentOrderBook : string;
  klineSub : KLineSubscription;
  lastKLineTime : Z;
  lastTelegraphContent : string;
  lastOrderBookHash : string;
  lastMarketStatus : string;
  lastMarketStatusTime : Time }.

(** NewMarketDataPusher: every field at its zero value. *)
Definition NewMarketDataPusher : MarketDataPusher :=
  {| subscribedCodes := [];
     currentOrderBook := EmptyString;
     klineSub := {| Code := EmptyString; Period := EmptyString |};
     lastKLineTime := 0;
     lastTelegraphContent := EmptyString;
     lastOrderBookHash := EmptyString;
     lastMarketStatus := EmptyString;
     lastMarketStatusTime := {| unixNano := 0; zoneOffset := 0 |} |}.

Definition set_subscribedCodes (l : list string) (p : MarketDataPusher)
  : MarketDataPusher :=
  {| subscribedCodes := l;
     currentOrderBook := currentOrderBook p;
     klineSub := klineSub p;
     lastKLineTime := lastKLineTime p;
     lastTelegraphContent := lastTelegraphContent p;
     lastOrderBookHash := lastOrderBookHash p;
     lastMarketStatus := lastMarketStatus p;
     lastMarketStatusTime := lastMarketStatusTime p |}.

Definition set_klineSub (sub : KLineSubscription) (p : MarketDataPusher)
  : MarketDataPusher :=
  {| subscribedCodes := subscribedCodes p;
     currentOrderBook := currentOrderBook p;
     klineSub := sub;
     lastKLineTime := lastKLineTime p;
     lastTelegraphContent := lastTelegraphContent p;
     lastOrderBookHash := lastOrderBookHash p;
     lastMarketStatus := lastMarketStatus p;
     lastMarketStatusTime := lastMarketStatusTime p |}.

Definition set_lastKLineTime (t : Z) (p : MarketDataPusher)
  : MarketDataPusher :=
  {| subscribedCodes := subscribedCodes p;
     currentOrderBook := currentOrderBook p;
     klineSub := klineSub p;
     lastKLineTime := t;
     lastTelegraphContent := lastTelegraphContent p;
     lastOrderBookHash := lastOrderBookHash p;
     lastMarketStatus := lastMarketStatus p;
     lastMarketStatusTime := lastMarketStatusTime p |}.

Definition set_lastTelegraphContent (c : string) (p : MarketDataPusher)
  : MarketDataPusher :=
  {| subscribedCodes := subscribedCodes p;
     currentOrderBook := currentOrderBook p;
     klineSub := klineSub p;
     lastKLineTime := lastKLineTime p;
     lastTelegraphContent := c;
     lastOrderBookHash := lastOrderBookHash p;
     lastMarketStatus := lastMarketStatus p;
     lastMarketStatusTime := lastMarketStatusTime p |}.

Definition set_lastOrderBookHash (h : string) (p : MarketDataPusher)
  : MarketDataPusher :=
  {| subscribedCodes := subscribedCodes p;
     currentOrderBook := currentOrderBook p;
     klineSub := klineSub p;
     lastKLineTime := lastKLineTime p;
     lastTelegraphContent := lastTelegraphContent p;
     lastOrderBookHash := h;
     lastMarketStatus := lastMarketStatus p;
     lastMarketStatusTime := lastMarketStatusTime p |}.

(** What [runtime.EventsEmit] publishes.  The candle payload is a map;
    its [incremental] key is absent on a full push. *)
Inductive Event : Type :=
| OrderBookUpdate (ob : OrderBook.t)
| KLineUpdate (code period : string) (data : list KLineData.t)
              (incremental : option bool).

(** *** Subscriptions *)

(** [slices.Contains] *)
Definition slices_Contains (l : list string) (code : string) : bool :=
  existsb (String.eqb code) l.

(** AddSubscription *)
Definition AddSubscription (code : string) (p : MarketDataPusher)
  : MarketDataPusher :=
  if negb (slices_Contains (subscribedCodes p) code)
  then set_subscribedCodes (subscribedCodes p ++ [code]) p
  else p.

(** The loop of RemoveSubscription: the first element equal to [code] is
    cut out and the loop returns. *)
Fixpoint removeFirst (code : string) (l : list string) : list string :=
  match l with
  | [] => []
  | c :: rest =>
      if String.eqb c code then rest else c :: removeFirst code rest
  end.

(** RemoveSubscription *)
Definition RemoveSubscription (code : string) (p : MarketDataPusher)
  : MarketDataPusher :=
  set_subscribedCodes (removeFirst code (subscribedCodes p)) p.

(** The listener on the candle-subscribe event: a non-empty symbol and
    period replace the subscription and reset the marker of the last
    pushed bucket. *)
Definition onKLineSubscribe (code period : string) (p : MarketDataPusher)
  : MarketDataPusher :=
  if negb (String.eqb code EmptyString) && negb (String.eqb period EmptyString)
  then set_lastKLineTime 0 (set_klineSub {| Code := code; Period := period |} p)
  else p.

(** *** Change detection on the order book *)

(** orderBookHash *)
Definition orderBookHash (ob : OrderBook.t) : string :=
  let '(b1Price, b1Size) :=
    match OrderBook.Bids ob with
    | b :: _ => (OrderBookItem.Price b, float64_of_int (OrderBookItem.Size b))
    | [] => (0%float, 0%float)
    end in
  let '(a1Price, a1Size) :=
    match OrderBook.Asks ob with
    | a :: _ => (OrderBookItem.Price a, float64_of_int (OrderBookItem.Size a))
    | [] => (0%float, 0%float)
    end in
  format_f 2 b1Price +:+ ":" +:+ format_f 0 b1Size +:+ ":"
  +:+ format_f 2 a1Price +:+ ":" +:+ format_f 0 a1Size.

Section Pusher.
Context `{Strconv} `{TimeParse}.

(** pushOrderBookData *)
Definition pushOrderBookData (p : MarketDataPusher)
  : M (MarketDataPusher * list Event) :=
  let code := currentOrderBook p in
  let lastHash := lastOrderBookHash p in
  if String.eqb code EmptyString then ret (p, [])
  else
    r <~ GetRealOrderBook code ;;
    match r with
    | Err _ => ret (p, [])
    | Ok orderBook =>
        let hash := orderBookHash orderBook in
        if String.eqb hash lastHash then ret (p, [])
        else ret (set_lastOrderBookHash hash p, [OrderBookUpdate orderBook])
    end.

(** parseKLineTime *)
Definition parseKLineTime (t : string) : Z :=
  match time_Parse_datetime t with
  | Some unix => unix
  | None => 0
  end.

(** pushKLineData: the full push. *)
Definition pushKLineData (p : MarketDataPusher)
  : M (MarketDataPusher * list Event) :=
  let sub := klineSub p in
  if String.eqb (Code sub) EmptyString then ret (p, [])
  else
    r <~ GetKLineData (Code sub) (Period sub) 240 ;;
    match r with
    | Err _ => ret (p, [])
    | Ok klines => ret (p, [KLineUpdate (Code sub) (Period sub) klines None])
    end.

(** pushKLineMinute: the incremental push. *)
Definition pushKLineMinute (p : MarketDataPusher)
  : M (MarketDataPusher * list Event) :=
  let sub := klineSub p in
  let lastTime := lastKLineTime p in
  if String.eqb (Code sub) EmptyString || negb (String.eqb (Period sub) "1m")
  then ret (p, [])
  else
    r <~ GetKLineData (Code sub) "1m" 5 ;;
    match r with
    | Err _ => ret (p, [])
    | Ok klines =>
        match last klines with
        | None => ret (p, [])
        | Some latest =>
            let latestTime := parseKLineTime (KLineData.Time latest) in
            let p' := set_lastKLineTime latestTime p in
            if (lastTime =? 0) || negb (latestTime =? lastTime)
            then ret (p', [KLineUpdate (Code sub) "1m" [latest] (Some true)])
            else ret (p', [])
        end
    end.

(** pushKLineDay *)
Definition pushKLineDay (p : MarketDataPusher)
  : M (MarketDataPusher * list Event) :=
  let sub := klineSub p in
  if String.eqb (Code sub) EmptyString || String.eqb (Period sub) "1m"
  then ret (p, [])
  else
    r <~ GetKLineData (Code sub) (Period sub) 120 ;;
    match r with
    | Err _ => ret (p, [])
    | Ok klines => ret (p, [KLineUpdate (Code sub) (Period sub) klines None])
    end.

End Pusher.

(** *** News flashes

    The news service and its item type are collaborators outside the
    core: the item type is a parameter of which only the content is
    read, and one call of GetTelegraphList is its result (no service at
    all is [None]). *)
Section Telegraph.
Variable Telegraph : Type.
Variable Content : Telegraph -> string.

(** pushTelegraphData *)
Definition pushTelegraphData (newsService : option (Result (list Telegraph)))
    (p : MarketDataPusher) : MarketDataPusher * list Telegraph :=
  match newsService with
  | None => (p, [])
  | Some (Err _) => (p, [])
  | Some (Ok []) => (p, [])
  | Some (Ok (latest :: _)) =>
      if String.eqb (Content latest) (lastTelegraphContent p) then (p, [])
      else (set_lastTelegraphContent (Content latest) p, [latest])
  end.

(** The slow ticker: one invocation per tick, each with what the news
    service returns at that tick; the events are collected in order. *)
Fixpoint telegraphTicks (fetches : list (option (Result (list Telegraph))))
    (p : MarketDataPusher) : MarketDataPusher * list Telegraph :=
  match fetches with
  | [] => (p, [])
  | f :: rest =>
      let '(p1, out1) := pushTelegraphData f p in
      let '(p2, out2) := telegraphTicks rest p1 in
      (p2, out1 ++ out2)
  end.

(** The history: the content recorded at the start followed by the
    contents published since. *)
Definition history (start : MarketDataPusher) (out : list Telegraph)
  : list string :=
  lastTelegraphContent start :: map Content out.

End Telegraph.

(* ------------------------------------------------------------------ *)
(** ** Vocabulary of the statements, and inputs to run the code on     *)
(* ------------------------------------------------------------------ *)

Definition watching (codes : list string) : MarketDataPusher :=
  set_subscribedCodes codes NewMarketDataPusher.

(** No two neighbours of the list are equal. *)
Fixpoint no_repeat (l : list string) : Prop :=
  match l with
  | a :: (b :: _) as rest => a <> b /\ no_repeat rest
  | _ => True
  end.

(** The level [i] (0 = best) of the side whose fields start at [base],
    as the record gives it: price, and volume in lots. *)
Definition rawLevel `{Strconv} (parts : list string) (base i : nat)
  : float * Z :=
  (ParseFloat (nth (base + 1 + i * 2) parts EmptyString),
   Z.quot (ParseInt (nth (base + i * 2) parts EmptyString)) 100).

Definition rawLevels `{Strconv} (parts : list string) (base : nat)
  : list (float * Z) :=
  map (rawLevel parts base) (seq 0 5).

Definition priced (l : float * Z) : bool := fgt (fst l) 0.

Definition level_of (it : OrderBookItem.t) : float * Z :=
  (OrderBookItem.Price it, OrderBookItem.Size it).

Definition item_of (l : float * Z) : OrderBookItem.t :=
  OrderBookItem.mk (fst l) (snd l) 0 0%float.

(** The reading of the interface text: the walk over a side stops at
    the first level without a positive price. *)
Fixpoint levels_until_gap (ls : list (float * Z)) : list (float * Z) :=
  match ls with
  | [] => []
  | l :: rest => if priced l then l :: levels_until_gap rest else []
  end.

(** A record whose previous close is unknown (0): the change is the
    price and the change-percent is 0. *)
Definition unknown_close_record : list string :=
  ["n"; "10.00"; "0.00"; "10.05"; "10.10"; "9.80"; "0"; "0"; "100"; "1005.00"].

(** The best bid and the best ask of a snapshot, when there is one. *)
Definition topOfBook (ob : OrderBook.t)
  : option (float * Z) * option (float * Z) :=
  (option_map level_of (head (OrderBook.Bids ob)),
   option_map level_of (head (OrderBook.Asks ob))).

Definition lvl (price : float) (size : Z) : OrderBookItem.t :=
  OrderBookItem.mk price size 0 0%float.

(** Two records of a fund quoted to the third decimal; the best bid
    moves from 1.231 to 1.232. *)
Definition fund_record (bid1 : string) : string :=
  "fund,1.230,1.229,1.232,1.240,1.220,1.231,1.233,500000,616000.000,"
  +:+ "80000," +:+ bid1 +:+ ",30000,1.230,40000,1.229,50000,1.228,60000,1.227,"
  +:+ "15000,1.233,25000,1.234,35000,1.235,45000,1.236,55000,1.237,"
  +:+ "2024-01-02,10:30:00".

Definition book_of (record : string) : option OrderBook.t :=
  option_map swob_OrderBook
    (@parseStockWithOrderBook decimalStrconv "sh510300"
       (strings_Split_comma record)).

(** The top of book as the fingerprint prints it: prices with two
    decimals, sizes as integers, an empty side as price 0 and size 0. *)
Definition printedTop (ob : OrderBook.t)
  : (string * string) * (string * string) :=
  let side (top : option (float * Z)) :=
    match top with
    | Some (price, size) =>
        (format_f 2 price, format_f 0 (float64_of_int size))
    | None => (format_f 2 0, format_f 0 0)
    end in
  (side (fst (topOfBook ob)), side (snd (topOfBook ob))).

Fixpoint colon_free (s : string) : bool :=
  match s with
  | EmptyString => true
  | String c s' => negb (Ascii.eqb c ":") && colon_free s'
  end.

(** A computation that cannot panic. *)
Definition total {A} (m : M A) : Prop :=
  forall w, exists a w', m w = Some (a, w').

(** Minute of the day, as GetMarketStatus computes it. *)
Definition minuteOfDay (t : Time) : Z := Time_Hour t * 60 + Time_Minute t.

(** The instant GetMarketStatus reads, on the market's clock. *)
Definition marketNow (w : World) : Time :=
  Time_In {| unixNano := clock w (clock_reads w); zoneOffset := hostZone w |}
          CST.

(** A world for running the calendar: the clock starts at [unix]
    seconds and moves a millisecond per reading, the host is on UTC, the
    holiday table in memory is [table], the disk is empty and every
    upstream is unreachable. *)
Definition world_at (unix : Z) (table : gmap Z (gmap string bool)) : World :=
  {| ms_cache := ∅; cacheTTL := 2 * second;
     ms_klineCache := ∅; klineCacheTTL := 2 * second;
     holidayCacheData := table; holidayFiles := ∅;
     tradeDatesFile := None; fs_writable := true;
     clock := fun n => Z.of_nat n * 1000000 + unix * second;
     clock_reads := 0; hostZone := 0;
     net_stock := fun _ _ => Err ErrTransport;
     net_kline := fun _ _ _ _ => Err ErrTransport;
     net_holiday := fun _ _ => Err ErrTransport;
     requests := []; logs := [] |}.

(** The holiday table of 2024, New Year's Day only. *)
Definition table2024 : gmap Z (gmap string bool) :=
  {[ 2024 := {[ "2024-01-01" := true ]} ]}.

(** Tuesday 2024-01-02, 09:15:00 on the UTC+8 clock. *)
Definition tuesday_0915 : Z := 1704158100.

(** What the CDN's answer amounts to when it is of no use. *)
Definition reply_error (r : Result (Doc holidayData)) : option error :=
  match r with
  | Err e => Some e
  | Ok Garbled => Some ErrJSON
  | Ok (Parsed _) => None
  end.

(** The year's table is in none of the three tiers: not in memory, no
    readable document on disk, and the fetch fails with [e]. *)
Definition holiday_unavailable (w : World) (year : Z) (e : error) : Prop :=
  holidayCacheData w !! year = None
  /\ (holidayFiles w !! year = None \/ holidayFiles w !! year = Some Garbled)
  /\ reply_error (net_holiday w (length (requests w)) year) = Some e.

Definition sent (r : Request) (w : World) : World :=
  set_requests (requests w ++ [r]) w.

(** The world after the clock was read once. *)
Definition tick (w : World) : World :=
  set_clock_reads (S (clock_reads w)) w.

(** A world whose quote source answers the first request with the fund
    at a best bid of 1.231 and every later one at 1.232; three seconds
    pass between two readings of the clock, so no read is answered from
    the cache. *)
Definition fund_feed : World :=
  {| ms_cache := ∅; cacheTTL := 2 * second;
     ms_klineCache := ∅; klineCacheTTL := 2 * second;
     holidayCacheData := ∅; holidayFiles := ∅;
     tradeDatesFile := None; fs_writable := true;
     clock := fun n => Z.of_nat n * (3 * second) + tuesday_0915 * second;
     clock_reads := 0; hostZone := CST;
     net_stock := fun n codes =>
       Ok (map (fun c => (c, fund_record (if (n =? 0)%nat then "1.231"
                                          else "1.232"))) codes);
     net_kline := fun _ _ _ _ => Err ErrTransport;
     net_holiday := fun _ _ => Err ErrTransport;
     requests := []; logs := [] |}.

(** A pusher whose order-book focus is [code]. *)
Definition focused (code : string) : MarketDataPusher :=
  {| subscribedCodes := [];
     currentOrderBook := code;
     klineSub := {| Code := EmptyString; Period := EmptyString |};
     lastKLineTime := 0;
     lastTelegraphContent := EmptyString;
     lastOrderBookHash := EmptyString;
     lastMarketStatus := EmptyString;
     lastMarketStatusTime := {| unixNano := 0; zoneOffset := 0 |} |}.

(** Two invocations of the order-book task, the second in the world
    the first one left: what each published, and the requests sent. *)
Definition two_book_ticks (p : MarketDataPusher) (w : World)
  : option (list Event * list Event * list Request) :=
  match @pushOrderBookData decimalStrconv p w with
  | Some ((p1, events1), w1) =>
      match @pushOrderBookData decimalStrconv p1 w1 with
      | Some ((_, events2), w2) => Some (events1, events2, requests w2)
      | None => None
      end
  | None => None
  end.

Definition tuesday_0915_time : Time :=
  {| unixNano := tuesday_0915 * second; zoneOffset := CST |}.

(** The window on disk was computed two days before Tuesday 2024-01-02
    and holds the three trading days before the New Year; the holiday
    data of no year can be had. *)
Definition stale_window : tradeDatesCache :=
  {| TradeDates := ["2023-12-29"; "2023-12-28"; "2023-12-27"];
     UpdatedAt := {| unixNano := (tuesday_0915 - 2 * 86400) * second;
                     zoneOffset := CST |} |}.

Definition stale_world : World :=
  set_tradeDatesFile (Some (Parsed stale_window)) (world_at tuesday_0915 ∅).

Definition is_stale_warning (l : LogEntry) : bool :=
  match l with WarnUseStaleTradeDates _ => true | _ => false end.

(** The n-th reading of the clock from now, as a [time.Time]. *)
Definition reading (w : World) (n : nat) : Time :=
  {| unixNano := clock w (clock_reads w + n); zoneOffset := hostZone w |}.

(** Age of a timestamp at the next reading of the clock. *)
Definition age (w : World) (t : Time) : Z := Time_Sub (reading w 0) t.

(** A bucket as the minute mode leaves it: 100 lots for an amount of
    1000 in every bucket, so the average line stands at 10. *)
Definition candle (t : string) (price : float) : KLineData.t :=
  KLineData.mk t price price price price 100 1000 0 0 0 10.

Definition candle_0915 : KLineData.t := candle "2024-01-02 09:15:00" 10.05.
Definition candle_0916 : KLineData.t := candle "2024-01-02 09:16:00" 10.06.

(** A world whose candle cache holds, for (600000, 1m, 5), the bucket of
    09:15 stored at 09:15:00; the clock reads [unix] seconds and the
    candle source would answer with the bucket of 09:16. *)
Definition candle_world (unix : Z) : World :=
  {| ms_cache := ∅; cacheTTL := 2 * second;
     ms_klineCache :=
       {[ klineCacheKey "600000" "1m" 5 :=
            {| kc_data := [candle_0915];
               kc_timestamp := {| unixNano := tuesday_0915 * second;
                                  zoneOffset := 0 |} |} ]};
     klineCacheTTL := 2 * second;
     holidayCacheData := ∅; holidayFiles := ∅;
     tradeDatesFile := None; fs_writable := true;
     clock := fun n => Z.of_nat n * 1000000 + unix * second;
     clock_reads := 0; hostZone := 0;
     net_stock := fun _ _ => Err ErrTransport;
     net_kline := fun _ _ _ _ => Ok [candle_0916];
     net_holiday := fun _ _ => Err ErrTransport;
     requests := []; logs := [] |}.

(** The step as the interface words it: the marker of the last pushed
    bucket is absent until something is recorded, and afterwards it is
    the recorded timestamp; a bucket is published unless its timestamp
    is the recorded one. *)
Definition publishes_by_marker (marker : option Z) (latestTime : Z) : bool :=
  match marker with
  | None => true
  | Some recorded => negb (latestTime =? recorded)
  end.

(** A world whose candle source answers with the given buckets. *)
Definition feed_world (unix : Z) (klines : list KLineData.t) : World :=
  {| ms_cache := ∅; cacheTTL := 2 * second;
     ms_klineCache := ∅; klineCacheTTL := 2 * second;
     holidayCacheData := ∅; holidayFiles := ∅;
     tradeDatesFile := None; fs_writable := true;
     clock := fun n => Z.of_nat n * 1000000 + unix * second;
     clock_reads := 0; hostZone := 0;
     net_stock := fun _ _ => Err ErrTransport;
     net_kline := fun _ _ _ _ => Ok klines;
     net_holiday := fun _ _ => Err ErrTransport;
     requests := []; logs := [] |}.

Definition subscribed_1m : MarketDataPusher :=
  onKLineSubscribe "600000" "1m" NewMarketDataPusher.

(** The world storeKLine leaves, [w] being the world the fetch left:
    the clock is read once and the entry is stored. *)
Definition stored_kline (w : World) (code period : string) (days : Z)
    (klines : list KLineData.t) : World :=
  set_ms_klineCache
    <[klineCacheKey code period days :=
        {| kc_data := klines; kc_timestamp := reading w 0 |}]>
    (set_clock_reads (S (clock_reads w)) w).

(** The host's date at the next reading of the clock. *)
Definition hostDate (w : World) : string :=
  Time_FormatDate {| unixNano := clock w (clock_reads w);
                     zoneOffset := hostZone w |}.

(** What filterTodayKLines makes of a non-empty list when today's date
    is [today]: the buckets of today, else those of the last bucket's
    day; nothing when that label is too short to have a day. *)
Definition dayBuckets (today : string) (klines : list KLineData.t)
  : option (list KLineData.t) :=
  match List.filter (onDay today) klines with
  | [] =>
      match last klines with
      | Some lastBucket =>
          match first10 (KLineData.Time lastBucket) with
          | Some lastDay => Some (List.filter (onDay lastDay) klines)
          | None => None
          end
      | None => Some []
      end
  | result => Some result
  end.

Definition two_candles : list KLineData.t := [candle_0915; candle_0916].

Definition first_world : World := feed_world tuesday_0915 two_candles.
(** The world the first read leaves: the request is out, the minute
    mode has read the clock, the entry is stored. *)
Definition second_world : World :=
  stored_kline
    (set_clock_reads 1 (sent (ReqKLine "600000" "1m" 5) first_world))
    "600000" "1m" 5 two_candles.

(** 2024-01-02 09:16:00, read as UTC by time.Parse. *)
Definition marked_0916 : MarketDataPusher :=
  set_lastKLineTime 1704186960 subscribed_1m.

(** A bucket labelled with the epoch: its timestamp is 0. *)
Definition candle_epoch : KLineData.t := candle "1970-01-01 00:00:00" 10.05.

(** Two ticks of the incremental task, the second in the world the
    first one left: the events of each tick and the marker after it. *)
Definition two_ticks `{TimeParse} (p : MarketDataPusher) (w : World)
  : option ((list Event * Z) * (list Event * Z)) :=
  match pushKLineMinute p w with
  | Some ((p1, events1), w1) =>
      match pushKLineMinute p1 w1 with
      | Some ((p2, events2), _) =>
          Some ((events1, lastKLineTime p1), (events2, lastKLineTime p2))
      | None => None
      end
  | None => None
  end.

(* ------------------------------------------------------------------ *)
(** ** More of the market service                                      *)
(* ------------------------------------------------------------------ *)

(** cleanExpiredCache: one clock reading; every entry of either cache
    older than ten seconds is deleted. *)
Definition sweepAge : Z := 10 * second.

Definition cleanExpiredCache : M unit :=
  now <~ time_Now ;;
  modify (set_ms_cache
            (filter (fun kv : string * stockCache =>
                       Time_Sub now (sc_timestamp (snd kv)) <= sweepAge))) ;;;
  modify (set_ms_klineCache
            (filter (fun kv : string * klineCache =>
                       Time_Sub now (kc_timestamp (snd kv)) <= sweepAge))).

(** GetStockRealTimeData: the quotes without the book; no cache in
    front of the source. *)
Definition GetStockRealTimeData `{Strconv} (codes : list string)
  : M (Result (list Stock.t)) :=
  match codes with
  | [] => ret (Ok [])
  | _ =>
      _ <~ time_Now ;;
      n <~ send (ReqStock codes) ;;
      reply <~ get (fun w => net_stock w n codes) ;;
      match reply with
      | Err e => ret (Err e)
      | Ok matches =>
          match parseSinaStockData matches with
          | Some stocks => ret (Ok stocks)
          | None => panic
          end
      end
  end.

Module MarketIndex.
Record t : Type := mk {
  Code : string;
  Name : string;
  Price : float;
  Change : float;
  ChangePercent : float;
  Volume : Z;
  Amount : float }.
End MarketIndex.

(** parseMarketIndices, on the submatches [(code, quoted text)] of the
    index expression: name, level, change, change-percent, volume,
    amount. *)
Fixpoint parseMarketIndices `{Strconv} (matches : list (string * string))
  : option (list MarketIndex.t) :=
  match matches with
  | [] => Some []
  | (code, text) :: rest =>
      if String.eqb text EmptyString
      then parseMarketIndices rest
      else
        let parts := strings_Split_comma text in
        if (length parts <? 6)%nat
        then parseMarketIndices rest
        else
          p1 ← parts !! 1%nat;
          p2 ← parts !! 2%nat;
          p3 ← parts !! 3%nat;
          p4 ← parts !! 4%nat;
          p5 ← parts !! 5%nat;
          p0 ← parts !! 0%nat;
          indices ← parseMarketIndices rest;
          Some (MarketIndex.mk code p0 (ParseFloat p1) (ParseFloat p2)
                  (ParseFloat p3) (ParseInt p4) (ParseFloat p5)
                :: indices)
  end.

(** periodToScale *)
Definition periodToScale (period : string) : string :=
  if String.eqb period "1m" then "1"
  else if String.eqb period "1d" then "240"
  else if String.eqb period "1w" then "1680"
  else if String.eqb period "1mo" then "7200"
  else "240".

(** The trading schedule handed to the presentation layer. *)
Record TradingPeriod : Type := {
  tp_Status : string;
  tp_Text : string;
  tp_StartTime : string;
  tp_EndTime : string }.

Record TradingSchedule : Type := {
  ts_IsTradeDay : bool;
  ts_HolidayName : string;
  ts_Periods : list TradingPeriod }.

Definition schedulePeriods : list TradingPeriod :=
  [ {| tp_Status := "pre_market"; tp_Text := "盘前";
       tp_StartTime := "00:00"; tp_EndTime := "09:15" |};
    {| tp_Status := "pre_market"; tp_Text := "集合竞价";
       tp_StartTime := "09:15"; tp_EndTime := "09:30" |};
    {| tp_Status := "trading"; tp_Text := "交易中";
       tp_StartTime := "09:30"; tp_EndTime := "11:30" |};
    {| tp_Status := "lunch_break"; tp_Text := "午间休市";
       tp_StartTime := "11:30"; tp_EndTime := "13:00" |};
    {| tp_Status := "trading"; tp_Text := "交易中";
       tp_StartTime := "13:00"; tp_EndTime := "15:00" |};
    {| tp_Status := "closed"; tp_Text := "已收盘";
       tp_StartTime := "15:00"; tp_EndTime := "24:00" |} ].

(** GetTradingSchedule *)
Definition GetTradingSchedule : M TradingSchedule :=
  now0 <~ time_Now ;;
  let now := Time_In now0 CST in
  td <~ isTradeDay now ;;
  ret {| ts_IsTradeDay := fst td; ts_HolidayName := snd td;
         ts_Periods := schedulePeriods |}.

(** A label [HH:MM] as a minute of the day. *)
Definition minuteOfLabel (s : string) : option Z :=
  if negb (String.length s =? 5)%nat || negb (char_is s 2 ":") then None
  else h ← two_digits s 0; m ← two_digits s 3; Some (h * 60 + m).

(** The period of the schedule the minute [m] falls in. *)
Definition periodAt (m : Z) (periods : list TradingPeriod)
  : option TradingPeriod :=
  List.find (fun p => match minuteOfLabel (tp_StartTime p),
                            minuteOfLabel (tp_EndTime p) with
                      | Some a, Some b => (a <=? m) && (m <? b)
                      | _, _ => false
                      end) periods.

(* ------------------------------------------------------------------ *)
(** ** More of the pusher                                              *)
(* ------------------------------------------------------------------ *)

Definition set_currentOrderBook (code : string) (p : MarketDataPusher)
  : MarketDataPusher :=
  {| subscribedCodes := subscribedCodes p;
     currentOrderBook := code;
     klineSub := klineSub p;
     lastKLineTime := lastKLineTime p;
     lastTelegraphContent := lastTelegraphContent p;
     lastOrderBookHash := lastOrderBookHash p;
     lastMarketStatus := lastMarketStatus p;
     lastMarketStatusTime := lastMarketStatusTime p |}.


(** A value of type [any] as the listeners receive it: a string, or
    something that is not one. *)
Inductive any : Type :=
| any_string (s : string)
| any_other.

(** updateSubscriptions: the watchlist becomes the strings among the
    values received, in their order. *)
Fixpoint stringsOf (codes : list any) : list string :=
  match codes with
  | [] => []
  | any_string s :: rest => s :: stringsOf rest
  | any_other :: rest => stringsOf rest
  end.

Definition updateSubscriptions (codes : list any) (p : MarketDataPusher)
  : MarketDataPusher :=
  set_subscribedCodes (stringsOf codes) p.

(** The listener on the order-book-subscribe event. *)
Definition onOrderBookSubscribe (code : any) (p : MarketDataPusher)
  : MarketDataPusher :=
  match code with
  | any_string s => set_currentOrderBook s p
  | any_other => p
  end.

(** initSubscriptions, given the configured watchlist. *)
Definition initSubscriptions (watchlist : list Stock.t)
    (p : MarketDataPusher) : MarketDataPusher :=
  let codes := map Stock.Symbol watchlist in
  let p' := set_subscribedCodes codes p in
  match codes with
  | first :: _ => set_currentOrderBook first p'
  | [] => p'
  end.



(** pushStockData: what is published on the quote channel. *)
Definition pushStockData `{Strconv} (p : MarketDataPusher)
  : M (list (list Stock.t)) :=
  match subscribedCodes p with
  | [] => ret []
  | codes =>
      r <~ GetStockRealTimeData codes ;;
      match r with
      | Err _ => ret []
      | Ok stocks => ret [stocks]
      end
  end.

(** *** The push loop: which tasks a tick dispatches *)

Inductive Task : Type :=
| PushStockData
| PushOrderBookData
| PushTelegraphData
| PushMarketStatus
| PushMarketIndices
| PushKLineData
| PushKLineMinute
| PushKLineDay.

(** The batch run once when the loop starts. *)
Definition startupTasks : list Task :=
  [PushStockData; PushOrderBookData; PushTelegraphData; PushMarketStatus;
   PushMarketIndices; PushKLineData].

(** The fast ticker (1 s). *)
Definition fastTick (status : string) : list Task :=
  if String.eqb status "trading" then [PushOrderBookData] else [].

(** The normal ticker (3 s); [normalCount] is the counter after its
    increment ([%] truncates like Go's). *)
Definition normalTick (status : string) (normalCount : Z) : list Task :=
  if String.eqb status "trading" then
    if Z.rem normalCount 2 =? 0
    then [PushStockData; PushMarketIndices; PushKLineMinute; PushMarketStatus]
    else [PushStockData; PushMarketIndices; PushKLineMinute]
  else if String.eqb status "pre_market" then
    if Z.rem normalCount 3 =? 0
    then [PushStockData; PushOrderBookData; PushMarketIndices]
    else []
  else if String.eqb status "lunch_break" then
    if Z.rem normalCount 5 =? 0
    then [PushStockData; PushMarketIndices; PushMarketStatus]
    else []
  else
    if Z.rem normalCount 10 =? 0
    then [PushStockData; PushMarketIndices; PushOrderBookData;
          PushKLineData; PushMarketStatus]
    else [].

(** The slow ticker (30 s) and the daily-candle ticker (5 min). *)
Definition slowTick : list Task := [PushTelegraphData].

Definition klineDayTick (status : string) : list Task :=
  if String.eqb status "trading" then [PushKLineDay] else [].

Definition Task_eqb (a b : Task) : bool :=
  match a, b with
  | PushStockData, PushStockData | PushOrderBookData, PushOrderBookData
  | PushTelegraphData, PushTelegraphData | PushMarketStatus, PushMarketStatus
  | PushMarketIndices, PushMarketIndices | PushKLineData, PushKLineData
  | PushKLineMinute, PushKLineMinute | PushKLineDay, PushKLineDay => true
  | _, _ => false
  end.

Definition runs (t : Task) (batch : list Task) : bool :=
  existsb (Task_eqb t) batch.

(** *** Start and Stop *)

(** The control part of the pusher: the [stopped] flag, whether
    [stopChan] has been closed, the listeners registered with the host
    (by event name, one entry per registration) and the push loops
    started. *)
Record Control : Type := {
  stopped : bool;
  stopChanClosed : bool;
  listeners : list string;
  loops : nat }.

Definition NewControl : Control :=
  {| stopped := false; stopChanClosed := false; listeners := []; loops := 0 |}.

Definition EventMarketSubscribe : string := "market:subscribe".
Definition EventOrderBookSubscribe : string := "market:orderbook:subscribe".
Definition EventKLineSubscribe : string := "market:kline:subscribe".

(** [runtime.EventsOff]: every listener of the event is dropped. *)
Definition EventsOff (name : string) (ls : list string) : list string :=
  List.filter (fun l => negb (String.eqb l name)) ls.

(** Start *)
Definition Start (c : Control) : Control :=
  if stopped c then c
  else {| stopped := false; stopChanClosed := stopChanClosed c;
          listeners := listeners c
                       ++ [EventMarketSubscribe; EventOrderBookSubscribe;
                           EventKLineSubscribe];
          loops := S (loops c) |}.

(** Stop; closing a closed channel is a panic. *)
Definition Stop (c : Control) : option Control :=
  if stopped c then Some c
  else if stopChanClosed c then None
  else Some {| stopped := true; stopChanClosed := true;
               listeners := EventsOff EventKLineSubscribe
                              (EventsOff EventOrderBookSubscribe
                                 (EventsOff EventMarketSubscribe
                                    (listeners c)));
               loops := loops c |}.

Inductive ControlCall : Type := CallStart | CallStop.

Fixpoint runControl (calls : list ControlCall) (c : Control)
  : option Control :=
  match calls with
  | [] => Some c
  | CallStart :: rest => runControl rest (Start c)
  | CallStop :: rest => c' ← Stop c; runControl rest c'
  end.

(* ------------------------------------------------------------------ *)
(** ** Key points out of a model's answer                              *)
(* ------------------------------------------------------------------ *)

(** [strings.HasPrefix] *)
Definition strings_HasPrefix (s pre : string) : bool := String.prefix pre s.

Definition newline : ascii := ascii_of_nat 10.

Section KeyPoints.
(** [strings.TrimSpace], a function of Go's library. *)
Variable strings_TrimSpace : string -> string.

Definition keepPoint (line : string) : bool :=
  negb (String.eqb line EmptyString) && negb (strings_HasPrefix line "#").

(** parseKeyPoints *)
Definition parseKeyPoints (result : string) : list string :=
  List.filter keepPoint
    (map strings_TrimSpace
       (split_on newline (strings_TrimSpace result) EmptyString)).

End KeyPoints.

(* ------------------------------------------------------------------ *)
(** ** More vocabulary, and more inputs                                *)
(* ------------------------------------------------------------------ *)

(** Byte order on strings, as [sort.Strings] uses it. *)
Definition str_le (a b : string) : Prop := String.leb a b = true.

(** A record the batch parsers keep: a non-empty text with at least
    [minFields] comma-separated fields. *)
Definition keptRecord (minFields : nat) (m : string * string) : bool :=
  negb (String.eqb (snd m) EmptyString)
  && (minFields <=? length (strings_Split_comma (snd m)))%nat.

(** Running sums of a list of sizes. *)
Fixpoint runningTotals (total : Z) (sizes : list Z) : list Z :=
  match sizes with
  | [] => []
  | s :: rest => (total + s) :: runningTotals (total + s) rest
  end.

Definition in_int64 (z : Z) : Prop := int64_min <= z <= int64_max.

Definition dated (d : string) (day : holidayDay) : bool :=
  String.eqb (hday_Date day) d.

(** A document that lists one date twice. *)
Definition doubled_document : holidayData :=
  {| hd_Year := 2024;
     hd_Days := [ {| hday_Name := "first"; hday_Date := "2024-02-09";
                     hday_IsOffDay := false |};
                  {| hday_Name := "second"; hday_Date := "2024-02-09";
                     hday_IsOffDay := true |} ] |}.

Definition weekday_of (date : Time) : Prop :=
  Time_Weekday date <> Saturday /\ Time_Weekday date <> Sunday.

(** A table with the New Year holiday and a listed workday. *)
Definition table_with_workday : gmap Z (gmap string bool) :=
  {[ 2024 := {[ "2024-01-01" := true; "2024-01-02" := false ]} ]}.

Definition new_year_document : holidayData :=
  {| hd_Year := 2024;
     hd_Days := [ {| hday_Name := "元旦"; hday_Date := "2024-01-01";
                     hday_IsOffDay := true |} ] |}.

(** The world of [world_at] with a CDN that serves the document. *)
Definition online_world (unix : Z) : World :=
  {| ms_cache := ∅; cacheTTL := 2 * second;
     ms_klineCache := ∅; klineCacheTTL := 2 * second;
     holidayCacheData := ∅; holidayFiles := ∅;
     tradeDatesFile := None; fs_writable := true;
     clock := fun n => Z.of_nat n * 1000000 + unix * second;
     clock_reads := 0; hostZone := CST;
     net_stock := fun _ _ => Err ErrTransport;
     net_kline := fun _ _ _ _ => Err ErrTransport;
     net_holiday := fun _ _ => Ok (Parsed new_year_document);
     requests := []; logs := [] |}.

(** A computation that leaves a view of the world as it found it. *)
Definition keeps {A B} (view : World -> B) (m : M A) : Prop :=
  forall w a w', m w = Some (a, w') -> view w' = view w.

(** A view that the calendar's writes (holiday memory, holiday files,
    clock readings, requests, log) do not show in. *)
Definition beside_calendar {B} (view : World -> B) : Prop :=
  (forall f w, view (set_holidayCacheData f w) = view w)
  /\ (forall f w, view (set_holidayFiles f w) = view w)
  /\ (forall n w, view (set_clock_reads n w) = view w)
  /\ (forall r w, view (set_requests r w) = view w)
  /\ (forall l w, view (set_logs l w) = view w).

(** The date [i] days before [today], as fetchTradeDates writes it. *)
Definition dayBefore (today : Time) (i : Z) : Time := Time_AddDays today (- i).

(** The world in which GetTradeDates starts to compute a new window:
    the clock has been read when there was a window to judge, and the
    start is logged. *)
Definition refreshStart (w : World) : World :=
  let judged :=
    match tradeDatesFile w with
    | Some (Parsed c) =>
        if (0 <? length (TradeDates c))%nat then tick w else w
    | _ => w
    end in
  set_logs (logs judged ++ [InfoFetchTradeDates]) judged.

(** A window written one hour before Tuesday's 09:15. *)
Definition fresh_window : tradeDatesCache :=
  {| TradeDates := ["2023-12-29"; "2023-12-28"; "2023-12-27"];
     UpdatedAt := {| unixNano := (tuesday_0915 - 3600) * second;
                     zoneOffset := CST |} |}.

Definition fresh_world : World :=
  set_tradeDatesFile (Some (Parsed fresh_window)) (world_at tuesday_0915 ∅).

(** The entry a read of the candle cache is answered from: the one
    under the key, when it is younger than the TTL at the next reading
    of the clock. *)
Definition served_kline (w : World) (key : string) : option klineCache :=
  match ms_klineCache w !! key with
  | Some e => if age w (kc_timestamp e) <? klineCacheTTL w then Some e
              else None
  | None => None
  end.

(** The world in which the fetch of a candle read starts: the clock has
    been read when there was an entry to judge. *)
Definition fetchStart (w : World) (key : string) : World :=
  match ms_klineCache w !! key with
  | Some _ => tick w
  | None => w
  end.

Definition served_stock (w : World) (key : string) : option stockCache :=
  match ms_cache w !! key with
  | Some e => if age w (sc_timestamp e) <? cacheTTL w then Some e else None
  | None => None
  end.

(** What the quote source answers to the next request, parsed. *)
Definition stock_reply `{Strconv} (w : World) (codes : list string)
    (r : Result (list StockWithOrderBook)) : Prop :=
  match net_stock w (length (requests w)) codes with
  | Err e => r = Err e
  | Ok matches =>
      exists data,
        parseSinaStockDataWithOrderBook matches = Some data /\ r = Ok data
  end.

(** A world whose quote source answers every symbol with the sample
    record. *)
Definition quote_world : World :=
  {| ms_cache := ∅; cacheTTL := 2 * second;
     ms_klineCache := ∅; klineCacheTTL := 2 * second;
     holidayCacheData := ∅; holidayFiles := ∅;
     tradeDatesFile := None; fs_writable := true;
     clock := fun n => Z.of_nat n * 1000000 + tuesday_0915 * second;
     clock_reads := 0; hostZone := CST;
     net_stock := fun _ codes => Ok (map (fun c => (c, sample_record)) codes);
     net_kline := fun _ _ _ _ => Err ErrTransport;
     net_holiday := fun _ _ => Err ErrTransport;
     requests := []; logs := [] |}.

(** The world the sweeper leaves. *)
Definition swept (w : World) : World :=
  let now := {| unixNano := clock w (clock_reads w);
                zoneOffset := hostZone w |} in
  set_ms_klineCache
    (filter (fun kv : string * klineCache =>
               Time_Sub now (kc_timestamp (snd kv)) <= sweepAge))
    (set_ms_cache
       (filter (fun kv : string * stockCache =>
                  Time_Sub now (sc_timestamp (snd kv)) <= sweepAge))
       (tick w)).

(** The listeners one Start registers. *)
Definition startListeners : list string :=
  [EventMarketSubscribe; EventOrderBookSubscribe; EventKLineSubscribe].

Definition is_stop (c : ControlCall) : bool :=
  match c with CallStop => true | CallStart => false end.

(** The calls to Start made before the first Stop. *)
Fixpoint startsBeforeStop (calls : list ControlCall) : nat :=
  match calls with
  | CallStart :: rest => S (startsBeforeStop rest)
  | _ => 0
  end.

(** The counter of the normal ticker after [k] more ticks
    ([normalCount++] on a 64-bit int). *)
Fixpoint counterAfter (k : nat) (normalCount : Z) : Z :=
  match k with
  | O => normalCount
  | S k' => wrap64 (counterAfter k' normalCount + 1)
  end.

(** What an invocation of pushOrderBookData reads when it starts, under
    its read lock: the focus and the recorded fingerprint. *)
Definition bookRead (p : MarketDataPusher) : string * string :=
  (currentOrderBook p, lastOrderBookHash p).

(** The rest of the invocation, on what it read: the fetch, the
    comparison with the fingerprint read at the start, and the write to
    the pusher as it is by then. *)
Definition bookFinish `{Strconv} (seen : string * string)
    (p : MarketDataPusher) : M (MarketDataPusher * list Event) :=
  let code := fst seen in
  let lastHash := snd seen in
  if String.eqb code EmptyString then ret (p, [])
  else
    r <~ GetRealOrderBook code ;;
    match r with
    | Err _ => ret (p, [])
    | Ok orderBook =>
        let hash := orderBookHash orderBook in
        if String.eqb hash lastHash then ret (p, [])
        else ret (set_lastOrderBookHash hash p, [OrderBookUpdate orderBook])
    end.

(** What happens around the order-book task: an invocation starts (the
    ticker fired), the [i]-th of the invocations under way finishes, or
    the presentation layer moves the focus.  runParallel gives up
    waiting for an invocation after its timeout without stopping it, so
    the next one may start before it finishes. *)
Inductive BookStep : Type :=
| BookBegin
| BookEnd (i : nat)
| BookFocus (code : any).

(** A run of the order-book task, [pending] being what the invocations
    under way have read; the events are collected in order. *)
Fixpoint bookRun `{Strconv} (steps : list BookStep) (p : MarketDataPusher)
    (pending : list (string * string)) : M (MarketDataPusher * list Event) :=
  match steps with
  | [] => ret (p, [])
  | BookBegin :: rest => bookRun rest p (pending ++ [bookRead p])
  | BookEnd i :: rest =>
      match pending !! i with
      | Some seen =>
          r1 <~ bookFinish seen p ;;
          r2 <~ bookRun rest (fst r1) (delete i pending) ;;
          ret (fst r2, snd r1 ++ snd r2)
      | None => bookRun rest p pending
      end
  | BookFocus code :: rest =>
      bookRun rest (onOrderBookSubscribe code p) pending
  end.

(** The runs in which every invocation finishes before the next
    starts ([busy]: an invocation is under way); the focus may move at
    any time. *)
Fixpoint one_at_a_time (busy : bool) (steps : list BookStep) : bool :=
  match steps with
  | [] => true
  | BookBegin :: rest => negb busy && one_at_a_time true rest
  | BookEnd i :: rest => busy && (i =? 0)%nat && one_at_a_time false rest
  | BookFocus _ :: rest => one_at_a_time busy rest
  end.

(** The fingerprints of the books published. *)
Definition fingerprints (evs : list Event) : list string :=
  flat_map (fun e => match e with
                     | OrderBookUpdate ob => [orderBookHash ob]
                     | KLineUpdate _ _ _ _ => []
                     end) evs.

(** The period of the schedule a minute of the day falls in, by its
    position in the list. *)
Definition periodIndex (m : Z) : nat :=
  if m <? 9 * 60 + 15 then 0
  else if m <? 9 * 60 + 30 then 1
  else if m <? 11 * 60 + 30 then 2
  else if m <? 13 * 60 then 3
  else if m <? 15 * 60 then 4
  else 5.

(** A candle event of a full push: no [incremental] key. *)
Definition full_push (e : Event) : Prop :=
  match e with
  | KLineUpdate _ _ _ None => True
  | _ => False
  end.

(* ================================================================== *)
(** * Part II. Properties                                              *)
(* ================================================================== *)


(* ------------------------------------------------------------------ *)
(** ** Subscription registry                                           *)
(* ------------------------------------------------------------------ *)

Lemma slices_Contains_In (l : list string) (code : string) :
  slices_Contains l code = true <-> In code l.
Proof.
  unfold slices_Contains. rewrite existsb_exists. split.
  - intros (x & Hin & Heq). apply String.eqb_eq in Heq. now subst.
  - intros Hin. exists code. split; [assumption | apply String.eqb_refl].
Qed.

Lemma removeFirst_absent (code : string) (l : list string) :
  ~ In code l -> removeFirst code l = l.
Proof.
  induction l as [| c rest IH]; intros Hnot; [reflexivity |].
  cbn [removeFirst]. destruct (String.eqb c code) eqn:E.
  - apply String.eqb_eq in E. exfalso. apply Hnot. left. exact E.
  - f_equal. apply IH. intros Hin. apply Hnot. right. exact Hin.
Qed.

Lemma set_subscribedCodes_same (p : MarketDataPusher) :
  set_subscribedCodes (subscribedCodes p) p = p.
Proof. destruct p. reflexivity. Qed.

(** C8. Adding a symbol that is already on the watchlist leaves the
    pusher (hence the watchlist, its length and its contents) unchanged,
    so adding twice is adding once; removing a symbol that is not on the
    watchlist leaves it unchanged. *)
Theorem subscription_noop (p : MarketDataPusher) (code : string) :
  (In code (subscribedCodes p) -> AddSubscription code p = p)
  /\ AddSubscription code (AddSubscription code p) = AddSubscription code p
  /\ (~ In code (subscribedCodes p) -> RemoveSubscription code p = p).
Proof.
  assert (Hadd : forall q, In code (subscribedCodes q) ->
                           AddSubscription code q = q).
  { intros q Hin. unfold AddSubscription.
    apply slices_Contains_In in Hin. now rewrite Hin. }
  split; [apply Hadd | split].
  - destruct (slices_Contains (subscribedCodes p) code) eqn:E.
    + apply slices_Contains_In in E. now rewrite !(Hadd p E).
    + apply Hadd. unfold AddSubscription. rewrite E. cbn.
      apply in_or_app. right. now left.
  - intros Hnot. unfold RemoveSubscription.
    rewrite removeFirst_absent by assumption.
    apply set_subscribedCodes_same.
Qed.

Lemma subscription_noop_witness :
  AddSubscription "600000" (watching ["600000"; "000001"])
    = watching ["600000"; "000001"]
  /\ RemoveSubscription "300750" (watching ["600000"; "000001"])
    = watching ["600000"; "000001"].
Proof.
  destruct (subscription_noop (watching ["600000"; "000001"]) "600000")
    as (Hadd & _ & _).
  destruct (subscription_noop (watching ["600000"; "000001"]) "300750")
    as (_ & _ & Hrem).
  split.
  - apply Hadd. cbn. left. reflexivity.
  - apply Hrem. cbn. intros [E | [E | []]]; discriminate E.
Defined.

(* ------------------------------------------------------------------ *)
(** ** News flashes                                                    *)
(* ------------------------------------------------------------------ *)

Lemma no_repeat_app_last (l : list string) (a b : string) :
  no_repeat (l ++ [a]) -> a <> b -> no_repeat ((l ++ [a]) ++ [b]).
Proof.
  induction l as [| x l IH]; cbn [app no_repeat].
  - intros _ Hne. split; [exact Hne | exact I].
  - destruct l as [| y l'].
    + cbn. intros [Hxa _] Hne. repeat split; assumption.
    + cbn [app no_repeat] in *. intros [Hxy Hrest] Hne.
      split; [exact Hxy | apply IH; assumption].
Qed.

Section TelegraphFacts.
Variable Telegraph : Type.
Variable Content : Telegraph -> string.

Abbreviation push := (pushTelegraphData Telegraph Content).
Abbreviation ticks := (telegraphTicks Telegraph Content).
Abbreviation history := (history Telegraph Content).

(** One invocation publishes nothing or the head of the fetched list,
    the latter exactly when its content is not the recorded one, and
    then the recorded content is the published one. *)
Lemma pushTelegraphData_step (f : option (Result (list Telegraph)))
    (p : MarketDataPusher) :
  (exists latest rest,
      f = Some (Ok (latest :: rest))
      /\ Content latest <> lastTelegraphContent p
      /\ push f p = (set_lastTelegraphContent (Content latest) p, [latest]))
  \/ (push f p = (p, [])
      /\ forall latest rest, f = Some (Ok (latest :: rest)) ->
                             Content latest = lastTelegraphContent p).
Proof.
  destruct f as [[[| latest rest] | e] |]; cbn.
  - right. split; [reflexivity | discriminate].
  - destruct (String.eqb (Content latest) (lastTelegraphContent p)) eqn:E.
    + right. split; [reflexivity |].
      intros l r [= -> ->]. now apply String.eqb_eq.
    + left. exists latest, rest. repeat split.
      now apply String.eqb_neq.
  - right. split; [reflexivity | discriminate].
  - right. split; [reflexivity | discriminate].
Qed.

Lemma telegraphTicks_invariant
    (fetches : list (option (Result (list Telegraph))))
    (p : MarketDataPusher) (pre : list string) :
  no_repeat (pre ++ [lastTelegraphContent p]) ->
  no_repeat
    ((pre ++ [lastTelegraphContent p]) ++ map Content (snd (ticks fetches p)))
  /\ List.last (history p (snd (ticks fetches p))) EmptyString
     = lastTelegraphContent (fst (ticks fetches p)).
Proof.
  revert p pre. induction fetches as [| f rest IH]; intros p pre Hpre.
  - cbn. rewrite app_nil_r. split; [exact Hpre | reflexivity].
  - cbn [telegraphTicks].
    destruct (pushTelegraphData_step f p)
      as [(latest & tl & _ & Hne & Hstep) | (Hstep & _)]; rewrite Hstep.
    + specialize (IH (set_lastTelegraphContent (Content latest) p)
                     (pre ++ [lastTelegraphContent p])).
      destruct (ticks rest (set_lastTelegraphContent (Content latest) p))
        as [p2 out2] eqn:E2.
      cbn [fst snd] in *. cbn [app map].
      destruct IH as [IH1 IH2].
      { cbn [lastTelegraphContent set_lastTelegraphContent].
        apply no_repeat_app_last; [exact Hpre | congruence]. }
      split.
      * cbn [lastTelegraphContent set_lastTelegraphContent] in IH1.
        rewrite <- app_assoc in IH1. cbn [app] in IH1.
        rewrite <- app_assoc. cbn [app].
        rewrite <- app_assoc in IH1. exact IH1.
      * rewrite <- IH2. unfold history.
        cbn [lastTelegraphContent set_lastTelegraphContent map].
        reflexivity.
    + specialize (IH p pre Hpre).
      destruct (ticks rest p) as [p2 out2] eqn:E2.
      cbn [fst snd app] in *. exact IH.
Qed.

(** C10. Over any run of the news-flash task, whatever the news service
    returns at each tick, no two consecutive published items have the
    same content (nor does the first one repeat the content recorded
    before the run), and the recorded content is that of the last item
    published; each invocation looks at the head of the fetched list
    only and publishes it exactly when its content is not the recorded
    one. *)
Theorem telegraph_never_repeats
    (fetches : list (option (Result (list Telegraph))))
    (p : MarketDataPusher) :
  no_repeat (history p (snd (ticks fetches p)))
  /\ List.last (history p (snd (ticks fetches p))) EmptyString
     = lastTelegraphContent (fst (ticks fetches p))
  /\ forall f q,
      (exists latest rest,
          f = Some (Ok (latest :: rest))
          /\ Content latest <> lastTelegraphContent q
          /\ push f q
             = (set_lastTelegraphContent (Content latest) q, [latest]))
      \/ (push f q = (q, [])
          /\ forall latest rest, f = Some (Ok (latest :: rest)) ->
                                 Content latest = lastTelegraphContent q).
Proof.
  destruct (telegraphTicks_invariant fetches p []) as [H1 H2];
    [exact I |].
  repeat split; [exact H1 | exact H2 | apply pushTelegraphData_step].
Qed.

End TelegraphFacts.

(** A run on three ticks: the same flash twice, then a new one. *)
Example telegraph_run :
  snd (telegraphTicks string id
         [Some (Ok ["rates cut"; "older"]); Some (Ok ["rates cut"]);
          Some (Err ErrTransport); Some (Ok ["markets open"; "rates cut"])]
         NewMarketDataPusher)
  = ["rates cut"; "markets open"].
Proof. reflexivity. Qed.

(* ------------------------------------------------------------------ *)
(** ** Parsing a quote record                                          *)
(* ------------------------------------------------------------------ *)

Lemma lookup_nth_lt {A} (l : list A) (i : nat) (d : A) :
  (i < length l)%nat -> l !! i = Some (nth i l d).
Proof.
  intros Hlt. destruct (nth_lookup_or_length l i d) as [E | Hge];
    [exact E | lia].
Qed.

Section ParsingFacts.
Context `{Strconv}.

Lemma parseStockFields_fields (code : string) (parts : list string) :
  (10 <= length parts)%nat ->
  exists s,
    parseStockFields code parts = Some s
    /\ Stock.Symbol s = code
    /\ Stock.Name s = nth 0 parts EmptyString
    /\ Stock.Open s = ParseFloat (nth 1 parts EmptyString)
    /\ Stock.PreClose s = ParseFloat (nth 2 parts EmptyString)
    /\ Stock.Price s = ParseFloat (nth 3 parts EmptyString)
    /\ Stock.High s = ParseFloat (nth 4 parts EmptyString)
    /\ Stock.Low s = ParseFloat (nth 5 parts EmptyString)
    /\ Stock.Change s = (Stock.Price s - Stock.PreClose s)%float
    /\ Stock.ChangePercent s
       = (if fgt (Stock.PreClose s) 0
          then ((Stock.Change s / Stock.PreClose s) * 100)%float
          else 0%float).
Proof.
  intros Hlen. unfold parseStockFields.
  rewrite (lookup_nth_lt parts 3 EmptyString) by lia.
  rewrite (lookup_nth_lt parts 1 EmptyString) by lia.
  rewrite (lookup_nth_lt parts 4 EmptyString) by lia.
  rewrite (lookup_nth_lt parts 5 EmptyString) by lia.
  rewrite (lookup_nth_lt parts 2 EmptyString) by lia.
  rewrite (lookup_nth_lt parts 8 EmptyString) by lia.
  rewrite (lookup_nth_lt parts 9 EmptyString) by lia.
  rewrite (lookup_nth_lt parts 0 EmptyString) by lia.
  cbn [mbind option_bind].
  eexists. split; [reflexivity |]. cbn. repeat split.
Qed.

Lemma levelLoop_filter (parts : list string) (base : nat)
    (idxs : list nat) (acc : list OrderBookItem.t) :
  (forall i, In i idxs -> (base + 1 + i * 2 < length parts)%nat) ->
  levelLoop parts base acc idxs
  = Some (acc ++ map item_of
                   (List.filter priced (map (rawLevel parts base) idxs))).
Proof.
  revert acc. induction idxs as [| i rest IH]; intros acc Hin.
  - cbn. now rewrite app_nil_r.
  - cbn [levelLoop]. unfold parseLevel.
    assert (Hi : (base + 1 + i * 2 < length parts)%nat)
      by (apply Hin; now left).
    destruct (Nat.ltb_spec (base + 1 + i * 2) (length parts)) as [_ | Hge];
      [| lia].
    rewrite (lookup_nth_lt parts (base + i * 2) EmptyString) by lia.
    rewrite (lookup_nth_lt parts (base + 1 + i * 2) EmptyString) by lia.
    cbn [mbind option_bind map List.filter].
    change (ParseFloat (nth (base + 1 + i * 2) parts EmptyString))
      with (fst (rawLevel parts base i)).
    fold (priced (rawLevel parts base i)).
    destruct (priced (rawLevel parts base i)) eqn:E.
    + cbn [mbind option_bind]. rewrite IH by (intros j Hj; apply Hin; now right).
      cbn [map]. rewrite <- app_assoc. reflexivity.
    + cbn [mbind option_bind]. apply IH. intros j Hj. apply Hin. now right.
Qed.

Lemma parseSide_filter (parts : list string) (base : nat) :
  parseSide parts base
  = Some (if (base + 10 <=? length parts)%nat
          then map item_of (List.filter priced (rawLevels parts base))
          else []).
Proof.
  unfold parseSide.
  destruct (Nat.leb_spec (base + 10) (length parts)) as [Hle | Hgt];
    [| reflexivity].
  rewrite levelLoop_filter; [reflexivity |].
  intros i Hi. apply in_seq in Hi. lia.
Qed.

Lemma fillTotals_levels (maxSize total : Z) (items : list OrderBookItem.t) :
  map level_of (fillTotals maxSize total items) = map level_of items.
Proof.
  revert total. induction items as [| it rest IH]; intros total;
    [reflexivity |].
  cbn [fillTotals map]. now rewrite IH.
Qed.

Lemma calculateOrderBookTotals_levels (items : list OrderBookItem.t) :
  map level_of (calculateOrderBookTotals items) = map level_of items.
Proof.
  destruct items as [| it rest]; [reflexivity |].
  unfold calculateOrderBookTotals. apply fillTotals_levels.
Qed.

Lemma level_of_item_of (ls : list (float * Z)) :
  map level_of (map item_of ls) = ls.
Proof.
  induction ls as [| [p s] rest IH]; [reflexivity |].
  cbn [map]. now rewrite IH.
Qed.

(** A record of 32 fields or more (what the caller lets through) is
    parsed without a panic. *)
Lemma parseStockWithOrderBook_sides (code : string) (parts : list string) :
  (30 <= length parts)%nat ->
  exists sw,
    parseStockWithOrderBook code parts = Some sw
    /\ parseStockFields code parts = Some (swob_Stock sw)
    /\ map level_of (OrderBook.Bids (swob_OrderBook sw))
       = List.filter priced (rawLevels parts 10)
    /\ map level_of (OrderBook.Asks (swob_OrderBook sw))
       = List.filter priced (rawLevels parts 20).
Proof.
  intros Hlen.
  destruct (parseStockFields_fields code parts) as (s & Hs & _); [lia |].
  unfold parseStockWithOrderBook.
  rewrite Hs, !parseSide_filter.
  destruct (Nat.leb_spec (10 + 10) (length parts)); [| lia].
  destruct (Nat.leb_spec (20 + 10) (length parts)); [| lia].
  cbn [mbind option_bind].
  eexists. split; [reflexivity |]. cbn [swob_Stock swob_OrderBook].
  cbn [OrderBook.Bids OrderBook.Asks].
  rewrite !calculateOrderBookTotals_levels, !level_of_item_of.
  repeat split.
Qed.

Lemma parseSinaStockDataWithOrderBook_total (matches : list (string * string)) :
  exists stocks, parseSinaStockDataWithOrderBook matches = Some stocks.
Proof.
  induction matches as [| [code text] rest [stocks IH]];
    cbn [parseSinaStockDataWithOrderBook].
  - now eexists.
  - destruct (String.eqb text EmptyString); [eauto |].
    destruct (Nat.ltb_spec (length (strings_Split_comma text)) 32)
      as [Hlt | Hge]; [eauto |].
    destruct (parseStockWithOrderBook_sides code (strings_Split_comma text))
      as (sw & Hsw & _); [lia |].
    rewrite Hsw, IH. cbn. now eexists.
Qed.

End ParsingFacts.

(** C7, as amended. For every record with the ten leading fields,
    parseStockFields reads open, previous close and price from fields 1,
    2 and 3 and derives change = price - previous close and
    change-percent = change / previous close * 100 when the previous
    close is positive, 0 otherwise (binary64 arithmetic). On the record
    of the scenario the quote has open 10.00, previous close 9.90 and
    price 10.05 (the binary64 values of these decimals); its change is
    the binary64 difference 0.15000000000000036, within 1e-15 of 0.15,
    and its change-percent is within 0.001 of 1.515. *)
Theorem quote_derived_fields :
  (forall (S : Strconv) (code : string) (parts : list string),
      (10 <= length parts)%nat ->
      exists s,
        parseStockFields code parts = Some s
        /\ Stock.Open s = ParseFloat (nth 1 parts EmptyString)
        /\ Stock.PreClose s = ParseFloat (nth 2 parts EmptyString)
        /\ Stock.Price s = ParseFloat (nth 3 parts EmptyString)
        /\ Stock.Change s = (Stock.Price s - Stock.PreClose s)%float
        /\ Stock.ChangePercent s
           = (if fgt (Stock.PreClose s) 0
              then ((Stock.Change s / Stock.PreClose s) * 100)%float
              else 0%float))
  /\ exists s,
      @parseStockFields decimalStrconv "600000"
        (strings_Split_comma sample_record) = Some s
      /\ Stock.Open s = 10.00%float
      /\ Stock.PreClose s = 9.90%float
      /\ Stock.Price s = 10.05%float
      /\ Stock.Change s = 0.15000000000000036%float
      /\ PrimFloat.ltb (PrimFloat.abs (Stock.Change s - 0.15)) 1e-15 = true
      /\ PrimFloat.ltb (PrimFloat.abs (Stock.ChangePercent s - 1.515)) 0.001
         = true.
Proof.
  split.
  - intros S code parts Hlen.
    destruct (parseStockFields_fields code parts Hlen)
      as (s & Hs & _ & _ & Ho & Hpc & Hp & _ & _ & Hc & Hcp).
    exists s. repeat split; assumption.
  - eexists. split; [vm_compute; reflexivity |].
    repeat split; vm_compute; reflexivity.
Qed.

Lemma quote_derived_fields_witness :
  exists s,
    @parseStockFields decimalStrconv "sz000001" unknown_close_record = Some s
    /\ Stock.Change s = (Stock.Price s - Stock.PreClose s)%float
    /\ Stock.ChangePercent s = 0%float.
Proof.
  destruct (proj1 quote_derived_fields decimalStrconv "sz000001"
              unknown_close_record)
    as (s & Hs & _ & Hpc & _ & Hc & Hcp).
  - cbn. lia.
  - exists s. repeat split; [exact Hs | exact Hc |].
    rewrite Hcp, Hpc. vm_compute. reflexivity.
Defined.

(** On the record of the scenario the parsed change is not the binary64
    value of 0.15: Go's [==] is false on the two, and so is equality. *)
Lemma quote_change_is_not_exact :
  exists s,
    @parseStockFields decimalStrconv "600000"
      (strings_Split_comma sample_record) = Some s
    /\ PrimFloat.eqb (Stock.Change s) 0.15 = false
    /\ Stock.Change s <> 0.15%float.
Proof.
  eexists. split; [vm_compute; reflexivity |].
  split; [vm_compute; reflexivity |].
  intros E.
  apply (f_equal (fun v => PrimFloat.eqb v 0.15)) in E.
  vm_compute in E. discriminate E.
Qed.

(** C2, as amended. On a record of ten fields or more, each side of the
    book holds exactly the levels of the record whose price is positive,
    in the record's order (a side whose ten fields are not all there is
    empty): a level with a zero, unparsable or negative price is left
    out and the walk goes on to the next level. *)
Theorem order_book_keeps_priced_levels `{Strconv}
    (code : string) (parts : list string) :
  (10 <= length parts)%nat ->
  exists sw,
    parseStockWithOrderBook code parts = Some sw
    /\ map level_of (OrderBook.Bids (swob_OrderBook sw))
       = (if (20 <=? length parts)%nat
          then List.filter priced (rawLevels parts 10) else [])
    /\ map level_of (OrderBook.Asks (swob_OrderBook sw))
       = (if (30 <=? length parts)%nat
          then List.filter priced (rawLevels parts 20) else []).
Proof.
  intros Hlen.
  destruct (parseStockFields_fields code parts Hlen) as (s & Hs & _).
  unfold parseStockWithOrderBook.
  rewrite Hs, !parseSide_filter.
  cbn [mbind option_bind].
  eexists. split; [reflexivity |].
  cbn [swob_OrderBook OrderBook.Bids OrderBook.Asks].
  rewrite !calculateOrderBookTotals_levels.
  change (10 + 10)%nat with 20%nat. change (20 + 10)%nat with 30%nat.
  split.
  - destruct (20 <=? length parts)%nat; [apply level_of_item_of | reflexivity].
  - destruct (30 <=? length parts)%nat; [apply level_of_item_of | reflexivity].
Qed.

Lemma order_book_keeps_priced_levels_witness :
  exists sw,
    @parseStockWithOrderBook decimalStrconv "sh600000"
      (strings_Split_comma sample_record) = Some sw
    /\ map level_of (OrderBook.Bids (swob_OrderBook sw))
       = [(10.04%float, 200); (10.03%float, 300); (10.02%float, 400);
          (10.01%float, 500); (10.00%float, 600)]
    /\ map level_of (OrderBook.Asks (swob_OrderBook sw))
       = [(10.05%float, 150); (10.06%float, 250); (10.07%float, 350);
          (10.08%float, 450); (10.09%float, 550)].
Proof.
  destruct (@order_book_keeps_priced_levels decimalStrconv "sh600000"
              (strings_Split_comma sample_record))
    as (sw & Hsw & Hb & Ha).
  - replace (length (strings_Split_comma sample_record)) with 32%nat
      by (vm_compute; reflexivity).
    lia.
  - exists sw. split; [exact Hsw |]. rewrite Hb, Ha.
    split; vm_compute; reflexivity.
Defined.

(** The best bid of [gap_record] has price 0.00: the four levels behind
    it are in the snapshot all the same, where a walk that stops at the
    first unpriced level would leave the side empty. *)
Lemma zero_price_does_not_end_the_side :
  exists sw,
    @parseStockWithOrderBook decimalStrconv "sh600000"
      (strings_Split_comma gap_record) = Some sw
    /\ @rawLevels decimalStrconv (strings_Split_comma gap_record) 10
       = [(0%float, 200); (10.03%float, 300); (10.02%float, 400);
          (10.01%float, 500); (10.00%float, 600)]
    /\ map level_of (OrderBook.Bids (swob_OrderBook sw))
       = [(10.03%float, 300); (10.02%float, 400);
          (10.01%float, 500); (10.00%float, 600)]
    /\ levels_until_gap
         (@rawLevels decimalStrconv (strings_Split_comma gap_record) 10) = []
    /\ map level_of (OrderBook.Bids (swob_OrderBook sw))
       <> levels_until_gap
            (@rawLevels decimalStrconv (strings_Split_comma gap_record) 10).
Proof.
  eexists. split; [vm_compute; reflexivity |].
  repeat split; try (vm_compute; reflexivity).
  vm_compute. intros E. discriminate E.
Qed.

(* ------------------------------------------------------------------ *)
(** ** Change detection                                                *)
(* ------------------------------------------------------------------ *)

Lemma colon_free_app (a b : string) :
  colon_free (a +:+ b) = colon_free a && colon_free b.
Proof.
  induction a as [| c a IH]; simpl; [reflexivity |].
  now rewrite IH, andb_assoc.
Qed.

Lemma colon_free_uint (d : Decimal.uint) :
  colon_free (NilEmpty.string_of_uint d) = true.
Proof. induction d; cbn; auto. Qed.

Lemma colon_free_Z_to_string (n : Z) : colon_free (Z_to_string n) = true.
Proof.
  unfold Z_to_string, NilZero.string_of_uint.
  destruct (N.to_uint (Z.to_N n)); try apply colon_free_uint. reflexivity.
Qed.

Lemma colon_free_zeros (n : nat) : colon_free (zeros n) = true.
Proof. induction n; cbn; auto. Qed.

Lemma colon_free_fixed_digits (prec : nat) (n : Z) :
  colon_free (fixed_digits prec n) = true.
Proof.
  unfold fixed_digits, pad0. cbv zeta.
  destruct prec; [apply colon_free_Z_to_string |].
  now rewrite !colon_free_app, !colon_free_Z_to_string, colon_free_zeros.
Qed.

Lemma colon_free_format_f (prec : nat) (x : float) :
  colon_free (format_f prec x) = true.
Proof.
  unfold format_f. cbv zeta.
  destruct (Prim2SF x) as [neg | neg | | neg m e];
    try (rewrite colon_free_app, colon_free_fixed_digits);
    try destruct neg; reflexivity.
Qed.

(** Two strings without a colon that are followed by a colon are read
    back from the concatenation. *)
Lemma colon_split (a a' r r' : string) :
  colon_free a = true -> colon_free a' = true ->
  a +:+ ":" +:+ r = a' +:+ ":" +:+ r' -> a = a' /\ r = r'.
Proof.
  revert a'. induction a as [| c a IH]; intros [| c' a'] Ha Ha' E;
    cbn [String.append colon_free] in *.
  - now injection E.
  - injection E as <- _. discriminate Ha'.
  - injection E as -> _. discriminate Ha.
  - injection E as <- E.
    apply andb_true_iff in Ha as [_ Ha], Ha' as [_ Ha'].
    destruct (IH a' Ha Ha' E) as [-> ->]. now split.
Qed.

Lemma orderBookHash_printed (ob : OrderBook.t) :
  orderBookHash ob
  = fst (fst (printedTop ob)) +:+ ":" +:+ snd (fst (printedTop ob)) +:+ ":"
    +:+ fst (snd (printedTop ob)) +:+ ":" +:+ snd (snd (printedTop ob)).
Proof.
  destruct ob as [[| b bs] [| a asks]]; reflexivity.
Qed.

Lemma printedTop_colon_free (ob : OrderBook.t) :
  colon_free (fst (fst (printedTop ob))) = true
  /\ colon_free (snd (fst (printedTop ob))) = true
  /\ colon_free (fst (snd (printedTop ob))) = true.
Proof.
  destruct ob as [[| b bs] [| a asks]]; cbn;
    repeat split; apply colon_free_format_f.
Qed.

(** The fingerprint is the printed top of book, no more and no less. *)
Lemma orderBookHash_eq_iff (ob1 ob2 : OrderBook.t) :
  orderBookHash ob1 = orderBookHash ob2 <-> printedTop ob1 = printedTop ob2.
Proof.
  split.
  - rewrite !orderBookHash_printed. intros E.
    destruct (printedTop_colon_free ob1) as (H1 & H2 & H3).
    destruct (printedTop_colon_free ob2) as (H1' & H2' & H3').
    destruct (printedTop ob1) as [[b1 s1] [a1 t1]].
    destruct (printedTop ob2) as [[b2 s2] [a2 t2]].
    cbn [fst snd] in *.
    apply colon_split in E as [-> E]; [| assumption | assumption].
    apply colon_split in E as [-> E]; [| assumption | assumption].
    apply colon_split in E as [-> ->]; [| assumption | assumption].
    reflexivity.
  - intros E. now rewrite !orderBookHash_printed, E.
Qed.

(** C3. The fingerprint is exactly the top of book as it is printed:
    two snapshots have the same fingerprint if and only if their best
    bid and best ask print alike, prices with two decimals and sizes as
    integers; so snapshots with the same top of book have the same
    fingerprint whatever their deeper levels, and snapshots with
    different fingerprints differ at the top. The converse fails. At
    the failing input, a fund quoted to the third decimal whose best
    bid moves from 1.231 to 1.232, the two tops differ and print alike
    (1.23, 800, 1.23, 150), the fingerprints are equal, and the
    order-book task, having published the first book, fetches the
    second and publishes nothing. *)
Theorem fingerprint_misses_a_price_move :
  (forall ob1 ob2 : OrderBook.t,
      (orderBookHash ob1 = orderBookHash ob2
       <-> printedTop ob1 = printedTop ob2)
      /\ (topOfBook ob1 = topOfBook ob2 ->
          orderBookHash ob1 = orderBookHash ob2)
      /\ (orderBookHash ob1 <> orderBookHash ob2 ->
          topOfBook ob1 <> topOfBook ob2))
  /\ exists ob1 ob2,
       book_of (fund_record "1.231") = Some ob1
       /\ book_of (fund_record "1.232") = Some ob2
       /\ fst (topOfBook ob1) = Some (1.231%float, 800)
       /\ fst (topOfBook ob2) = Some (1.232%float, 800)
       /\ PrimFloat.eqb 1.231 1.232 = false
       /\ topOfBook ob1 <> topOfBook ob2
       /\ printedTop ob1 = (("1.23", "800"), ("1.23", "150"))
       /\ printedTop ob2 = (("1.23", "800"), ("1.23", "150"))
       /\ orderBookHash ob1 = "1.23:800:1.23:150"
       /\ orderBookHash ob2 = "1.23:800:1.23:150"
       /\ two_book_ticks (focused "sh510300") fund_feed
          = Some ([OrderBookUpdate ob1], [],
                  [ReqStock ["sh510300"]; ReqStock ["sh510300"]]).
Proof.
  split.
  - intros ob1 ob2.
    assert (Heq : topOfBook ob1 = topOfBook ob2 ->
                  orderBookHash ob1 = orderBookHash ob2).
    { intros Htop. apply orderBookHash_eq_iff. unfold printedTop.
      now rewrite Htop. }
    split; [apply orderBookHash_eq_iff |]. split; [exact Heq |].
    intros Hne Htop. apply Hne, Heq, Htop.
  - eexists. eexists.
    split; [vm_compute; reflexivity |].
    split; [vm_compute; reflexivity |].
    repeat split; try (vm_compute; reflexivity).
    intros E.
    apply (f_equal (fun top => match fst top with
                               | Some (price, _) => PrimFloat.eqb price 1.231
                               | None => false
                               end)) in E.
    vm_compute in E. discriminate E.
Qed.

(* ------------------------------------------------------------------ *)
(** ** Running the monad                                               *)
(* ------------------------------------------------------------------ *)

Lemma total_ret {A} (a : A) : total (ret a).
Proof. intros w. now exists a, w. Qed.

Lemma total_bind {A B} (m : M A) (k : A -> M B) :
  total m -> (forall a, total (k a)) -> total (bind m k).
Proof.
  intros Hm Hk w. destruct (Hm w) as (a & w1 & E).
  destruct (Hk a w1) as (b & w2 & E2).
  exists b, w2. unfold bind. now rewrite E.
Qed.

(** Two continuations that agree on what the first part returns. *)
Lemma bind_cong {A B} (m : M A) (k1 k2 : A -> M B) (w : World) :
  (forall a w', m w = Some (a, w') -> k1 a w' = k2 a w') ->
  bind m k1 w = bind m k2 w.
Proof.
  intros Hk. unfold bind. destruct (m w) as [[a w'] |]; [| reflexivity].
  now apply Hk.
Qed.

Lemma total_get {A} (f : World -> A) : total (get f).
Proof. intros w. now eexists _, _. Qed.

Lemma total_modify (f : World -> World) : total (modify f).
Proof. intros w. now eexists _, _. Qed.

Lemma total_log (l : LogEntry) : total (log l).
Proof. intros w. now eexists _, _. Qed.

Lemma total_send (r : Request) : total (send r).
Proof. intros w. now eexists _, _. Qed.

Lemma total_time_Now : total time_Now.
Proof. intros w. now eexists _, _. Qed.

Lemma total_time_Since (t : Time) : total (time_Since t).
Proof. apply total_bind; [apply total_time_Now | intros; apply total_ret]. Qed.

Create HintDb total_db.
#[local] Hint Resolve total_ret total_get total_modify total_log total_send
  total_time_Now total_time_Since : total_db.

Ltac total_step :=
  first
    [ solve [auto with total_db]
    | apply total_bind; [| intros ?]
    | match goal with
      | |- total (match ?x with _ => _ end) => destruct x
      | |- total (if ?b then _ else _) => destruct b
      | |- total (let '(_, _) := ?x in _) => destruct x
      end ].

Ltac total_auto := repeat total_step.

(* ------------------------------------------------------------------ *)
(** ** The trading calendar                                            *)
(* ------------------------------------------------------------------ *)

Lemma fetchHolidayData_total (year : Z) : total (fetchHolidayData year).
Proof. unfold fetchHolidayData. total_auto. Qed.

Lemma loadHolidayData_total (year : Z) : total (loadHolidayData year).
Proof.
  unfold loadHolidayData. total_auto; apply fetchHolidayData_total.
Qed.

Lemma getHolidayNote_total (year : Z) (dateStr : string) :
  total (getHolidayNote year dateStr).
Proof. unfold getHolidayNote. total_auto. Qed.

Lemma getHolidayStatus_total (date : Time) : total (getHolidayStatus date).
Proof.
  unfold getHolidayStatus.
  apply total_bind; [apply loadHolidayData_total | intros r].
  destruct r as [data | e]; [| total_auto].
  destruct (data !! Time_FormatDate date); [| total_auto].
  apply total_bind; [apply getHolidayNote_total | intros; total_auto].
Qed.

Lemma isTradeDay_total (date : Time) : total (isTradeDay date).
Proof.
  unfold isTradeDay.
  destruct ((Time_Weekday date =? Saturday) || (Time_Weekday date =? Sunday));
    [total_auto |].
  apply total_bind; [apply getHolidayStatus_total | intros [[o i] n]].
  total_auto.
Qed.

#[local] Hint Resolve fetchHolidayData_total loadHolidayData_total
  getHolidayNote_total getHolidayStatus_total isTradeDay_total : total_db.

Lemma minuteOfDay_range (t : Time) : 0 <= minuteOfDay t < 24 * 60.
Proof.
  unfold minuteOfDay, Time_Hour, Time_Minute.
  pose proof (Z.mod_pos_bound (localSeconds t) 86400 ltac:(lia)) as Hd.
  pose proof (Z.mod_pos_bound (localSeconds t) 3600 ltac:(lia)) as Hh.
  assert (0 <= localSeconds t mod 86400 / 3600 <= 23).
  { split; [apply Z.div_pos; lia |].
    apply Z.lt_succ_r, Z.div_lt_upper_bound; lia. }
  assert (0 <= localSeconds t mod 3600 / 60 <= 59).
  { split; [apply Z.div_pos; lia |].
    apply Z.lt_succ_r, Z.div_lt_upper_bound; lia. }
  lia.
Qed.

(** Every minute of the day is the minute of some instant. *)
Lemma every_minute_is_reached (m : Z) :
  0 <= m < 24 * 60 ->
  minuteOfDay {| unixNano := (m * 60 - CST) * second; zoneOffset := CST |} = m.
Proof.
  intros Hm.
  unfold minuteOfDay, Time_Hour, Time_Minute, localSeconds, Time_Unix.
  cbn [unixNano zoneOffset].
  unfold second at 2 4. rewrite Z.div_mul by discriminate.
  replace (m * 60 - CST + CST) with (m * 60) by lia.
  rewrite (Z.mod_small (m * 60) 86400) by lia.
  pose proof (Z.div_mod m 60 ltac:(lia)) as Hdm.
  pose proof (Z.mod_pos_bound m 60 ltac:(lia)) as Hr.
  assert (Hh : m * 60 / 3600 = m / 60).
  { change 3600 with (60 * 60). rewrite <- Z.div_div by lia.
    now rewrite Z.div_mul by discriminate. }
  assert (Hmin : (m * 60) mod 3600 / 60 = m mod 60).
  { replace (m * 60) with (m mod 60 * 60 + m / 60 * 3600) by lia.
    rewrite Z.mod_add by discriminate.
    rewrite Z.mod_small by lia. now rewrite Z.div_mul by discriminate. }
  rewrite Hh, Hmin. lia.
Qed.

(** On a weekend the answer does not depend on the holiday tables: no
    tier is consulted and the world is left as it was. *)
Lemma weekend_is_never_a_trading_day (date : Time) (w : World) :
  Time_Weekday date = Saturday \/ Time_Weekday date = Sunday ->
  isTradeDay date w = Some ((false, weekend_note), w).
Proof.
  intros Hwe. unfold isTradeDay.
  assert (E : (Time_Weekday date =? Saturday) || (Time_Weekday date =? Sunday)
              = true).
  { destruct Hwe as [-> | ->]; reflexivity. }
  rewrite E. reflexivity.
Qed.

(** C1, as amended. GetMarketStatus never panics; it reads the clock
    once and classifies that instant on the UTC+8 civil clock, whatever
    the host's zone. When isTradeDay answers no, the status is closed.
    Otherwise, with m the minute of the day (0 <= m < 1440):
    m < 9:15 gives pre_market; 9:15 <= m < 9:30 gives pre_market too
    (the auction is told apart by the status text only);
    9:30 <= m < 11:30 gives trading; 11:30 <= m < 13:00 gives
    lunch_break; 13:00 <= m < 15:00 gives trading; 15:00 <= m gives
    closed. *)
Theorem market_phase_by_minute (w : World) :
  let now := marketNow w in
  let m := minuteOfDay now in
  zoneOffset now = 8 * 3600
  /\ 0 <= m < 24 * 60
  /\ exists td name st w',
      isTradeDay now (set_clock_reads (S (clock_reads w)) w)
      = Some ((td, name), w')
      /\ GetMarketStatus w = Some (st, w')
      /\ IsTradeDay st = td
      /\ (td = false -> Status st = "closed")
      /\ (td = true ->
          (m < 9 * 60 + 15 -> Status st = "pre_market")
          /\ (9 * 60 + 15 <= m < 9 * 60 + 30 ->
              Status st = "pre_market" /\ StatusText st = "集合竞价")
          /\ (9 * 60 + 30 <= m < 11 * 60 + 30 -> Status st = "trading")
          /\ (11 * 60 + 30 <= m < 13 * 60 -> Status st = "lunch_break")
          /\ (13 * 60 <= m < 15 * 60 -> Status st = "trading")
          /\ (15 * 60 <= m -> Status st = "closed")).
Proof.
  intros now m.
  split; [reflexivity |].
  split; [apply minuteOfDay_range |].
  destruct (isTradeDay_total now (set_clock_reads (S (clock_reads w)) w))
    as ([td name] & w' & E).
  exists td, name.
  unfold GetMarketStatus, bind, time_Now.
  fold (marketNow w). fold now. rewrite E.
  destruct td; cbn [negb].
  - fold (minuteOfDay now). fold m.
    destruct (Z.ltb_spec m (9 * 60 + 15));
      [| destruct (Z.ltb_spec m (9 * 60 + 30));
         [| destruct (Z.ltb_spec m (11 * 60 + 30));
            [| destruct (Z.ltb_spec m (13 * 60));
               [| destruct (Z.ltb_spec m (15 * 60))]]]];
      (eexists _, _; split; [reflexivity |]; split; [reflexivity |];
       split; [reflexivity |]; split; [discriminate |]; intros _;
       cbn [Status StatusText];
       repeat split; intros; solve [reflexivity | lia]).
  - eexists _, _. split; [reflexivity |]. split; [reflexivity |].
    split; [reflexivity |]. split; [reflexivity | discriminate].
Qed.

(** At 09:15 on a trading day the status is pre_market: the status
    pre_market_auction is never produced. *)
Lemma auction_window_is_pre_market :
  minuteOfDay (marketNow (world_at tuesday_0915 table2024)) = 9 * 60 + 15
  /\ option_map (fun st => (IsTradeDay st, Status st, StatusText st))
       (result_of (GetMarketStatus (world_at tuesday_0915 table2024)))
     = Some (true, "pre_market", "集合竞价")
  /\ "pre_market" <> "pre_market_auction".
Proof.
  split; [vm_compute; reflexivity |].
  split; [vm_compute; reflexivity |].
  intros E. discriminate E.
Qed.

(** The boundary minutes of a trading day. *)
Example boundary_minutes :
  map (fun hm : Z * Z =>
         option_map (fun r => Status (fst r))
           (GetMarketStatus
              (world_at (tuesday_0915 + ((fst hm - 9) * 60 + snd hm - 15) * 60)
                        table2024)))
      [(9, 14); (9, 15); (9, 29); (9, 30); (11, 29); (11, 30);
       (12, 59); (13, 0); (14, 59); (15, 0)]
  = map Some
      ["pre_market"; "pre_market"; "pre_market"; "trading"; "trading";
       "lunch_break"; "lunch_break"; "trading"; "trading"; "closed"].
Proof. vm_compute. reflexivity. Qed.

(** *** Holiday data that cannot be had *)

Lemma loadHolidayData_unavailable (w : World) (year : Z) (e : error) :
  holiday_unavailable w year e ->
  loadHolidayData year w = Some (Err e, sent (ReqHoliday year) w).
Proof.
  intros (Hmem & Hfile & Hnet).
  unfold loadHolidayData, bind, get. rewrite Hmem.
  assert (Hfetch : fetchHolidayData year w
                   = Some (Err e, sent (ReqHoliday year) w)).
  { unfold fetchHolidayData, bind, send, get.
    cbn [net_holiday set_requests].
    destruct (net_holiday w (length (requests w)) year) as [[| hd] | e'];
      cbn in Hnet; try discriminate Hnet;
      injection Hnet as <-; reflexivity. }
  destruct Hfile as [-> | ->]; exact Hfetch.
Qed.

(** C5, as amended. For a date that is not on a weekend and whose
    year's holiday data is in none of the three tiers, loadHolidayData
    returns the error to its caller getHolidayStatus; there the error
    stops: a warning is logged, the date is reported as not listed, and
    isTradeDay answers that the date is a trading day, with no holiday
    name and no error. *)
Theorem holiday_failure_stops_at_status (w : World) (date : Time)
    (e : error) :
  Time_Weekday date <> Saturday ->
  Time_Weekday date <> Sunday ->
  holiday_unavailable w (Time_Year date) e ->
  let w1 := sent (ReqHoliday (Time_Year date)) w in
  let w2 := set_logs (logs w ++ [WarnHolidayLoadFailed (Time_Year date) e])
                     w1 in
  loadHolidayData (Time_Year date) w = Some (Err e, w1)
  /\ getHolidayStatus date w = Some ((false, false, EmptyString), w2)
  /\ isTradeDay date w = Some ((true, EmptyString), w2).
Proof.
  intros Hsat Hsun Hun w1 w2.
  pose proof (loadHolidayData_unavailable w _ e Hun) as Hload.
  assert (Hstatus : getHolidayStatus date w
                    = Some ((false, false, EmptyString), w2)).
  { unfold getHolidayStatus, bind. rewrite Hload. reflexivity. }
  split; [exact Hload |]. split; [exact Hstatus |].
  unfold isTradeDay.
  apply Z.eqb_neq in Hsat, Hsun. rewrite Hsat, Hsun. cbn [orb].
  unfold bind. rewrite Hstatus. reflexivity.
Qed.

Lemma holiday_failure_stops_at_status_witness :
  isTradeDay tuesday_0915_time (world_at tuesday_0915 ∅)
  = Some ((true, EmptyString),
          set_logs [WarnHolidayLoadFailed 2024 ErrTransport]
            (sent (ReqHoliday 2024) (world_at tuesday_0915 ∅))).
Proof.
  apply (holiday_failure_stops_at_status
           (world_at tuesday_0915 ∅) tuesday_0915_time ErrTransport).
  - vm_compute. intros E. discriminate E.
  - vm_compute. intros E. discriminate E.
  - repeat split. left. reflexivity.
Defined.

(** With no holiday data anywhere, the caller of the trading-day
    resolution gets a classification, not an error: the value returned
    has no error in it, although loading the year failed. *)
Lemma unavailable_year_is_classified :
  result_of (loadHolidayData 2024 (world_at tuesday_0915 ∅))
  = Some (Err ErrTransport)
  /\ result_of (isTradeDay tuesday_0915_time (world_at tuesday_0915 ∅))
     = Some (true, EmptyString)
  /\ option_map (fun r => (IsTradeDay (fst r), Status (fst r)))
       (GetMarketStatus (world_at tuesday_0915 ∅))
     = Some (true, "pre_market").
Proof. repeat split; vm_compute; reflexivity. Qed.

(** *** The rolling window of trading dates *)

Lemma isTradeDate_total (date : Time) : total (isTradeDate date).
Proof. unfold isTradeDate. total_auto. Qed.

Lemma preloadYears_total (years : list Z) : total (preloadYears years).
Proof.
  induction years as [| year rest IH]; cbn [preloadYears]; [total_auto |].
  apply total_bind; [apply loadHolidayData_total | intros r].
  apply total_bind; [destruct r; total_auto | intros _; exact IH].
Qed.

Lemma collectTradeDates_total (today : Time) (offsets : list Z)
    (acc : list string) :
  total (collectTradeDates today offsets acc).
Proof.
  revert acc. induction offsets as [| i rest IH]; intros acc;
    cbn [collectTradeDates]; [total_auto |].
  apply total_bind; [apply isTradeDate_total | intros ok; apply IH].
Qed.

(** fetchTradeDates never panics and never returns an error: when the
    holiday data of a year cannot be loaded it logs a warning and goes
    on with the weekdays. *)
Lemma fetchTradeDates_never_fails (days : Z) (w : World) :
  exists tradeDates w', fetchTradeDates days w = Some (Ok tradeDates, w').
Proof.
  unfold fetchTradeDates, bind, time_Now.
  set (today := {| unixNano := _; zoneOffset := _ |}).
  set (w0 := set_clock_reads _ w).
  destruct (preloadYears_total
              (remove_dups (map (fun i => Time_Year (Time_AddDays today (- i)))
                                (upto days))) w0) as ([] & w1 & E1).
  rewrite E1.
  destruct (collectTradeDates_total today (upto days) [] w1)
    as (dates & w2 & E2).
  rewrite E2. unfold log, ret. now eexists _, _.
Qed.

(** C9, at the failing input. The window is present, non-empty and
    older than 24 hours, and the refresh has nothing to work with; yet
    GetTradeDates does not answer with the stale window: the refresh
    reports success, its list (every weekday, New Year's Day included)
    is returned and written over the window, and the warning of the
    stale branch is never logged. *)
Lemma stale_window_is_overwritten :
  result_of (GetTradeDates 3 stale_world)
  = Some (Ok ["2024-01-02"; "2024-01-01"; "2023-12-29"])
  /\ left_with (fun w' => match tradeDatesFile w' with
                          | Some (Parsed c) => take 3 (TradeDates c)
                          | _ => []
                          end) (GetTradeDates 3 stale_world)
     = Some ["2024-01-02"; "2024-01-01"; "2023-12-29"]
  /\ left_with (fun w' => existsb is_stale_warning (logs w'))
       (GetTradeDates 3 stale_world) = Some false
  /\ left_with (fun w' => existsb is_warning (logs w'))
       (GetTradeDates 3 stale_world) = Some true
  /\ take 3 (TradeDates stale_window)
     = ["2023-12-29"; "2023-12-28"; "2023-12-27"].
Proof. repeat split; vm_compute; reflexivity. Qed.

(** Once the window has to be refreshed, what was on disk plays no part
    in the answer. *)
Lemma refresh_ignores_stale_window `{Strconv}
    (cached : option tradeDatesCache) (days : Z) (w : World) :
  refreshTradeDates cached days w = refreshTradeDates None days w.
Proof.
  unfold refreshTradeDates.
  apply bind_cong. intros [] w0 _.
  apply bind_cong. intros r w1 E1.
  destruct (fetchTradeDates_never_fails 90 w0) as (dates & w1' & E).
  rewrite E in E1. injection E1 as <- <-. reflexivity.
Qed.

(* ------------------------------------------------------------------ *)
(** ** The caches in front of the quote and candle sources             *)
(* ------------------------------------------------------------------ *)

Section CacheFacts.
Context `{Strconv}.

Lemma stock_cache_fresh (w : World) (codes : list string)
    (cached : stockCache) :
  codes <> [] ->
  ms_cache w !! stockCacheKey codes = Some cached ->
  age w (sc_timestamp cached) < cacheTTL w ->
  GetStockDataWithOrderBook codes w
  = Some (Ok (sc_data cached), set_clock_reads (S (clock_reads w)) w).
Proof.
  intros Hne Hentry Hage.
  destruct codes as [| c cs]; [congruence |].
  unfold GetStockDataWithOrderBook, bind, get. rewrite Hentry.
  unfold time_Since, bind, time_Now, ret.
  unfold age, reading in Hage. rewrite Nat.add_0_r in Hage.
  apply Z.ltb_lt in Hage. rewrite Hage. reflexivity.
Qed.


Lemma kline_cache_fresh (w : World) (code period : string) (days : Z)
    (cached : klineCache) :
  ms_klineCache w !! klineCacheKey code period days = Some cached ->
  age w (kc_timestamp cached) < klineCacheTTL w ->
  GetKLineData code period days w
  = Some (Ok (kc_data cached), set_clock_reads (S (clock_reads w)) w).
Proof.
  intros Hentry Hage.
  unfold GetKLineData, bind, get. rewrite Hentry.
  unfold time_Since, bind, time_Now, ret.
  unfold age, reading in Hage. rewrite Nat.add_0_r in Hage.
  apply Z.ltb_lt in Hage. rewrite Hage. reflexivity.
Qed.

(** filterTodayKLines and the minute mode, by cases. *)
Lemma filterTodayKLines_run (klines : list KLineData.t) (w : World) :
  filterTodayKLines klines w
  = match klines with
    | [] => Some ([], w)
    | _ => option_map (fun today => (today, tick w))
                      (dayBuckets (hostDate w) klines)
    end.
Proof.
  destruct klines as [| k rest]; [reflexivity |].
  unfold filterTodayKLines, dayBuckets, hostDate, tick, bind, time_Now.
  destruct (List.filter _ (k :: rest)); [| reflexivity].
  destruct (last (k :: rest)) as [lastBucket |]; [| reflexivity].
  destruct (first10 (KLineData.Time lastBucket)); reflexivity.
Qed.

Lemma minuteMode_other (period : string) (klines : list KLineData.t)
    (w : World) :
  period <> "1m" -> minuteMode period klines w = Some (klines, w).
Proof.
  intros Hp. unfold minuteMode. apply String.eqb_neq in Hp. now rewrite Hp.
Qed.

Lemma minuteMode_minute (klines : list KLineData.t) (w : World) :
  minuteMode "1m" klines w
  = match klines with
    | [] => Some ([], w)
    | _ => option_map (fun today => (calculateAvgLine today, tick w))
                      (dayBuckets (hostDate w) klines)
    end.
Proof.
  unfold minuteMode. cbn [String.eqb Ascii.eqb Bool.eqb].
  unfold bind. rewrite filterTodayKLines_run.
  destruct klines as [| k rest]; [reflexivity |].
  destruct (dayBuckets (hostDate w) (k :: rest)); reflexivity.
Qed.

(** The minute mode reads the clock at most once and touches nothing
    else. *)
Lemma minuteMode_world (period : string) (klines today : list KLineData.t)
    (w w1 : World) :
  minuteMode period klines w = Some (today, w1) -> w1 = w \/ w1 = tick w.
Proof.
  destruct (String.eqb_spec period "1m") as [-> | Hp].
  - rewrite minuteMode_minute. destruct klines as [| k rest].
    + intros [= _ <-]. now left.
    + destruct (dayBuckets (hostDate w) (k :: rest)); [| discriminate].
      intros [= _ <-]. now right.
  - rewrite minuteMode_other by assumption. intros [= _ <-]. now left.
Qed.

(** The tail of GetKLineData after a miss: the request goes out, then
    the minute mode runs, then the result is stored. *)
Lemma fetch_store_kline (code period : string) (days : Z) (key : string)
    (w : World) :
  (klines <~ fetchKLineData code period days ;; storeKLine key klines) w
  = match net_kline w (length (requests w)) code period days with
    | Err e => Some (Err e, sent (ReqKLine code period days) w)
    | Ok raw =>
        match minuteMode period raw (sent (ReqKLine code period days) w) with
        | Some (klines, fetched) =>
            Some (Ok klines,
                  set_ms_klineCache
                    <[key := {| kc_data := klines;
                                kc_timestamp := reading fetched 0 |}]>
                    (tick fetched))
        | None => None
        end
    end.
Proof.
  unfold fetchKLineData, bind, send, get.
  cbn [requests set_requests net_kline]. fold (sent (ReqKLine code period days) w).
  destruct (net_kline w (length (requests w)) code period days)
    as [raw | e]; [| reflexivity].
  destruct (minuteMode period raw (sent (ReqKLine code period days) w))
    as [[klines fetched] |]; [| reflexivity].
  unfold ret, storeKLine, bind, time_Now, modify, ret, reading, tick.
  now rewrite Nat.add_0_r.
Qed.

Lemma kline_cache_stale (w : World) (code period : string) (days : Z)
    (cached : klineCache) :
  ms_klineCache w !! klineCacheKey code period days = Some cached ->
  klineCacheTTL w <= age w (kc_timestamp cached) ->
  GetKLineData code period days w
  = (klines <~ fetchKLineData code period days ;;
     storeKLine (klineCacheKey code period days) klines) (tick w).
Proof.
  intros Hentry Hage.
  unfold GetKLineData. unfold bind at 1 2. unfold get at 1 2.
  rewrite Hentry.
  unfold bind at 1. unfold time_Since, bind at 1, time_Now, ret at 1.
  unfold age, reading in Hage. rewrite Nat.add_0_r in Hage.
  apply Z.ltb_ge in Hage. rewrite Hage. reflexivity.
Qed.

Lemma kline_cache_miss (w : World) (code period : string) (days : Z) :
  ms_klineCache w !! klineCacheKey code period days = None ->
  GetKLineData code period days w
  = (klines <~ fetchKLineData code period days ;;
     storeKLine (klineCacheKey code period days) klines) w.
Proof.
  intros Hentry.
  unfold GetKLineData. unfold bind at 1 2. unfold get at 1 2.
  now rewrite Hentry.
Qed.

(** A miss in minute mode, on a reply that has buckets of some day. *)
Lemma kline_miss_minute (w : World) (code : string) (days : Z)
    (raw today klines : list KLineData.t) :
  ms_klineCache w !! klineCacheKey code "1m" days = None ->
  net_kline w (length (requests w)) code "1m" days = Ok raw ->
  raw <> [] ->
  dayBuckets (hostDate (sent (ReqKLine code "1m" days) w)) raw = Some today ->
  calculateAvgLine today = klines ->
  GetKLineData code "1m" days w
  = Some (Ok klines,
          stored_kline (tick (sent (ReqKLine code "1m" days) w))
            code "1m" days klines).
Proof.
  intros Hentry Hnet Hraw Hday Havg.
  rewrite kline_cache_miss by assumption.
  rewrite fetch_store_kline, Hnet, minuteMode_minute.
  destruct raw as [| k rest]; [congruence |].
  rewrite Hday. cbn [option_map]. rewrite Havg. reflexivity.
Qed.

End CacheFacts.



(* ------------------------------------------------------------------ *)
(** ** Incremental candle push                                         *)
(* ------------------------------------------------------------------ *)

Section CandleFacts.
Context `{Strconv} `{TimeParse}.

Lemma onKLineSubscribe_resets (code period : string) (p : MarketDataPusher) :
  code <> EmptyString -> period <> EmptyString ->
  klineSub (onKLineSubscribe code period p)
  = {| Code := code; Period := period |}
  /\ lastKLineTime (onKLineSubscribe code period p) = 0.
Proof.
  intros Hc Hp. unfold onKLineSubscribe.
  apply String.eqb_neq in Hc, Hp. rewrite Hc, Hp. split; reflexivity.
Qed.

(** C4, as amended. For a current 1-minute subscription and a fetch
    that returns buckets, the newest being [latest] with timestamp [t]:
    the step records [t]; it publishes nothing when the recorded marker
    is non-zero and equal to [t]; it publishes exactly one event, made
    of [latest] alone and tagged incremental, when [t] differs from the
    marker or the marker is 0.  The marker is 0 right after the
    subscription is set, and also after a bucket whose timestamp is 0
    (the epoch, or a label that does not parse) has been recorded. *)
Theorem incremental_candle_push (p : MarketDataPusher) (w w' : World)
    (klines : list KLineData.t) (latest : KLineData.t) :
  Code (klineSub p) <> EmptyString ->
  Period (klineSub p) = "1m" ->
  GetKLineData (Code (klineSub p)) "1m" 5 w = Some (Ok klines, w') ->
  last klines = Some latest ->
  let t := parseKLineTime (KLineData.Time latest) in
  exists events,
    pushKLineMinute p w = Some ((set_lastKLineTime t p, events), w')
    /\ (lastKLineTime p <> 0 -> t = lastKLineTime p -> events = [])
    /\ (lastKLineTime p = 0 \/ t <> lastKLineTime p ->
        events = [KLineUpdate (Code (klineSub p)) "1m" [latest] (Some true)])
    /\ forall code period q,
        code <> EmptyString -> period <> EmptyString ->
        lastKLineTime (onKLineSubscribe code period q) = 0.
Proof.
  intros Hcode Hperiod Hget Hlast t.
  unfold pushKLineMinute.
  apply String.eqb_neq in Hcode. rewrite Hcode, Hperiod.
  cbn [String.eqb Ascii.eqb Bool.eqb negb orb].
  unfold bind. rewrite Hget, Hlast. fold t.
  destruct (Z.eqb_spec (lastKLineTime p) 0) as [Hzero | Hnz].
  - cbn [orb]. eexists. split; [reflexivity |].
    split; [intros Hn; contradiction |].
    split; [reflexivity |].
    intros code period q Hc Hp. now apply onKLineSubscribe_resets.
  - cbn [orb]. destruct (Z.eqb_spec t (lastKLineTime p)) as [Heq | Hne];
      cbn [negb]; eexists; (split; [reflexivity |]).
    + split; [reflexivity |].
      split; [intros [Hz | Hd]; contradiction |].
      intros code period q Hc Hp. now apply onKLineSubscribe_resets.
    + split; [intros _ Ht; contradiction |].
      split; [reflexivity |].
      intros code period q Hc Hp. now apply onKLineSubscribe_resets.
Qed.

End CandleFacts.

(** The scenario of the interface: right after subscribing, two
    consecutive fetches with the same newest bucket. The first tick
    publishes it, the second (served from the cache) publishes
    nothing. *)
Lemma incremental_candle_push_witness :
  result_of (@pushKLineMinute fixedTimeParse subscribed_1m first_world)
  = Some (marked_0916, [KLineUpdate "600000" "1m" [candle_0916] (Some true)])
  /\ result_of (@pushKLineMinute fixedTimeParse marked_0916 second_world)
     = Some (marked_0916, []).
Proof.
  split.
  - destruct (@incremental_candle_push fixedTimeParse subscribed_1m
                first_world second_world two_candles candle_0916)
      as (events & Hstep & _ & Hone & _).
    + discriminate.
    + reflexivity.
    + apply (kline_miss_minute first_world "600000" 5
               two_candles two_candles two_candles);
        [reflexivity | reflexivity | discriminate
        | vm_compute; reflexivity | vm_compute; reflexivity].
    + reflexivity.
    + rewrite Hstep. rewrite (Hone (or_introl eq_refl)). reflexivity.
  - destruct (@incremental_candle_push fixedTimeParse marked_0916
                second_world
                (set_clock_reads (S (clock_reads second_world)) second_world)
                two_candles candle_0916)
      as (events & Hstep & Hnone & _).
    + discriminate.
    + reflexivity.
    + apply (kline_cache_fresh second_world "600000" "1m" 5
               {| kc_data := two_candles;
                  kc_timestamp := reading first_world 1 |}).
      * reflexivity.
      * vm_compute. reflexivity.
    + reflexivity.
    + rewrite Hstep. rewrite Hnone; [reflexivity | discriminate | reflexivity].
Defined.

(** Two consecutive fetches whose newest bucket has timestamp 0.  The
    first tick publishes the bucket and records 0; at the second tick
    the newest timestamp equals the recorded one, and the bucket is
    published again. *)
Lemma epoch_bucket_is_published_again :
  @parseKLineTime fixedTimeParse (KLineData.Time candle_epoch) = 0
  /\ @two_ticks fixedTimeParse subscribed_1m
       (feed_world tuesday_0915 [candle_epoch])
     = Some (([KLineUpdate "600000" "1m" [candle_epoch] (Some true)], 0),
             ([KLineUpdate "600000" "1m" [candle_epoch] (Some true)], 0))
  /\ publishes_by_marker (Some 0) 0 = false.
Proof. repeat split; vm_compute; reflexivity. Qed.


(* ================================================================== *)
(** * Part III. More properties of the market service and the pusher   *)
(* ================================================================== *)

(* ------------------------------------------------------------------ *)
(** ** The key of the quote cache                                      *)
(* ------------------------------------------------------------------ *)

Lemma ascii_compare_spec (x y : ascii) :
  CompareSpec (x = y) (N_of_ascii x < N_of_ascii y)%N
              (N_of_ascii y < N_of_ascii x)%N (Ascii.compare x y).
Proof.
  unfold Ascii.compare.
  destruct (N.compare_spec (N_of_ascii x) (N_of_ascii y)) as [E | L | G];
    constructor; try assumption.
  rewrite <- (ascii_N_embedding x), <- (ascii_N_embedding y). now rewrite E.
Qed.

Lemma str_le_trans (a b c : string) : str_le a b -> str_le b c -> str_le a c.
Proof.
  unfold str_le, String.leb. revert b c.
  induction a as [| x a IH]; intros b c Hab Hbc.
  - destruct c; reflexivity.
  - destruct b as [| y b]; [discriminate Hab |].
    destruct c as [| z c]; [discriminate Hbc |].
    cbn [String.compare] in *. revert Hab Hbc.
    destruct (ascii_compare_spec x y) as [Exy | Lxy | Gxy];
      destruct (ascii_compare_spec y z) as [Eyz | Lyz | Gyz];
      destruct (ascii_compare_spec x z) as [Exz | Lxz | Gxz];
      intros Hab Hbc; subst;
      try discriminate; try reflexivity; try lia.
    now apply (IH b c).
Qed.

#[local] Instance str_le_antisym : AntiSymm eq str_le.
Proof. intros a b. apply String.leb_antisym. Qed.

Lemma insert_sorted_perm (x : string) (l : list string) :
  insert_sorted x l ≡ₚ x :: l.
Proof.
  induction l as [| y l IH]; cbn [insert_sorted]; [reflexivity |].
  destruct (String.leb x y); [reflexivity |].
  rewrite IH. apply Permutation_swap.
Qed.

Lemma sort_Strings_perm (l : list string) : sort_Strings l ≡ₚ l.
Proof.
  induction l as [| x l IH]; cbn; [reflexivity |].
  rewrite insert_sorted_perm. now constructor.
Qed.

Lemma insert_sorted_sorted (x : string) (l : list string) :
  StronglySorted str_le l -> StronglySorted str_le (insert_sorted x l).
Proof.
  induction l as [| y l IH]; intros Hs; cbn [insert_sorted].
  - repeat constructor.
  - apply StronglySorted_inv in Hs as [Hl Hy].
    destruct (String.leb x y) eqn:E.
    + constructor; [constructor; assumption |].
      constructor; [exact E |].
      eapply Forall_impl; [exact Hy |].
      intros z Hz. now apply (str_le_trans x y z).
    + constructor; [now apply IH |].
      rewrite insert_sorted_perm. constructor; [| exact Hy].
      destruct (String.leb_total x y) as [H | H]; [congruence | exact H].
Qed.

Lemma sort_Strings_sorted (l : list string) :
  StronglySorted str_le (sort_Strings l).
Proof.
  induction l as [| x l IH]; cbn; [constructor |].
  now apply insert_sorted_sorted.
Qed.

(** X1. The key under which GetStockDataWithOrderBook caches a request
    does not depend on the order in which the symbols are given. *)
Theorem stock_cache_key_ignores_order (codes codes' : list string) :
  codes ≡ₚ codes' -> stockCacheKey codes = stockCacheKey codes'.
Proof.
  intros Hperm. unfold stockCacheKey. f_equal.
  apply (StronglySorted_unique str_le); try apply sort_Strings_sorted.
  now rewrite !sort_Strings_perm.
Qed.

Lemma stock_cache_key_ignores_order_witness :
  stockCacheKey ["sz000001"; "sh600000"; "sh600519"]
  = stockCacheKey ["sh600519"; "sz000001"; "sh600000"]
  /\ stockCacheKey ["sz000001"; "sh600000"; "sh600519"]
     = "sh600000,sh600519,sz000001".
Proof.
  split; [| reflexivity].
  apply stock_cache_key_ignores_order.
  apply (Permutation_cons_app ["sh600519"] ["sh600000"]).
  apply perm_swap.
Defined.

(* ------------------------------------------------------------------ *)
(** ** The watchlist as a set                                          *)
(* ------------------------------------------------------------------ *)

Lemma removeFirst_In (code c : string) (l : list string) :
  In c (removeFirst code l) -> In c l.
Proof.
  induction l as [| x l IH]; cbn [removeFirst]; [tauto |].
  destruct (String.eqb x code); cbn; intuition.
Qed.

Lemma removeFirst_NoDup (code : string) (l : list string) :
  NoDup l -> NoDup (removeFirst code l) /\ ~ In code (removeFirst code l).
Proof.
  induction l as [| x l IH]; intros Hnd; cbn [removeFirst].
  - split; [constructor | tauto].
  - apply NoDup_cons in Hnd as [Hx Hl]. rewrite list_elem_of_In in Hx.
    destruct (String.eqb_spec x code) as [-> | Hne].
    + split; assumption.
    + destruct (IH Hl) as [IH1 IH2]. split.
      * apply NoDup_cons. split; [| exact IH1].
        rewrite list_elem_of_In.
        intros Hin. apply Hx. eapply removeFirst_In, Hin.
      * intros [E | Hin]; [congruence | contradiction].
Qed.

Lemma removeFirst_app_new (code : string) (l : list string) :
  ~ In code l -> removeFirst code (l ++ [code]) = l.
Proof.
  induction l as [| x l IH]; intros Hnot; cbn [app removeFirst].
  - now rewrite String.eqb_refl.
  - destruct (String.eqb_spec x code) as [-> | Hne].
    + exfalso. apply Hnot. now left.
    + f_equal. apply IH. intros Hin. apply Hnot. now right.
Qed.

Lemma removeFirst_perm (code : string) (l : list string) :
  In code l -> l ≡ₚ code :: removeFirst code l.
Proof.
  induction l as [| x l IH]; intros Hin; [destruct Hin |].
  cbn [removeFirst]. destruct (String.eqb_spec x code) as [-> | Hne].
  - reflexivity.
  - destruct Hin as [E | Hin]; [congruence |].
    rewrite (IH Hin) at 1. apply Permutation_swap.
Qed.

(** X2. A watchlist without duplicates stays without duplicates under
    AddSubscription and RemoveSubscription; after AddSubscription the
    symbol is on it, after RemoveSubscription it is not. *)
Theorem subscriptions_stay_distinct (p : MarketDataPusher) (code : string) :
  NoDup (subscribedCodes p) ->
  NoDup (subscribedCodes (AddSubscription code p))
  /\ In code (subscribedCodes (AddSubscription code p))
  /\ NoDup (subscribedCodes (RemoveSubscription code p))
  /\ ~ In code (subscribedCodes (RemoveSubscription code p)).
Proof.
  intros Hnd. unfold AddSubscription, RemoveSubscription.
  destruct (slices_Contains (subscribedCodes p) code) eqn:E; cbn [negb].
  - apply slices_Contains_In in E.
    repeat split; try assumption; cbn; now apply removeFirst_NoDup.
  - assert (Hnot : ~ In code (subscribedCodes p)).
    { intros Hin. apply slices_Contains_In in Hin. congruence. }
    cbn. repeat split; try (now apply removeFirst_NoDup).
    + apply NoDup_app. repeat split; try assumption.
      * intros x Hx Hx'. apply list_elem_of_In in Hx.
        apply list_elem_of_singleton in Hx'. subst. contradiction.
      * apply NoDup_singleton.
    + apply in_or_app. right. now left.
Qed.

Lemma subscriptions_stay_distinct_witness :
  NoDup (subscribedCodes
           (AddSubscription "300750" (watching ["600000"; "000001"])))
  /\ ~ In "600000"
       (subscribedCodes
          (RemoveSubscription "600000" (watching ["600000"; "000001"]))).
Proof.
  destruct (subscriptions_stay_distinct (watching ["600000"; "000001"])
              "300750") as (Hadd & _).
  { compute_done. }
  destruct (subscriptions_stay_distinct (watching ["600000"; "000001"])
              "600000") as (_ & _ & _ & Hrem).
  { compute_done. }
  split; assumption.
Defined.

(** X3. RemoveSubscription takes out exactly one copy of the symbol:
    when the symbol is on the watchlist, the old list is the new one
    plus that copy (so on a list that holds it twice, as
    updateSubscriptions can install, one copy stays); and removing a
    symbol right after adding it to a list that did not have it gives
    the pusher back. *)
Theorem remove_takes_one_copy (p : MarketDataPusher) (code : string) :
  (In code (subscribedCodes p) ->
   subscribedCodes p
   ≡ₚ code :: subscribedCodes (RemoveSubscription code p))
  /\ (~ In code (subscribedCodes p) ->
      RemoveSubscription code (AddSubscription code p) = p).
Proof.
  split.
  - intros Hin. cbn. now apply removeFirst_perm.
  - intros Hnot. unfold AddSubscription.
    destruct (slices_Contains (subscribedCodes p) code) eqn:E.
    + apply slices_Contains_In in E. contradiction.
    + cbn [negb]. unfold RemoveSubscription. cbn.
      rewrite removeFirst_app_new by assumption.
      destruct p. reflexivity.
Qed.

Lemma remove_takes_one_copy_witness :
  subscribedCodes
    (RemoveSubscription "600000"
       (updateSubscriptions
          [any_string "600000"; any_other; any_string "600000"]
          NewMarketDataPusher))
  = ["600000"]
  /\ RemoveSubscription "300750"
       (AddSubscription "300750" (watching ["600000"]))
     = watching ["600000"].
Proof.
  split; [reflexivity |].
  apply (proj2 (remove_takes_one_copy (watching ["600000"]) "300750")).
  cbn. intros [E | []]. discriminate E.
Defined.

(* ------------------------------------------------------------------ *)
(** ** Batches of records                                              *)
(* ------------------------------------------------------------------ *)

Section BatchFacts.
Context `{Strconv}.

Lemma keptRecord_cases (minFields : nat) (code text : string) :
  keptRecord minFields (code, text)
  = if String.eqb text EmptyString then false
    else negb (length (strings_Split_comma text) <? minFields)%nat.
Proof.
  unfold keptRecord. cbn [snd].
  destruct (String.eqb text EmptyString); cbn [negb andb]; [reflexivity |].
  destruct (Nat.leb_spec minFields (length (strings_Split_comma text)));
    destruct (Nat.ltb_spec (length (strings_Split_comma text)) minFields);
    try reflexivity; lia.
Qed.

(** X4. The two quote parsers never panic on a batch: records with an
    empty text or fewer than 32 fields are skipped and the others are
    kept in order, each under the symbol of its record; and the quote
    inside a quote-with-book is the quote parseSinaStockData gives for
    the same batch. *)
Theorem quote_batch_skips_malformed (matches : list (string * string)) :
  exists stocks plain,
    parseSinaStockDataWithOrderBook matches = Some stocks
    /\ parseSinaStockData matches = Some plain
    /\ map Stock.Symbol plain = map fst (List.filter (keptRecord 32) matches)
    /\ map swob_Stock stocks = plain.
Proof.
  induction matches as [| [code text] rest (stocks & plain & E1 & E2 & Hs & Hp)].
  - exists [], []. repeat split.
  - cbn [parseSinaStockDataWithOrderBook parseSinaStockData List.filter].
    rewrite keptRecord_cases.
    destruct (String.eqb text EmptyString);
      [exists stocks, plain; repeat split; assumption |].
    destruct (Nat.ltb_spec (length (strings_Split_comma text)) 32)
      as [Hlt | Hge]; cbn [negb];
      [exists stocks, plain; repeat split; assumption |].
    destruct (parseStockWithOrderBook_sides code (strings_Split_comma text))
      as (sw & Hsw & Hfields & _); [lia |].
    destruct (parseStockFields_fields code (strings_Split_comma text))
      as (s & Hsf & Hsym & _); [lia |].
    rewrite Hsw, Hfields, E1, E2. cbn [mbind option_bind].
    exists (sw :: stocks), (swob_Stock sw :: plain).
    repeat split; cbn [map fst]; [| now rewrite Hp].
    rewrite Hs. f_equal. congruence.
Qed.

(** X5. parseMarketIndices never panics on a batch: records with an
    empty text or fewer than 6 fields are skipped, the others are kept
    in order under the code of their record, with the name taken from
    field 0. *)
Theorem index_batch_skips_malformed (matches : list (string * string)) :
  exists indices,
    parseMarketIndices matches = Some indices
    /\ map (fun ix => (MarketIndex.Code ix, MarketIndex.Name ix)) indices
       = map (fun m => (fst m, nth 0 (strings_Split_comma (snd m)) EmptyString))
             (List.filter (keptRecord 6) matches).
Proof.
  induction matches as [| [code text] rest (indices & E & Hs)].
  - exists []. split; reflexivity.
  - cbn [parseMarketIndices List.filter]. rewrite keptRecord_cases.
    destruct (String.eqb text EmptyString);
      [exists indices; split; assumption |].
    destruct (Nat.ltb_spec (length (strings_Split_comma text)) 6)
      as [Hlt | Hge]; cbn [negb];
      [exists indices; split; assumption |].
    rewrite (lookup_nth_lt _ 1 EmptyString) by lia.
    rewrite (lookup_nth_lt _ 2 EmptyString) by lia.
    rewrite (lookup_nth_lt _ 3 EmptyString) by lia.
    rewrite (lookup_nth_lt _ 4 EmptyString) by lia.
    rewrite (lookup_nth_lt _ 5 EmptyString) by lia.
    rewrite (lookup_nth_lt _ 0 EmptyString) by lia.
    rewrite E. cbn [mbind option_bind].
    eexists. split; [reflexivity |]. cbn [map fst snd]. now rewrite Hs.
Qed.

End BatchFacts.

(** A batch of three records: a good one, an empty one, a short one. *)
Example quote_batch_run :
  option_map (map (fun s => Stock.Symbol (swob_Stock s)))
    (@parseSinaStockDataWithOrderBook decimalStrconv
       [("sh600000", sample_record); ("sz000001", EmptyString);
        ("sh600519", "short,1.00,2.00")])
  = Some ["sh600000"].
Proof. vm_compute. reflexivity. Qed.

(* ------------------------------------------------------------------ *)
(** ** Cumulative sizes of a side                                      *)
(* ------------------------------------------------------------------ *)

Lemma wrap64_id (z : Z) : in_int64 z -> wrap64 z = z.
Proof.
  unfold in_int64, int64_min, int64_max, wrap64. intros Hz.
  rewrite Z.mod_small; lia.
Qed.

Lemma fillTotals_running (maxSize total : Z) (items : list OrderBookItem.t) :
  Forall in_int64 (runningTotals total (map OrderBookItem.Size items)) ->
  map OrderBookItem.Total (fillTotals maxSize total items)
  = runningTotals total (map OrderBookItem.Size items).
Proof.
  revert total. induction items as [| it rest IH]; intros total Hr;
    [reflexivity |].
  cbn [fillTotals map runningTotals] in *.
  apply Forall_cons in Hr as [Hin Hrest].
  rewrite wrap64_id by assumption. f_equal. now apply IH.
Qed.

Lemma fillTotals_percent_kept (maxSize total : Z)
    (items : list OrderBookItem.t) :
  maxSize <= 0 ->
  map OrderBookItem.Percent (fillTotals maxSize total items)
  = map OrderBookItem.Percent items.
Proof.
  intros Hmax. revert total.
  induction items as [| it rest IH]; intros total; [reflexivity |].
  cbn [fillTotals map].
  destruct (Z.ltb_spec 0 maxSize); [lia |]. now rewrite IH.
Qed.

Lemma maxSizeOf_from (m : Z) (items : list OrderBookItem.t) :
  m <= fold_left (fun m it => if m <? OrderBookItem.Size it
                              then OrderBookItem.Size it else m) items m
  /\ Forall (fun it => OrderBookItem.Size it
                       <= fold_left (fun m it =>
                                       if m <? OrderBookItem.Size it
                                       then OrderBookItem.Size it else m)
                                    items m) items.
Proof.
  revert m. induction items as [| it rest IH]; intros m; cbn [fold_left].
  - split; [lia | constructor].
  - destruct (Z.ltb_spec m (OrderBookItem.Size it)) as [Hlt | Hge].
    + destruct (IH (OrderBookItem.Size it)) as [H1 H2].
      split; [lia |]. constructor; [exact H1 | exact H2].
    + destruct (IH m) as [H1 H2].
      split; [exact H1 |]. constructor; [lia | exact H2].
Qed.

(** X6. calculateOrderBookTotals keeps the number of levels, their
    prices and their sizes; as long as the running sums of the sizes
    stay within int64, the total of each level is the sum of the sizes
    up to and including it; no size exceeds the largest size the shares
    are taken against (which is never negative), and when that largest
    size is 0 the shares are left as they were. *)
Theorem order_book_totals_are_cumulative (items : list OrderBookItem.t) :
  Forall in_int64 (runningTotals 0 (map OrderBookItem.Size items)) ->
  length (calculateOrderBookTotals items) = length items
  /\ map level_of (calculateOrderBookTotals items) = map level_of items
  /\ map OrderBookItem.Total (calculateOrderBookTotals items)
     = runningTotals 0 (map OrderBookItem.Size items)
  /\ 0 <= maxSizeOf items
  /\ Forall (fun it => OrderBookItem.Size it <= maxSizeOf items) items
  /\ (maxSizeOf items = 0 ->
      map OrderBookItem.Percent (calculateOrderBookTotals items)
      = map OrderBookItem.Percent items).
Proof.
  intros Hr.
  assert (Hlev := calculateOrderBookTotals_levels items).
  split; [| split; [exact Hlev | split]].
  - apply (f_equal (@length _)) in Hlev. now rewrite !length_map in Hlev.
  - destruct items as [| it rest]; [reflexivity |].
    unfold calculateOrderBookTotals. now apply fillTotals_running.
  - split; [apply maxSizeOf_from |]. split; [apply maxSizeOf_from |].
    intros Hzero. destruct items as [| it rest]; [reflexivity |].
    unfold calculateOrderBookTotals. apply fillTotals_percent_kept. lia.
Qed.

Lemma order_book_totals_are_cumulative_witness :
  map OrderBookItem.Total
    (calculateOrderBookTotals [lvl 10.04 200; lvl 10.03 300; lvl 10.02 400])
  = [200; 500; 900].
Proof.
  destruct (order_book_totals_are_cumulative
              [lvl 10.04 200; lvl 10.03 300; lvl 10.02 400])
    as (_ & _ & Htot & _).
  - repeat constructor; unfold in_int64, int64_min, int64_max; cbn; lia.
  - rewrite Htot. reflexivity.
Defined.

(* ------------------------------------------------------------------ *)
(** ** Holiday tables                                                  *)
(* ------------------------------------------------------------------ *)

Lemma holiday_fold_lookup (days : list holidayDay) (m : gmap string bool)
    (d : string) :
  fold_left (fun data day => <[hday_Date day := hday_IsOffDay day]> data)
            days m !! d
  = match List.find (dated d) (rev days) with
    | Some day => Some (hday_IsOffDay day)
    | None => m !! d
    end.
Proof.
  induction days as [| x l IH] using rev_ind; [reflexivity |].
  rewrite fold_left_app, rev_app_distr. cbn [fold_left rev app List.find].
  unfold dated at 1. destruct (String.eqb_spec (hday_Date x) d) as [<- | Hne].
  - apply lookup_insert_eq.
  - rewrite lookup_insert_ne by assumption. apply IH.
Qed.

(** X7. In the table parseHolidayData builds, a date is looked up to the
    off-day flag of the LAST entry of the document with that date (a
    date with no entry is absent), while getHolidayNote answers with the
    name of the FIRST such entry of the year's file. *)
Theorem holiday_table_last_entry_wins (hd : holidayData) (d : string) :
  parseHolidayData hd !! d
  = option_map hday_IsOffDay (List.find (dated d) (rev (hd_Days hd)))
  /\ forall (w : World) (year : Z),
      holidayFiles w !! year = Some (Parsed hd) ->
      getHolidayNote year d w
      = Some (match List.find (dated d) (hd_Days hd) with
              | Some day => hday_Name day
              | None => EmptyString
              end, w).
Proof.
  split.
  - unfold parseHolidayData. rewrite holiday_fold_lookup.
    destruct (List.find (dated d) (rev (hd_Days hd))); [reflexivity |].
    apply lookup_empty.
  - intros w year Hfile. unfold getHolidayNote, bind, get. rewrite Hfile.
    fold (dated d). destruct (List.find (dated d) (hd_Days hd)); reflexivity.
Qed.

Lemma holiday_table_last_entry_wins_witness :
  parseHolidayData doubled_document !! "2024-02-09" = Some true
  /\ result_of
       (getHolidayNote 2024 "2024-02-09"
          (set_holidayFiles <[2024 := Parsed doubled_document]>
             (world_at tuesday_0915 ∅)))
     = Some "first".
Proof.
  destruct (holiday_table_last_entry_wins doubled_document "2024-02-09")
    as [Hflag Hnote].
  split.
  - rewrite Hflag. reflexivity.
  - rewrite (Hnote _ 2024); [reflexivity |]. apply lookup_insert_eq.
Defined.

(* ------------------------------------------------------------------ *)
(** ** Trading days                                                    *)
(* ------------------------------------------------------------------ *)

Lemma isTradeDay_weekday (date : Time) (w : World) :
  weekday_of date ->
  isTradeDay date w
  = bind (getHolidayStatus date)
      (fun st => let '(isOffDay, inList, note) := st in
                 if inList && isOffDay then ret (false, note)
                 else ret (true, EmptyString)) w.
Proof.
  intros [Hsat Hsun]. unfold isTradeDay.
  apply Z.eqb_neq in Hsat, Hsun. now rewrite Hsat, Hsun.
Qed.

(** X8. With the year's table in memory, the trading-day answer for a
    date that is not on a weekend is read off the table alone: the date
    is a non-trading day exactly when the table lists it as an off day
    (a listed make-up workday and an unlisted date are trading days);
    nothing is sent upstream and the world is left as it was. *)
Theorem trading_day_from_memory (date : Time) (w : World)
    (data : gmap string bool) :
  weekday_of date ->
  holidayCacheData w !! Time_Year date = Some data ->
  exists name,
    isTradeDay date w
    = Some ((negb (bool_decide (data !! Time_FormatDate date = Some true)),
             name), w)
    /\ (data !! Time_FormatDate date <> Some true -> name = EmptyString).
Proof.
  intros Hwd Hmem. rewrite isTradeDay_weekday by assumption.
  unfold getHolidayStatus, loadHolidayData, bind, get. rewrite Hmem.
  unfold ret.
  destruct (data !! Time_FormatDate date) as [[|] |] eqn:E.
  - unfold getHolidayNote, bind, get.
    destruct (holidayFiles w !! Time_Year date) as [[| hd] |];
      try (eexists; split; [reflexivity | congruence]).
    destruct (List.find _ (hd_Days hd));
      eexists; (split; [reflexivity | congruence]).
  - unfold getHolidayNote, bind, get.
    destruct (holidayFiles w !! Time_Year date) as [[| hd] |];
      try (exists EmptyString; split; reflexivity).
    destruct (List.find _ (hd_Days hd));
      exists EmptyString; (split; reflexivity).
  - exists EmptyString. split; reflexivity.
Qed.

Lemma trading_day_from_memory_witness :
  result_of (isTradeDay tuesday_0915_time
               (world_at tuesday_0915 table_with_workday))
  = Some (true, EmptyString).
Proof.
  destruct (trading_day_from_memory tuesday_0915_time
              (world_at tuesday_0915 table_with_workday)
              {[ "2024-01-01" := true; "2024-01-02" := false ]})
    as (name & Hday & Hname).
  - split; vm_compute; intros E; discriminate E.
  - reflexivity.
  - rewrite Hday. cbn [result_of option_map fst].
    rewrite Hname; [reflexivity |]. vm_compute. intros E. discriminate E.
Defined.

(** X9. loadHolidayData keeps what it learns: when it returns a table,
    that table is in memory afterwards, so that loading the year again
    returns the same table and changes nothing (no request, no write);
    when it returns an error, memory and disk are as before and exactly
    one request went out. *)
Theorem holiday_year_is_loaded_once (year : Z) (w : World) :
  exists r w',
    loadHolidayData year w = Some (r, w')
    /\ match r with
       | Ok data =>
           holidayCacheData w' !! year = Some data
           /\ loadHolidayData year w' = Some (Ok data, w')
       | Err _ =>
           holidayCacheData w' = holidayCacheData w
           /\ holidayFiles w' = holidayFiles w
           /\ requests w' = requests w ++ [ReqHoliday year]
       end.
Proof.
  assert (Hhit : forall data w0, holidayCacheData w0 !! year = Some data ->
                                 loadHolidayData year w0 = Some (Ok data, w0)).
  { intros data w0 E. unfold loadHolidayData, bind, get. now rewrite E. }
  destruct (holidayCacheData w !! year) as [data |] eqn:Hmem.
  - exists (Ok data), w. repeat split; auto.
  - unfold loadHolidayData at 1. unfold bind, get. rewrite Hmem.
    assert (Hfetch : exists r w',
               fetchHolidayData year w = Some (r, w')
               /\ match r with
                  | Ok data =>
                      holidayCacheData w' !! year = Some data
                      /\ loadHolidayData year w' = Some (Ok data, w')
                  | Err _ =>
                      holidayCacheData w' = holidayCacheData w
                      /\ holidayFiles w' = holidayFiles w
                      /\ requests w' = requests w ++ [ReqHoliday year]
                  end).
    { unfold fetchHolidayData, bind, send, get.
      cbn [net_holiday set_requests].
      destruct (net_holiday w (length (requests w)) year) as [[| hd] | e].
      - eexists _, _. split; [reflexivity |]. repeat split.
      - unfold modify, log, ret. eexists _, _. split; [reflexivity |].
        split; [| apply Hhit];
          cbn [holidayCacheData set_logs set_holidayCacheData];
          apply lookup_insert_eq.
      - eexists _, _. split; [reflexivity |]. repeat split. }
    destruct (holidayFiles w !! year) as [[| hd] |] eqn:Hfile;
      try exact Hfetch.
    unfold modify, ret. eexists _, _. split; [reflexivity |].
    split; [| apply Hhit];
      cbn [holidayCacheData set_holidayCacheData]; apply lookup_insert_eq.
Qed.

(** X10. A successful remote fetch fills both tiers: when the year is
    neither in memory nor readable from disk and the CDN answers with a
    document, loadHolidayData returns the table of that document, keeps
    it in memory, and writes the document to the year's file (when the
    cache directory can be written; otherwise only memory has it). *)
Theorem holiday_fetch_fills_both_tiers (year : Z) (w : World)
    (hd : holidayData) :
  holidayCacheData w !! year = None ->
  (holidayFiles w !! year = None \/ holidayFiles w !! year = Some Garbled) ->
  net_holiday w (length (requests w)) year = Ok (Parsed hd) ->
  exists w',
    loadHolidayData year w = Some (Ok (parseHolidayData hd), w')
    /\ holidayCacheData w' = <[year := parseHolidayData hd]> (holidayCacheData w)
    /\ holidayFiles w'
       = (if fs_writable w then <[year := Parsed hd]> (holidayFiles w)
          else holidayFiles w)
    /\ requests w' = requests w ++ [ReqHoliday year]
    /\ logs w' = logs w ++ [InfoHolidayLoaded year (length (hd_Days hd))].
Proof.
  intros Hmem Hfile Hnet.
  assert (Hfetch : exists w',
             fetchHolidayData year w = Some (Ok (parseHolidayData hd), w')
             /\ holidayCacheData w'
                = <[year := parseHolidayData hd]> (holidayCacheData w)
             /\ holidayFiles w'
                = (if fs_writable w then <[year := Parsed hd]> (holidayFiles w)
                   else holidayFiles w)
             /\ requests w' = requests w ++ [ReqHoliday year]
             /\ logs w' = logs w
                          ++ [InfoHolidayLoaded year (length (hd_Days hd))]).
  { unfold fetchHolidayData, bind, send, get.
    cbn [net_holiday set_requests]. rewrite Hnet.
    unfold modify, log, ret. eexists. split; [reflexivity |].
    cbn [fs_writable set_requests].
    destruct (fs_writable w); repeat split. }
  unfold loadHolidayData, bind, get. rewrite Hmem.
  destruct Hfile as [-> | ->]; exact Hfetch.
Qed.

Lemma holiday_fetch_fills_both_tiers_witness :
  exists w',
    loadHolidayData 2024 (online_world tuesday_0915)
    = Some (Ok (parseHolidayData new_year_document), w')
    /\ holidayFiles w' !! 2024 = Some (Parsed new_year_document)
    /\ holidayCacheData w' !! 2024 = Some (parseHolidayData new_year_document).
Proof.
  destruct (holiday_fetch_fills_both_tiers 2024 (online_world tuesday_0915)
              new_year_document)
    as (w' & Hload & Hmem & Hfile & _).
  - reflexivity.
  - left. reflexivity.
  - reflexivity.
  - exists w'. split; [exact Hload |]. rewrite Hmem, Hfile.
    split; apply lookup_insert_eq.
Defined.

(* ------------------------------------------------------------------ *)
(** ** What the calendar leaves alone                                  *)
(* ------------------------------------------------------------------ *)

Lemma keeps_ret {A B} (view : World -> B) (a : A) : keeps view (ret a).
Proof. intros w a' w' [= _ <-]. reflexivity. Qed.

Lemma keeps_bind {A B C} (view : World -> C) (m : M A) (k : A -> M B) :
  keeps view m -> (forall a, keeps view (k a)) -> keeps view (bind m k).
Proof.
  intros Hm Hk w b w' E. unfold bind in E.
  destruct (m w) as [[a w1] |] eqn:E1; [| discriminate E].
  rewrite (Hk a w1 b w' E). exact (Hm w a w1 E1).
Qed.

Lemma keeps_get {A B} (view : World -> B) (f : World -> A) :
  keeps view (get f).
Proof. intros w a w' [= _ <-]. reflexivity. Qed.

Lemma keeps_panic {A B} (view : World -> B) : keeps view (@panic A).
Proof. intros w a w' E. discriminate E. Qed.

Section CalendarFrame.
Context {B : Type} (view : World -> B) (Hview : beside_calendar view).

Lemma keeps_time_Now : keeps view time_Now.
Proof. intros w a w' [= _ <-]. apply Hview. Qed.

Lemma keeps_log (l : LogEntry) : keeps view (log l).
Proof. intros w a w' [= _ <-]. apply Hview. Qed.

Lemma keeps_send (r : Request) : keeps view (send r).
Proof. intros w a w' [= _ <-]. apply Hview. Qed.

Lemma keeps_fetchHolidayData (year : Z) : keeps view (fetchHolidayData year).
Proof.
  unfold fetchHolidayData.
  apply keeps_bind; [apply keeps_send | intros n].
  apply keeps_bind; [apply keeps_get | intros [[| hd] | e]];
    try apply keeps_ret.
  apply keeps_bind.
  { intros w a w' [= _ <-]. destruct (fs_writable w); [apply Hview | easy]. }
  intros _. apply keeps_bind.
  { intros w a w' [= _ <-]. apply Hview. }
  intros _. apply keeps_bind; [apply keeps_log | intros; apply keeps_ret].
Qed.

Lemma keeps_loadHolidayData (year : Z) : keeps view (loadHolidayData year).
Proof.
  unfold loadHolidayData.
  apply keeps_bind; [apply keeps_get | intros [data |]];
    [apply keeps_ret |].
  apply keeps_bind; [apply keeps_get | intros [[| hd] |]];
    try apply keeps_fetchHolidayData.
  apply keeps_bind; [| intros; apply keeps_ret].
  intros w a w' [= _ <-]. apply Hview.
Qed.

Lemma keeps_getHolidayNote (year : Z) (d : string) :
  keeps view (getHolidayNote year d).
Proof.
  unfold getHolidayNote.
  apply keeps_bind; [apply keeps_get | intros [[| hd] |]];
    try apply keeps_ret.
  destruct (List.find _ (hd_Days hd)); apply keeps_ret.
Qed.

Lemma keeps_isTradeDay (date : Time) : keeps view (isTradeDay date).
Proof.
  unfold isTradeDay.
  destruct ((Time_Weekday date =? Saturday) || (Time_Weekday date =? Sunday));
    [apply keeps_ret |].
  apply keeps_bind.
  - unfold getHolidayStatus.
    apply keeps_bind; [apply keeps_loadHolidayData | intros [data | e]].
    + destruct (data !! Time_FormatDate date); [| apply keeps_ret].
      apply keeps_bind; [apply keeps_getHolidayNote | intros; apply keeps_ret].
    + apply keeps_bind; [apply keeps_log | intros; apply keeps_ret].
  - intros [[o i] n]. destruct (i && o); apply keeps_ret.
Qed.

Lemma keeps_preloadYears (years : list Z) : keeps view (preloadYears years).
Proof.
  induction years as [| y rest IH]; cbn [preloadYears]; [apply keeps_ret |].
  apply keeps_bind; [apply keeps_loadHolidayData | intros r].
  apply keeps_bind; [| intros _; exact IH].
  destruct r; [apply keeps_ret | apply keeps_log].
Qed.

Lemma keeps_collectTradeDates (today : Time) (offsets : list Z)
    (acc : list string) :
  keeps view (collectTradeDates today offsets acc).
Proof.
  revert acc. induction offsets as [| i rest IH]; intros acc;
    cbn [collectTradeDates]; [apply keeps_ret |].
  apply keeps_bind; [| intros ok; apply IH].
  unfold isTradeDate.
  apply keeps_bind; [apply keeps_isTradeDay | intros; apply keeps_ret].
Qed.

Lemma keeps_fetchTradeDates (days : Z) : keeps view (fetchTradeDates days).
Proof.
  unfold fetchTradeDates.
  apply keeps_bind; [apply keeps_time_Now | intros today].
  apply keeps_bind; [apply keeps_preloadYears | intros _].
  apply keeps_bind; [apply keeps_collectTradeDates | intros dates].
  apply keeps_bind; [apply keeps_log | intros; apply keeps_ret].
Qed.

Lemma keeps_GetMarketStatus : keeps view GetMarketStatus.
Proof.
  unfold GetMarketStatus.
  apply keeps_bind; [apply keeps_time_Now | intros now0].
  apply keeps_bind; [apply keeps_isTradeDay | intros [td name]].
  repeat match goal with
         | |- keeps _ (if ?b then _ else _) => destruct b
         end; apply keeps_ret.
Qed.

End CalendarFrame.

Lemma fs_writable_beside_calendar : beside_calendar fs_writable.
Proof. repeat split. Qed.

Lemma tradeDatesFile_beside_calendar : beside_calendar tradeDatesFile.
Proof. repeat split. Qed.

Lemma caches_beside_calendar :
  beside_calendar (fun w => (ms_cache w, ms_klineCache w)).
Proof. repeat split. Qed.

(* ------------------------------------------------------------------ *)
(** ** The window of trading dates                                     *)
(* ------------------------------------------------------------------ *)

Lemma isTradeDate_true_weekday (date : Time) (w w' : World) :
  isTradeDate date w = Some (true, w') -> weekday_of date.
Proof.
  unfold isTradeDate, isTradeDay, weekday_of.
  destruct (Z.eqb_spec (Time_Weekday date) Saturday) as [Hs | Hs];
    destruct (Z.eqb_spec (Time_Weekday date) Sunday) as [Hu | Hu];
    cbn [orb]; try (intros E; cbv [bind ret] in E; cbn in E; discriminate E).
  intros _. split; assumption.
Qed.

Lemma collectTradeDates_kept (today : Time) (offsets : list Z)
    (acc : list string) (w : World) (dates : list string) (w' : World) :
  collectTradeDates today offsets acc w = Some (dates, w') ->
  exists kept,
    kept `sublist_of` offsets
    /\ dates = acc ++ map (fun i => Time_FormatDate (dayBefore today i)) kept
    /\ Forall (fun i => weekday_of (dayBefore today i)) kept.
Proof.
  revert acc w. induction offsets as [| i rest IH]; intros acc w E;
    cbn [collectTradeDates] in E.
  - injection E as <- <-. exists []. rewrite app_nil_r. repeat constructor.
  - unfold bind in E.
    destruct (isTradeDate (Time_AddDays today (- i)) w) as [[ok w1] |] eqn:E1;
      [| discriminate E].
    destruct (IH _ _ E) as (kept & Hsub & Hdates & Hwd).
    destruct ok.
    + exists (i :: kept). split; [now apply sublist_skip |]. split.
      * rewrite Hdates, <- app_assoc. reflexivity.
      * constructor; [| exact Hwd].
        exact (isTradeDate_true_weekday _ _ _ E1).
    + exists kept. split; [now apply sublist_cons |]. split; assumption.
Qed.

(** X11. fetchTradeDates always succeeds, and what it returns is, newest
    first, the dates of a selection of the [days] days ending today
    (the host's date), none of them a Saturday or a Sunday; so it has at
    most [days] entries. *)
Theorem trade_dates_are_weekdays_newest_first (days : Z) (w : World) :
  let today := {| unixNano := clock w (clock_reads w);
                  zoneOffset := hostZone w |} in
  exists dates w' kept,
    fetchTradeDates days w = Some (Ok dates, w')
    /\ kept `sublist_of` upto days
    /\ dates = map (fun i => Time_FormatDate (dayBefore today i)) kept
    /\ Forall (fun i => weekday_of (dayBefore today i)) kept
    /\ (length dates <= Z.to_nat days)%nat.
Proof.
  intros today.
  destruct (fetchTradeDates_never_fails days w) as (dates & w' & E).
  exists dates, w'.
  pose proof E as E0.
  unfold fetchTradeDates, bind, time_Now in E0. fold today in E0.
  destruct (preloadYears _ _) as [[[] w1] |]; [| discriminate E0].
  destruct (collectTradeDates today (upto days) [] w1) as [[ds w2] |] eqn:Ec;
    [| discriminate E0].
  cbv [log ret] in E0. injection E0 as <- _.
  destruct (collectTradeDates_kept _ _ _ _ _ _ Ec) as (kept & Hsub & Hd & Hwd).
  exists kept. repeat split; try assumption.
  rewrite Hd. cbn [app]. rewrite length_map.
  apply sublist_length in Hsub. unfold upto in Hsub.
  now rewrite length_map, length_seq in Hsub.
Qed.

Lemma filterTradeDates_take (dates : list string) (days : Z) (w : World) :
  0 <= days ->
  filterTradeDates dates days w = Some (take (Z.to_nat days) dates, w).
Proof.
  intros Hd. unfold filterTradeDates.
  destruct (Z.leb_spec (Z.of_nat (length dates)) days) as [Hle | Hgt].
  - rewrite take_ge by lia. reflexivity.
  - destruct (Z.ltb_spec days 0); [lia | reflexivity].
Qed.

Section TradeDateFacts.
Context `{Strconv}.

Lemma refresh_writes_back (cached : option tradeDatesCache) (days : Z)
    (w : World) :
  0 <= days ->
  exists full fetched w',
    fetchTradeDates 90 (set_logs (logs w ++ [InfoFetchTradeDates]) w)
    = Some (Ok full, fetched)
    /\ refreshTradeDates cached days w
       = Some (Ok (take (Z.to_nat days) full), w')
    /\ tradeDatesFile w'
       = (if fs_writable w
          then Some (Parsed {| TradeDates := full;
                               UpdatedAt := reading fetched 0 |})
          else tradeDatesFile w).
Proof.
  intros Hd. rewrite refresh_ignores_stale_window.
  unfold refreshTradeDates, bind. unfold log at 1.
  set (w0 := set_logs _ w).
  destruct (fetchTradeDates_never_fails 90 w0) as (full & w1 & E).
  rewrite E. exists full, w1.
  assert (Hw : fs_writable w1 = fs_writable w).
  { apply (keeps_fetchTradeDates _ fs_writable_beside_calendar 90 _ _ _ E). }
  assert (Hf : tradeDatesFile w1 = tradeDatesFile w).
  { apply (keeps_fetchTradeDates _ tradeDatesFile_beside_calendar 90 _ _ _ E). }
  unfold saveTradeDatesCache, bind, time_Now, get.
  cbn [fs_writable set_clock_reads]. rewrite Hw.
  destruct (fs_writable w).
  - unfold modify, ret. rewrite filterTradeDates_take by assumption.
    eexists. split; [reflexivity |]. split; [reflexivity |].
    cbn [tradeDatesFile set_tradeDatesFile]. unfold reading.
    now rewrite Nat.add_0_r.
  - unfold ret, log. rewrite filterTradeDates_take by assumption.
    eexists. split; [reflexivity |]. split; [reflexivity |].
    cbn [tradeDatesFile set_logs set_clock_reads]. exact Hf.
Qed.

(** X12. For a non-negative number of days GetTradeDates never panics
    and never returns an error, whatever is on disk and whatever the
    upstream answers; the list it returns has at most [days] dates. *)
Theorem trade_date_listing_is_bounded (days : Z) (w : World) :
  0 <= days ->
  exists dates w',
    GetTradeDates days w = Some (Ok dates, w')
    /\ Z.of_nat (length dates) <= days.
Proof.
  intros Hd.
  assert (Hlen : forall l : list string,
             Z.of_nat (length (take (Z.to_nat days) l)) <= days).
  { intros l. rewrite length_take. lia. }
  assert (Hrefresh : forall cached w0, exists dates w',
             refreshTradeDates cached days w0 = Some (Ok dates, w')
             /\ Z.of_nat (length dates) <= days).
  { intros cached w0.
    destruct (refresh_writes_back cached days w0 Hd)
      as (full & fetched & w' & _ & E & _).
    eexists _, _. split; [exact E | apply Hlen]. }
  unfold GetTradeDates, loadTradeDatesCache, bind, get.
  destruct (tradeDatesFile w) as [[| c] |]; cbn [ret]; try apply Hrefresh.
  unfold ret at 1.
  destruct (0 <? length (TradeDates c))%nat; [| apply Hrefresh].
  unfold time_Since, bind, time_Now, ret.
  destruct (_ <? 24 * hour_ns); [| apply Hrefresh].
  unfold log. rewrite filterTradeDates_take by assumption.
  eexists _, _. split; [reflexivity | apply Hlen].
Qed.

(** X13. A window on disk that is non-empty and less than 24 hours old
    is the answer: GetTradeDates returns its first [days] dates, reads
    the clock once, sends nothing upstream and leaves the holiday
    tables and the window file as they were. *)
Theorem fresh_window_is_served (days : Z) (w : World) (c : tradeDatesCache) :
  0 <= days ->
  tradeDatesFile w = Some (Parsed c) ->
  TradeDates c <> [] ->
  age w (UpdatedAt c) < 24 * hour_ns ->
  exists w',
    GetTradeDates days w
    = Some (Ok (take (Z.to_nat days) (TradeDates c)), w')
    /\ requests w' = requests w
    /\ tradeDatesFile w' = tradeDatesFile w
    /\ holidayCacheData w' = holidayCacheData w
    /\ clock_reads w' = S (clock_reads w).
Proof.
  intros Hd Hfile Hne Hage.
  unfold GetTradeDates, loadTradeDatesCache, bind, get. rewrite Hfile.
  unfold ret at 1.
  destruct (TradeDates c) as [| d ds] eqn:Hc; [congruence |].
  cbn [length Nat.ltb Nat.leb].
  unfold time_Since, bind, time_Now, ret.
  unfold age, reading in Hage. rewrite Nat.add_0_r in Hage.
  apply Z.ltb_lt in Hage. rewrite Hage.
  unfold log. rewrite filterTradeDates_take by assumption.
  eexists. split; [reflexivity |]. cbn. repeat split; try reflexivity.
  exact Hfile.
Qed.

(** X14. When the window on disk is of no use (missing, unreadable,
    empty or 24 hours old) and the cache directory can be written,
    GetTradeDates computes the window of the last 90 days with
    fetchTradeDates, writes that list over the window on disk, stamped
    with the reading of the clock that follows the computation, and
    returns its first [days] dates. *)
Theorem refreshed_window_is_written_back (days : Z) (w : World) :
  0 <= days ->
  fs_writable w = true ->
  match tradeDatesFile w with
  | Some (Parsed c) =>
      TradeDates c = [] \/ 24 * hour_ns <= age w (UpdatedAt c)
  | _ => True
  end ->
  exists full fetched w',
    fetchTradeDates 90 (refreshStart w) = Some (Ok full, fetched)
    /\ GetTradeDates days w = Some (Ok (take (Z.to_nat days) full), w')
    /\ tradeDatesFile w'
       = Some (Parsed {| TradeDates := full;
                         UpdatedAt := reading fetched 0 |}).
Proof.
  intros Hd Hw Hold.
  assert (Hrefresh : forall cached w0,
             fs_writable w0 = true ->
             exists full fetched w',
               fetchTradeDates 90
                 (set_logs (logs w0 ++ [InfoFetchTradeDates]) w0)
               = Some (Ok full, fetched)
               /\ refreshTradeDates cached days w0
                  = Some (Ok (take (Z.to_nat days) full), w')
               /\ tradeDatesFile w'
                  = Some (Parsed {| TradeDates := full;
                                    UpdatedAt := reading fetched 0 |})).
  { intros cached w0 Hw0.
    destruct (refresh_writes_back cached days w0 Hd)
      as (full & fetched & w' & Ef & E & Hf).
    rewrite Hw0 in Hf. now exists full, fetched, w'. }
  unfold refreshStart, GetTradeDates, loadTradeDatesCache, bind, get.
  destruct (tradeDatesFile w) as [[| c] |]; cbn [ret];
    try (apply Hrefresh; exact Hw).
  unfold ret at 1.
  destruct (TradeDates c) as [| d ds] eqn:Hc;
    [apply Hrefresh; exact Hw |].
  cbn [length Nat.ltb Nat.leb].
  destruct Hold as [Hempty | Hage]; [discriminate Hempty |].
  unfold time_Since, bind, time_Now, ret.
  unfold age, reading in Hage. rewrite Nat.add_0_r in Hage.
  apply Z.ltb_ge in Hage. rewrite Hage.
  apply Hrefresh. exact Hw.
Qed.

End TradeDateFacts.

Lemma trade_date_listing_is_bounded_witness :
  exists dates w',
    GetTradeDates 3 stale_world = Some (Ok dates, w')
    /\ Z.of_nat (length dates) <= 3.
Proof. apply (@trade_date_listing_is_bounded decimalStrconv). lia. Defined.

Lemma fresh_window_is_served_witness :
  exists w',
    GetTradeDates 2 fresh_world = Some (Ok ["2023-12-29"; "2023-12-28"], w')
    /\ requests w' = requests fresh_world
    /\ tradeDatesFile w' = tradeDatesFile fresh_world
    /\ holidayCacheData w' = holidayCacheData fresh_world
    /\ clock_reads w' = S (clock_reads fresh_world).
Proof.
  apply (fresh_window_is_served 2 fresh_world fresh_window).
  - lia.
  - reflexivity.
  - discriminate.
  - vm_compute. reflexivity.
Defined.

Lemma refreshed_window_is_written_back_witness :
  exists full fetched w',
    fetchTradeDates 90 (refreshStart stale_world) = Some (Ok full, fetched)
    /\ GetTradeDates 3 stale_world = Some (Ok (take 3 full), w')
    /\ tradeDatesFile w'
       = Some (Parsed {| TradeDates := full;
                         UpdatedAt := reading fetched 0 |}).
Proof.
  apply (@refreshed_window_is_written_back decimalStrconv 3 stale_world).
  - lia.
  - reflexivity.
  - right. vm_compute. discriminate.
Defined.

(* ------------------------------------------------------------------ *)
(** ** Reads through the caches, and the sweeper                       *)
(* ------------------------------------------------------------------ *)

Section CacheComposition.
Context `{Strconv}.

(** What a candle read leaves when it returns, and when it panics. *)
Lemma fetch_store_kline_out (code period : string) (days : Z) (key : string)
    (w : World) :
  match (klines <~ fetchKLineData code period days ;;
         storeKLine key klines) w with
  | Some (r, w1) =>
      klineCacheTTL w1 = klineCacheTTL w
      /\ requests w1 = requests w ++ [ReqKLine code period days]
      /\ match r with
         | Ok klines =>
             exists t,
               ms_klineCache w1
               = <[key := {| kc_data := klines; kc_timestamp := t |}]>
                   (ms_klineCache w)
         | Err _ => ms_klineCache w1 = ms_klineCache w
         end
  | None => period = "1m"
  end.
Proof.
  rewrite fetch_store_kline.
  destruct (net_kline w (length (requests w)) code period days)
    as [raw | e]; [| now repeat split].
  destruct (minuteMode period raw (sent (ReqKLine code period days) w))
    as [[klines fetched] |] eqn:Em.
  - destruct (minuteMode_world _ _ _ _ _ Em) as [-> | ->];
      (split; [reflexivity |]; split; [reflexivity |]; eexists; reflexivity).
  - destruct (String.eqb_spec period "1m") as [Hp | Hp]; [exact Hp |].
    rewrite minuteMode_other in Em by assumption. discriminate Em.
Qed.

Lemma GetKLineData_out (code period : string) (days : Z) (w : World) :
  let key := klineCacheKey code period days in
  match GetKLineData code period days w with
  | Some (r, w1) =>
      klineCacheTTL w1 = klineCacheTTL w
      /\ match served_kline w key with
         | Some e =>
             r = Ok (kc_data e)
             /\ requests w1 = requests w
             /\ ms_klineCache w1 = ms_klineCache w
         | None =>
             requests w1 = requests w ++ [ReqKLine code period days]
             /\ match r with
                | Ok klines =>
                    exists t,
                      ms_klineCache w1
                      = <[key := {| kc_data := klines; kc_timestamp := t |}]>
                          (ms_klineCache w)
                | Err _ => ms_klineCache w1 = ms_klineCache w
                end
         end
  | None => period = "1m" /\ served_kline w key = None
  end.
Proof.
  intros key. unfold served_kline.
  destruct (ms_klineCache w !! key) as [e |] eqn:He.
  - destruct (Z.ltb_spec (age w (kc_timestamp e)) (klineCacheTTL w))
      as [Hfresh | Hstale].
    + rewrite (kline_cache_fresh w code period days e He Hfresh).
      now repeat split.
    + rewrite (kline_cache_stale w code period days e He Hstale).
      fold key.
      pose proof (fetch_store_kline_out code period days key (tick w)) as Hout.
      destruct ((klines <~ fetchKLineData code period days ;;
                 storeKLine key klines) (tick w)) as [[r w1] |];
        [exact Hout | now split].
  - rewrite (kline_cache_miss w code period days He). fold key.
    pose proof (fetch_store_kline_out code period days key w) as Hout.
    destruct ((klines <~ fetchKLineData code period days ;;
               storeKLine key klines) w) as [[r w1] |];
      [exact Hout | now split].
Qed.

(** A period other than 1m: the read always returns. *)
Lemma GetKLineData_returns (code period : string) (days : Z) (w : World) :
  period <> "1m" ->
  exists r w1,
    GetKLineData code period days w = Some (r, w1)
    /\ (requests w1 = requests w
        \/ requests w1 = requests w ++ [ReqKLine code period days]).
Proof.
  intros Hp.
  pose proof (GetKLineData_out code period days w) as Hout. cbv zeta in Hout.
  destruct (GetKLineData code period days w) as [[r w1] |];
    [| now destruct Hout].
  exists r, w1. split; [reflexivity |]. destruct Hout as [_ Hout].
  destruct (served_kline w (klineCacheKey code period days));
    [left | right]; apply Hout.
Qed.

Lemma fetch_store_stock (codes : list string) (key : string) (w : World) :
  exists r w1,
    (data <~ fetchStockDataWithOrderBook codes ;;
     storeStock key data) w = Some (r, w1)
    /\ cacheTTL w1 = cacheTTL w
    /\ stock_reply w codes r
    /\ requests w1 = requests w ++ [ReqStock codes]
    /\ match r with
       | Ok data =>
           exists t,
             ms_cache w1
             = <[key := {| sc_data := data; sc_timestamp := t |}]>
                 (ms_cache w)
       | Err _ => ms_cache w1 = ms_cache w
       end.
Proof.
  unfold fetchStockDataWithOrderBook, stock_reply,
    bind, time_Now, send, get.
  cbn [requests set_requests set_clock_reads net_stock].
  destruct (net_stock w (length (requests w)) codes) as [matches | e].
  - destruct (parseSinaStockDataWithOrderBook_total matches) as [data E].
    rewrite E. unfold storeStock, bind, time_Now, modify, ret.
    eexists _, _. split; [reflexivity |]. cbn.
    split; [reflexivity |]. split; [now exists data |].
    split; [reflexivity |]. eexists. reflexivity.
  - unfold storeStock, ret. eexists _, _. split; [reflexivity |].
    cbn. repeat split.
Qed.

Lemma GetStockDataWithOrderBook_run (codes : list string) (w : World) :
  codes <> [] ->
  let key := stockCacheKey codes in
  exists r w1,
    GetStockDataWithOrderBook codes w = Some (r, w1)
    /\ cacheTTL w1 = cacheTTL w
    /\ match served_stock w key with
       | Some e =>
           r = Ok (sc_data e)
           /\ requests w1 = requests w
           /\ ms_cache w1 = ms_cache w
       | None =>
           stock_reply w codes r
           /\ requests w1 = requests w ++ [ReqStock codes]
           /\ match r with
              | Ok data =>
                  exists t,
                    ms_cache w1
                    = <[key := {| sc_data := data; sc_timestamp := t |}]>
                        (ms_cache w)
              | Err _ => ms_cache w1 = ms_cache w
              end
       end.
Proof.
  intros Hne key. destruct codes as [| c cs]; [congruence |].
  unfold GetStockDataWithOrderBook, served_stock, age, reading. fold key.
  rewrite Nat.add_0_r. unfold bind at 1 2. unfold get at 1 2.
  destruct (ms_cache w !! key) as [e |];
    [| exact (fetch_store_stock (c :: cs) key w)].
  unfold bind at 1. unfold time_Since, bind at 1, time_Now, ret at 1.
  destruct (_ <? cacheTTL w) eqn:Hage.
  - unfold ret. eexists _, _. split; [reflexivity |].
    cbn. repeat split.
  - exact (fetch_store_stock (c :: cs) key (tick w)).
Qed.

(** X15. What GetKLineData returns is remembered. A successful answer
    is in the cache under the request's key when the call returns, and
    a second call whose clock reading is less than the TTL after that
    entry's timestamp returns the same candles without a request; a
    call that returns an error leaves the cache as it was. The call
    panics only in minute mode (period 1m), and only when it is not
    answered from the cache. *)
Theorem candle_answer_is_remembered (code period : string) (days : Z)
    (w : World) :
  match GetKLineData code period days w with
  | Some (Ok klines, w1) =>
      exists e,
        ms_klineCache w1 !! klineCacheKey code period days = Some e
        /\ kc_data e = klines
        /\ (age w1 (kc_timestamp e) < klineCacheTTL w1 ->
            exists w2,
              GetKLineData code period days w1 = Some (Ok klines, w2)
              /\ requests w2 = requests w1)
  | Some (Err _, w1) => ms_klineCache w1 = ms_klineCache w
  | None =>
      period = "1m"
      /\ served_kline w (klineCacheKey code period days) = None
  end.
Proof.
  pose proof (GetKLineData_out code period days w) as Hout. cbv zeta in Hout.
  destruct (GetKLineData code period days w) as [[r w1] |]; [| exact Hout].
  destruct Hout as [_ Hrun].
  assert (Hentry : match r with
                   | Ok klines =>
                       exists e,
                         ms_klineCache w1 !! klineCacheKey code period days
                         = Some e /\ kc_data e = klines
                   | Err _ => ms_klineCache w1 = ms_klineCache w
                   end).
  { unfold served_kline in Hrun.
    destruct (ms_klineCache w !! klineCacheKey code period days)
      as [e |] eqn:He.
    - destruct (age w (kc_timestamp e) <? klineCacheTTL w).
      + destruct Hrun as (-> & _ & Hc). exists e. now rewrite Hc.
      + destruct Hrun as (_ & Hc). destruct r as [klines | err];
          [| exact Hc].
        destruct Hc as [t ->]. eexists.
        split; [apply lookup_insert_eq | reflexivity].
    - destruct Hrun as (_ & Hc). destruct r as [klines | err];
        [| exact Hc].
      destruct Hc as [t ->]. eexists.
      split; [apply lookup_insert_eq | reflexivity]. }
  destruct r as [klines | err]; [| exact Hentry].
  destruct Hentry as (e & He & Hd). exists e.
  split; [exact He |]. split; [exact Hd |].
  intros Hage. eexists. rewrite <- Hd.
  split; [apply kline_cache_fresh; assumption | reflexivity].
Qed.

(** X16. GetStockDataWithOrderBook on a non-empty list never panics. A
    successful answer is cached under a key that any reordering of the
    list shares: a call with the symbols in another order, made while
    the entry is younger than the TTL, sends no request and gets the
    quotes in the order of the first call. *)
Theorem quotes_are_remembered_in_first_order (codes codes' : list string)
    (w : World) :
  codes <> [] ->
  codes ≡ₚ codes' ->
  exists r w1,
    GetStockDataWithOrderBook codes w = Some (r, w1)
    /\ match r with
       | Ok data =>
           exists e,
             ms_cache w1 !! stockCacheKey codes' = Some e
             /\ sc_data e = data
             /\ (age w1 (sc_timestamp e) < cacheTTL w1 ->
                 exists w2,
                   GetStockDataWithOrderBook codes' w1 = Some (Ok data, w2)
                   /\ requests w2 = requests w1)
       | Err _ => ms_cache w1 = ms_cache w
       end.
Proof.
  intros Hne Hperm.
  assert (Hkey : stockCacheKey codes' = stockCacheKey codes).
  { unfold stockCacheKey. f_equal.
    apply (StronglySorted_unique str_le); try apply sort_Strings_sorted.
    now rewrite !sort_Strings_perm. }
  assert (Hne' : codes' <> []).
  { intros ->. apply Permutation_nil_r in Hperm. contradiction. }
  destruct (GetStockDataWithOrderBook_run codes w Hne)
    as (r & w1 & E & _ & Hrun).
  exists r, w1. split; [exact E |].
  cbv zeta in Hrun. rewrite Hkey.
  assert (Hentry : match r with
                   | Ok data =>
                       exists e,
                         ms_cache w1 !! stockCacheKey codes = Some e
                         /\ sc_data e = data
                   | Err _ => ms_cache w1 = ms_cache w
                   end).
  { unfold served_stock in Hrun.
    destruct (ms_cache w !! stockCacheKey codes) as [e |] eqn:He.
    - destruct (age w (sc_timestamp e) <? cacheTTL w).
      + destruct Hrun as (-> & _ & Hc). exists e. now rewrite Hc.
      + destruct Hrun as (_ & _ & Hc). destruct r as [data | err];
          [| exact Hc].
        destruct Hc as [t ->]. eexists.
        split; [apply lookup_insert_eq | reflexivity].
    - destruct Hrun as (_ & _ & Hc). destruct r as [data | err];
        [| exact Hc].
      destruct Hc as [t ->]. eexists.
      split; [apply lookup_insert_eq | reflexivity]. }
  destruct r as [data | err]; [| exact Hentry].
  destruct Hentry as (e & He & Hd). exists e.
  split; [exact He |]. split; [exact Hd |].
  intros Hage. eexists. rewrite <- Hd.
  split; [apply stock_cache_fresh; [exact Hne' | | exact Hage] | reflexivity].
  now rewrite Hkey.
Qed.

End CacheComposition.

Lemma quotes_are_remembered_in_first_order_witness :
  exists r w1,
    @GetStockDataWithOrderBook decimalStrconv ["sz000001"; "sh600000"]
      quote_world = Some (r, w1)
    /\ match r with
       | Ok data =>
           exists e,
             ms_cache w1 !! stockCacheKey ["sh600000"; "sz000001"] = Some e
             /\ sc_data e = data
             /\ (age w1 (sc_timestamp e) < cacheTTL w1 ->
                 exists w2,
                   @GetStockDataWithOrderBook decimalStrconv
                     ["sh600000"; "sz000001"] w1 = Some (Ok data, w2)
                   /\ requests w2 = requests w1)
       | Err _ => ms_cache w1 = ms_cache quote_world
       end.
Proof.
  apply (@quotes_are_remembered_in_first_order decimalStrconv).
  - discriminate.
  - apply perm_swap.
Defined.

Lemma cleanExpiredCache_run (w : World) :
  cleanExpiredCache w = Some (tt, swept w).
Proof. reflexivity. Qed.

Lemma served_kline_swept (w : World) (key : string) :
  klineCacheTTL w <= sweepAge ->
  clock w (clock_reads w) <= clock w (S (clock_reads w)) ->
  served_kline (swept w) key = served_kline (tick w) key.
Proof.
  intros Httl Hclock. unfold served_kline, swept, tick, age, reading.
  cbn [ms_klineCache set_ms_klineCache set_ms_cache set_clock_reads
       klineCacheTTL clock clock_reads hostZone].
  rewrite Nat.add_0_r.
  destruct (ms_klineCache w !! key) as [e |] eqn:He.
  - destruct (decide (Time_Sub {| unixNano := clock w (clock_reads w);
                                  zoneOffset := hostZone w |}
                        (kc_timestamp e) <= sweepAge)) as [Hkeep | Hdrop].
    + erewrite map_lookup_filter_Some_2; [reflexivity | exact He |].
      exact Hkeep.
    + rewrite (proj2 (map_lookup_filter_None _ _ _)).
      * unfold Time_Sub in *. cbn [unixNano] in *.
        destruct (Z.ltb_spec (clock w (S (clock_reads w))
                              - unixNano (kc_timestamp e))
                             (klineCacheTTL w)); [lia | reflexivity].
      * right. intros e' He'. rewrite He in He'.
        injection He' as <-. exact Hdrop.
  - rewrite (proj2 (map_lookup_filter_None _ _ _)); [reflexivity |].
    now left.
Qed.

Lemma served_stock_swept (w : World) (key : string) :
  cacheTTL w <= sweepAge ->
  clock w (clock_reads w) <= clock w (S (clock_reads w)) ->
  served_stock (swept w) key = served_stock (tick w) key.
Proof.
  intros Httl Hclock. unfold served_stock, swept, tick, age, reading.
  cbn [ms_cache set_ms_klineCache set_ms_cache set_clock_reads
       cacheTTL clock clock_reads hostZone].
  rewrite Nat.add_0_r.
  destruct (ms_cache w !! key) as [e |] eqn:He.
  - destruct (decide (Time_Sub {| unixNano := clock w (clock_reads w);
                                  zoneOffset := hostZone w |}
                        (sc_timestamp e) <= sweepAge)) as [Hkeep | Hdrop].
    + erewrite map_lookup_filter_Some_2; [reflexivity | exact He |].
      exact Hkeep.
    + rewrite (proj2 (map_lookup_filter_None _ _ _)).
      * unfold Time_Sub in *. cbn [unixNano] in *.
        destruct (Z.ltb_spec (clock w (S (clock_reads w))
                              - unixNano (sc_timestamp e))
                             (cacheTTL w)); [lia | reflexivity].
      * right. intros e' He'. rewrite He in He'.
        injection He' as <-. exact Hdrop.
  - rewrite (proj2 (map_lookup_filter_None _ _ _)); [reflexivity |].
    now left.
Qed.

(** What a candle read returns and the requests it leaves, read off the
    world it starts in. *)
Lemma GetKLineData_view (code period : string) (days : Z) (w : World) :
  let key := klineCacheKey code period days in
  let asked := sent (ReqKLine code period days) (fetchStart w key) in
  (result_of (GetKLineData code period days w),
   left_with requests (GetKLineData code period days w))
  = match served_kline w key with
    | Some e => (Some (Ok (kc_data e)), Some (requests w))
    | None =>
        match net_kline w (length (requests w)) code period days with
        | Err e =>
            (Some (Err e), Some (requests w ++ [ReqKLine code period days]))
        | Ok raw =>
            match result_of (minuteMode period raw asked) with
            | Some klines =>
                (Some (Ok klines),
                 Some (requests w ++ [ReqKLine code period days]))
            | None => (None, None)
            end
        end
    end.
Proof.
  intros key asked. unfold served_kline, asked, fetchStart.
  assert (Hfetch : forall w0,
             requests w0 = requests w -> net_kline w0 = net_kline w ->
             (result_of ((klines <~ fetchKLineData code period days ;;
                          storeKLine key klines) w0),
              left_with requests
                ((klines <~ fetchKLineData code period days ;;
                  storeKLine key klines) w0))
             = match net_kline w (length (requests w)) code period days with
               | Err e =>
                   (Some (Err e),
                    Some (requests w ++ [ReqKLine code period days]))
               | Ok raw =>
                   match result_of
                           (minuteMode period raw
                              (sent (ReqKLine code period days) w0)) with
                   | Some klines =>
                       (Some (Ok klines),
                        Some (requests w ++ [ReqKLine code period days]))
                   | None => (None, None)
                   end
               end).
  { intros w0 Hreq Hnet. rewrite fetch_store_kline, Hreq, Hnet.
    destruct (net_kline w (length (requests w)) code period days)
      as [raw | e]; [| cbn; now rewrite Hreq].
    destruct (minuteMode period raw (sent (ReqKLine code period days) w0))
      as [[klines fetched] |] eqn:Em; [| reflexivity].
    cbn. destruct (minuteMode_world _ _ _ _ _ Em) as [-> | ->];
      cbn; now rewrite Hreq. }
  destruct (ms_klineCache w !! key) as [e |] eqn:He.
  - destruct (Z.ltb_spec (age w (kc_timestamp e)) (klineCacheTTL w))
      as [Hfresh | Hstale].
    + now rewrite (kline_cache_fresh w code period days e He Hfresh).
    + rewrite (kline_cache_stale w code period days e He Hstale).
      now apply Hfetch.
  - rewrite (kline_cache_miss w code period days He). now apply Hfetch.
Qed.

Lemma hostDate_same (wa wb : World) :
  clock wa = clock wb -> clock_reads wa = clock_reads wb ->
  hostZone wa = hostZone wb -> hostDate wa = hostDate wb.
Proof. unfold hostDate. now intros -> -> ->. Qed.

(** The minute mode answers by the host's date alone. *)
Lemma minuteMode_by_date (period : string) (raw : list KLineData.t)
    (wa wb : World) :
  (period = "1m" -> hostDate wa = hostDate wb) ->
  result_of (minuteMode period raw wa) = result_of (minuteMode period raw wb).
Proof.
  intros Hdate. destruct (String.eqb_spec period "1m") as [-> | Hp].
  - rewrite !minuteMode_minute, (Hdate eq_refl).
    destruct raw as [| k rest]; [reflexivity |].
    destruct (dayBuckets (hostDate wb) (k :: rest)); reflexivity.
  - now rewrite !minuteMode_other by assumption.
Qed.

(** X17. The sweeper is invisible to readers. When both TTLs are at
    most the sweeper's ten seconds and the clock does not run backwards
    over its next reading, a read made right after a sweep gives the
    same as the same read made after the clock was merely read once:
    the same result (or the same panic) and the same requests, since
    every entry the sweeper deletes would have been refetched anyway.
    For 1-minute candles this needs the host's date to be the same at
    the two readings of the clock that follow the sweep's, as the
    refetch of a deleted entry looks at the date one reading earlier
    than the refetch of a stale one. *)
Theorem sweep_is_invisible_to_readers `{Strconv} (w : World) :
  klineCacheTTL w <= sweepAge ->
  cacheTTL w <= sweepAge ->
  clock w (clock_reads w) <= clock w (S (clock_reads w)) ->
  (forall (code period : string) (days : Z),
      (period = "1m" -> hostDate (tick w) = hostDate (tick (tick w))) ->
      result_of ((cleanExpiredCache ;;; GetKLineData code period days) w)
      = result_of (GetKLineData code period days (tick w))
      /\ left_with requests
           ((cleanExpiredCache ;;; GetKLineData code period days) w)
         = left_with requests (GetKLineData code period days (tick w)))
  /\ (forall codes : list string,
         exists r ws wt,
           (cleanExpiredCache ;;; GetStockDataWithOrderBook codes) w
           = Some (r, ws)
           /\ GetStockDataWithOrderBook codes (tick w) = Some (r, wt)
           /\ requests ws = requests wt).
Proof.
  intros Hk Hs Hclock. split.
  - intros code period days Hdate.
    unfold bind at 1 2. rewrite cleanExpiredCache_run.
    pose proof (GetKLineData_view code period days (swept w)) as Vs.
    pose proof (GetKLineData_view code period days (tick w)) as Vt.
    cbv zeta in Vs, Vt.
    rewrite (served_kline_swept w _ Hk Hclock) in Vs.
    change (net_kline (swept w)) with (net_kline w) in Vs.
    change (requests (swept w)) with (requests w) in Vs.
    change (net_kline (tick w)) with (net_kline w) in Vt.
    change (requests (tick w)) with (requests w) in Vt.
    assert (Hm : forall raw,
               result_of
                 (minuteMode period raw
                    (sent (ReqKLine code period days)
                       (fetchStart (swept w)
                          (klineCacheKey code period days))))
               = result_of
                   (minuteMode period raw
                      (sent (ReqKLine code period days)
                         (fetchStart (tick w)
                            (klineCacheKey code period days))))).
    { intros raw. apply minuteMode_by_date. intros Hp.
      specialize (Hdate Hp). unfold fetchStart.
      destruct (ms_klineCache (swept w) !! klineCacheKey code period days);
        destruct (ms_klineCache (tick w) !! klineCacheKey code period days).
      - now apply hostDate_same.
      - transitivity (hostDate (tick (tick w)));
          [now apply hostDate_same |].
        rewrite <- Hdate. now apply hostDate_same.
      - transitivity (hostDate (tick w)); [now apply hostDate_same |].
        rewrite Hdate. now apply hostDate_same.
      - now apply hostDate_same. }
    enough (E : (result_of (GetKLineData code period days (swept w)),
                 left_with requests (GetKLineData code period days (swept w)))
                = (result_of (GetKLineData code period days (tick w)),
                   left_with requests
                     (GetKLineData code period days (tick w))))
      by (now injection E).
    rewrite Vs, Vt.
    destruct (served_kline (tick w) (klineCacheKey code period days));
      [reflexivity |].
    destruct (net_kline w (length (requests w)) code period days)
      as [raw | e]; [| reflexivity].
    now rewrite (Hm raw).
  - intros [| c cs]; [now eexists _, _, _ |].
    unfold bind at 1. rewrite cleanExpiredCache_run.
    destruct (GetStockDataWithOrderBook_run (c :: cs) (swept w))
      as (r & ws & Es & _ & Hrs); [discriminate |].
    destruct (GetStockDataWithOrderBook_run (c :: cs) (tick w))
      as (r' & wt & Et & _ & Hrt); [discriminate |].
    cbv zeta in Hrs, Hrt.
    rewrite (served_stock_swept w _ Hs Hclock) in Hrs.
    exists r, ws, wt. split; [exact Es |].
    destruct (served_stock (tick w) (stockCacheKey (c :: cs))).
    + destruct Hrs as (-> & -> & _), Hrt as (-> & -> & _).
      split; [exact Et | reflexivity].
    + destruct Hrs as (Hr & -> & _), Hrt as (Hr' & -> & _).
      assert (r' = r) as ->.
      { unfold stock_reply in Hr, Hr'.
        cbn [net_stock requests swept tick set_ms_klineCache set_ms_cache
             set_clock_reads] in Hr, Hr'.
        destruct (net_stock w (length (requests w)) (c :: cs));
          [| congruence].
        destruct Hr as (d & Ed & ->), Hr' as (d' & Ed' & ->). congruence. }
      split; [exact Et | reflexivity].
Qed.

Lemma sweep_is_invisible_to_readers_witness :
  result_of ((cleanExpiredCache ;;; @GetKLineData "600000" "1m" 5)
               (candle_world (tuesday_0915 + 11)))
  = result_of (@GetKLineData "600000" "1m" 5
                 (tick (candle_world (tuesday_0915 + 11))))
  /\ left_with requests
       ((cleanExpiredCache ;;; @GetKLineData "600000" "1m" 5)
          (candle_world (tuesday_0915 + 11)))
     = left_with requests
         (@GetKLineData "600000" "1m" 5
            (tick (candle_world (tuesday_0915 + 11)))).
Proof.
  apply (@sweep_is_invisible_to_readers decimalStrconv
           (candle_world (tuesday_0915 + 11))).
  - vm_compute. intros E. discriminate E.
  - vm_compute. intros E. discriminate E.
  - vm_compute. intros E. discriminate E.
  - intros _. vm_compute. reflexivity.
Defined.

(* ------------------------------------------------------------------ *)
(** ** Start and Stop                                                  *)
(* ------------------------------------------------------------------ *)

Lemma EventsOff_all (ls : list string) :
  Forall (fun l => In l startListeners) ls ->
  EventsOff EventKLineSubscribe
    (EventsOff EventOrderBookSubscribe
       (EventsOff EventMarketSubscribe ls)) = [].
Proof.
  induction 1 as [| l ls Hl _ IH]; [reflexivity |].
  destruct Hl as [<- | [<- | [<- | []]]]; cbn; exact IH.
Qed.

Lemma runControl_spec (calls : list ControlCall) (c : Control) :
  stopChanClosed c = stopped c ->
  Forall (fun l => In l startListeners) (listeners c) ->
  (stopped c = true -> listeners c = []) ->
  exists c',
    runControl calls c = Some c'
    /\ stopChanClosed c' = stopped c'
    /\ stopped c' = stopped c || existsb is_stop calls
    /\ loops c'
       = (if stopped c then loops c
          else (loops c + startsBeforeStop calls)%nat)
    /\ listeners c'
       = (if stopped c' then []
          else listeners c
               ++ concat (repeat startListeners (startsBeforeStop calls))).
Proof.
  revert c. induction calls as [| call rest IH]; intros c Hchan Hnames Hoff.
  - exists c. cbn. rewrite orb_false_r, app_nil_r, Nat.add_0_r.
    repeat split; try assumption.
    + now destruct (stopped c).
    + destruct (stopped c) eqn:Hs; [now apply Hoff | reflexivity].
  - destruct call; cbn [runControl].
    + unfold Start. destruct (stopped c) eqn:Hs.
      * assert (Hchan' : stopChanClosed c = stopped c) by congruence.
        assert (Hoff' : stopped c = true -> listeners c = [])
          by (intros _; now apply Hoff).
        destruct (IH c Hchan' Hnames Hoff') as (c' & E & H1 & H2 & H3 & H4).
        rewrite Hs in H2, H3. cbn [orb] in H2. rewrite H2 in H4.
        exists c'. split; [exact E |]. split; [exact H1 |].
        rewrite H2. cbn [orb]. repeat split; assumption.
      * match goal with |- context [runControl rest ?c1] =>
          destruct (IH c1) as (c' & E & H1 & H2 & H3 & H4) end.
        -- cbn. exact Hchan.
        -- cbn [listeners]. apply Forall_app. split; [exact Hnames |].
           repeat constructor; cbn; tauto.
        -- cbn. discriminate.
        -- cbn [stopped loops listeners] in H2, H3, H4.
           exists c'. split; [exact E |]. split; [exact H1 |].
           cbn [existsb is_stop startsBeforeStop orb].
           split; [exact H2 |]. split; [lia |].
           rewrite H4. destruct (stopped c'); [reflexivity |].
           cbn [repeat concat]. now rewrite <- app_assoc.
    + unfold Stop. destruct (stopped c) eqn:Hs.
      * cbn [mbind option_bind].
        assert (Hchan' : stopChanClosed c = stopped c) by congruence.
        assert (Hoff' : stopped c = true -> listeners c = [])
          by (intros _; now apply Hoff).
        destruct (IH c Hchan' Hnames Hoff') as (c' & E & H1 & H2 & H3 & H4).
        rewrite Hs in H2, H3. cbn [orb] in H2. rewrite H2 in H4.
        exists c'. split; [exact E |]. split; [exact H1 |].
        rewrite H2. cbn [orb]. repeat split; assumption.
      * rewrite Hchan. cbn [mbind option_bind].
        rewrite (EventsOff_all _ Hnames).
        match goal with |- context [runControl rest ?c1] =>
          destruct (IH c1) as (c' & E & H1 & H2 & H3 & H4) end;
          [reflexivity | constructor | reflexivity |].
        cbn [stopped loops listeners orb] in H2, H3, H4.
        rewrite H2 in H4.
        exists c'. split; [exact E |]. split; [exact H1 |].
        cbn [existsb is_stop startsBeforeStop orb].
        rewrite H2, Nat.add_0_r. repeat split; assumption.
Qed.

(** X18. Once Start has been called, Start and Stop can be called in
    any order and any number of times without a panic: the stop channel
    is closed exactly when the pusher is stopped, so never twice. The
    first Stop is final: afterwards no listener is registered and no
    call starts a loop. Before it every Start counts: each one
    registers the three listeners again and starts one more loop. *)
Theorem start_and_stop_in_any_order (calls : list ControlCall) :
  exists c,
    runControl (CallStart :: calls) NewControl = Some c
    /\ stopChanClosed c = stopped c
    /\ stopped c = existsb is_stop calls
    /\ loops c = S (startsBeforeStop calls)
    /\ listeners c
       = (if stopped c then []
          else concat (repeat startListeners (loops c))).
Proof.
  destruct (runControl_spec (CallStart :: calls) NewControl)
    as (c & E & H1 & H2 & H3 & H4);
    [reflexivity | constructor | discriminate |].
  exists c. cbn in H2, H3, H4. rewrite H3.
  repeat split; assumption.
Qed.

(* ------------------------------------------------------------------ *)
(** ** What the tickers dispatch                                       *)
(* ------------------------------------------------------------------ *)

Lemma next_multiple (d n : Z) :
  0 < d -> exists k, 1 <= k <= d /\ Z.rem (n + k) d = 0.
Proof.
  intros Hd. exists (d - n mod d).
  pose proof (Z.mod_pos_bound n d Hd) as Hm.
  split; [lia |].
  replace (n + (d - n mod d)) with ((n / d + 1) * d).
  - apply Z.rem_mul. lia.
  - pose proof (Z.div_mod n d) as Hdm. lia.
Qed.

Lemma counterAfter_small (k : nat) (n : Z) :
  0 <= n -> n + Z.of_nat k < 2 ^ 63 -> counterAfter k n = n + Z.of_nat k.
Proof.
  intros Hn. induction k as [| k IH]; intros Hk; cbn [counterAfter].
  - lia.
  - rewrite IH by lia. rewrite wrap64_id; [lia |].
    unfold in_int64, int64_min, int64_max. lia.
Qed.

Lemma rem_of_thirty (c d : Z) :
  Z.rem c 30 = 0 -> (d | 30) -> d <> 0 -> Z.rem c d = 0.
Proof.
  intros Hc Hd Hnz. apply Z.rem_divide; [exact Hnz |].
  apply Z.rem_divide in Hc; [| lia].
  now apply (Z.divide_trans d 30 c).
Qed.

(** X19. The quotes and the indices are never starved. The loop reads
    the phase anew at every tick of the three-second ticker; however
    the phase changes from tick to tick, at least one of any thirty
    consecutive ticks dispatches both pushStockData and
    pushMarketIndices, and while the phase stays the same, one of any
    ten does (the counter being far from overflow). *)
Theorem quotes_are_never_starved (status : nat -> string) (n : Z) :
  0 <= n < 2 ^ 63 - 30 ->
  (exists k,
      (1 <= k <= 30)%nat
      /\ runs PushStockData (normalTick (status k) (counterAfter k n)) = true
      /\ runs PushMarketIndices (normalTick (status k) (counterAfter k n))
         = true)
  /\ ((forall k, status k = status O) ->
      exists k,
        (1 <= k <= 10)%nat
        /\ runs PushStockData (normalTick (status k) (counterAfter k n))
           = true
        /\ runs PushMarketIndices (normalTick (status k) (counterAfter k n))
           = true).
Proof.
  intros Hn.
  assert (Hpick : forall d, 0 < d <= 30 ->
             exists k, (1 <= k <= Z.to_nat d)%nat
                       /\ Z.rem (counterAfter k n) d = 0).
  { intros d Hd. destruct (next_multiple d n) as (k & Hk & E); [lia |].
    exists (Z.to_nat k). split; [lia |].
    rewrite counterAfter_small by lia. now rewrite Z2Nat.id by lia. }
  split.
  - destruct (Hpick 30) as (k & Hk & E); [lia |].
    exists k. split; [exact Hk |]. unfold normalTick.
    rewrite (rem_of_thirty _ 2 E), (rem_of_thirty _ 3 E),
      (rem_of_thirty _ 5 E), (rem_of_thirty _ 10 E);
      try (now exists 15); try (now exists 10); try (now exists 6);
      try (now exists 3); try lia.
    destruct (String.eqb (status k) "trading"); [now split |].
    destruct (String.eqb (status k) "pre_market"); [now split |].
    destruct (String.eqb (status k) "lunch_break"); now split.
  - intros Hsame.
    assert (Hgoal : forall d, 0 < d <= 10 ->
               (forall c, Z.rem c d = 0 ->
                          runs PushStockData (normalTick (status O) c) = true
                          /\ runs PushMarketIndices (normalTick (status O) c)
                             = true) ->
               exists k,
                 (1 <= k <= 10)%nat
                 /\ runs PushStockData
                      (normalTick (status k) (counterAfter k n)) = true
                 /\ runs PushMarketIndices
                      (normalTick (status k) (counterAfter k n)) = true).
    { intros d Hd Hrun. destruct (Hpick d) as (k & Hk & E); [lia |].
      exists k. split; [lia |]. rewrite Hsame. now apply Hrun. }
    unfold normalTick in *.
    destruct (String.eqb (status O) "trading").
    + apply (Hgoal 1); [lia |]. intros c _.
      destruct (Z.rem c 2 =? 0); now split.
    + destruct (String.eqb (status O) "pre_market").
      * apply (Hgoal 3); [lia |]. intros c ->. now split.
      * destruct (String.eqb (status O) "lunch_break").
        -- apply (Hgoal 5); [lia |]. intros c ->. now split.
        -- apply (Hgoal 10); [lia |]. intros c ->. now split.
Qed.

Lemma quotes_are_never_starved_witness :
  exists k,
    (1 <= k <= 30)%nat
    /\ runs PushStockData
         (normalTick (nth k ["closed"; "closed"; "pre_market"] "pre_market")
            (counterAfter k 8)) = true
    /\ runs PushMarketIndices
         (normalTick (nth k ["closed"; "closed"; "pre_market"] "pre_market")
            (counterAfter k 8)) = true.
Proof.
  apply (quotes_are_never_starved
           (fun k => nth k ["closed"; "closed"; "pre_market"] "pre_market") 8).
  lia.
Defined.

(* ------------------------------------------------------------------ *)
(** ** The order book on the wire                                      *)
(* ------------------------------------------------------------------ *)

Section BookFacts.
Context `{Strconv}.

Lemma GetRealOrderBook_total (code : string) (w : World) :
  exists r w1,
    GetRealOrderBook code w = Some (r, w1)
    /\ (requests w1 = requests w
        \/ requests w1 = requests w ++ [ReqStock [code]]).
Proof.
  unfold GetRealOrderBook, bind.
  destruct (GetStockDataWithOrderBook_run [code] w)
    as (r & w1 & E & _ & Hrun); [discriminate |].
  rewrite E. cbv zeta in Hrun.
  assert (Hreq : requests w1 = requests w
                 \/ requests w1 = requests w ++ [ReqStock [code]]).
  { destruct (served_stock w (stockCacheKey [code]));
      [left | right]; apply Hrun. }
  destruct r as [[| first rest] | e]; unfold ret; eauto.
Qed.

Lemma pushOrderBookData_split (p : MarketDataPusher) :
  pushOrderBookData p = bookFinish (bookRead p) p.
Proof. reflexivity. Qed.

(** An invocation that finishes with the fingerprint it read still
    recorded publishes nothing and changes nothing, or publishes one
    book whose fingerprint is not the recorded one, and records it. *)
Lemma bookFinish_step (code : string) (p : MarketDataPusher) (w : World) :
  exists p1 evs w1,
    bookFinish (code, lastOrderBookHash p) p w = Some ((p1, evs), w1)
    /\ ((evs = [] /\ p1 = p)
        \/ exists ob,
             evs = [OrderBookUpdate ob]
             /\ orderBookHash ob <> lastOrderBookHash p
             /\ p1 = set_lastOrderBookHash (orderBookHash ob) p).
Proof.
  unfold bookFinish. cbn [fst snd].
  destruct (String.eqb code EmptyString).
  - eexists _, _, _. split; [reflexivity |]. left. now split.
  - unfold bind.
    destruct (GetRealOrderBook_total code w) as (r & w1 & E & _).
    rewrite E. destruct r as [ob | e].
    + destruct (String.eqb_spec (orderBookHash ob) (lastOrderBookHash p))
        as [Heq | Hne].
      * eexists _, _, _. split; [reflexivity |]. left. now split.
      * eexists _, _, _. split; [reflexivity |]. right.
        exists ob. repeat split. exact Hne.
    + eexists _, _, _. split; [reflexivity |]. left. now split.
Qed.

Lemma bookRun_invariant (steps : list BookStep) (busy : bool)
    (p : MarketDataPusher) (pending : list (string * string)) (w : World)
    (pre : list string) :
  one_at_a_time busy steps = true ->
  (if busy then exists code, pending = [(code, lastOrderBookHash p)]
   else pending = []) ->
  no_repeat (pre ++ [lastOrderBookHash p]) ->
  exists p' evs w',
    bookRun steps p pending w = Some ((p', evs), w')
    /\ no_repeat ((pre ++ [lastOrderBookHash p]) ++ fingerprints evs)
    /\ List.last (lastOrderBookHash p :: fingerprints evs) EmptyString
       = lastOrderBookHash p'.
Proof.
  revert busy p pending w pre.
  induction steps as [| step rest IH];
    intros busy p pending w pre Hseq Hpend Hpre.
  - exists p, [], w. cbn. rewrite app_nil_r. repeat split. exact Hpre.
  - destruct step as [| i | code]; cbn [one_at_a_time] in Hseq;
      cbn [bookRun].
    + apply andb_true_iff in Hseq as [Hfree Hseq].
      apply negb_true_iff in Hfree. subst busy. subst pending.
      cbn [app]. apply (IH true); [exact Hseq | | exact Hpre].
      now exists (currentOrderBook p).
    + apply andb_true_iff in Hseq as [Hbusy Hseq].
      apply andb_true_iff in Hbusy as [Hbusy Hi].
      subst busy. apply Nat.eqb_eq in Hi. subst i.
      destruct Hpend as [code ->].
      cbn [lookup list_lookup delete list_delete]. unfold bind at 1.
      destruct (bookFinish_step code p w)
        as (p1 & evs1 & w1 & E1 & [[-> ->] | (ob & -> & Hne & ->)]);
        rewrite E1; cbn [fst snd]; unfold bind at 1.
      * destruct (IH false p [] w1 pre Hseq eq_refl Hpre)
          as (p' & evs & w' & E & Hno & Hlast).
        rewrite E. exists p', evs, w'. cbn [fst snd app]. unfold ret.
        repeat split; assumption.
      * destruct (IH false (set_lastOrderBookHash (orderBookHash ob) p) []
                     w1 (pre ++ [lastOrderBookHash p]) Hseq eq_refl)
          as (p' & evs & w' & E & Hno & Hlast).
        { cbn [lastOrderBookHash set_lastOrderBookHash].
          apply no_repeat_app_last; [exact Hpre | congruence]. }
        rewrite E. exists p', (OrderBookUpdate ob :: evs), w'.
        cbn [fst snd app]. unfold ret. split; [reflexivity |].
        cbn [lastOrderBookHash set_lastOrderBookHash] in Hno, Hlast.
        cbn [fingerprints flat_map app]. fold (fingerprints evs).
        split.
        -- rewrite <- app_assoc in Hno. cbn [app] in Hno.
           rewrite <- app_assoc. cbn [app].
           rewrite <- app_assoc in Hno. exact Hno.
        -- exact Hlast.
    + destruct code as [c |]; cbn [onOrderBookSubscribe].
      * apply (IH busy (set_currentOrderBook c p));
          [exact Hseq | exact Hpend | exact Hpre].
      * apply (IH busy p); [exact Hseq | exact Hpend | exact Hpre].
Qed.

(** X20. The order book on the wire repeats a fingerprint only when
    invocations overlap. An invocation compares the new fingerprint
    with the one it read when it started. Over any run in which every
    invocation finishes before the next starts, the focus being moved
    at any time, nothing panics, no two books published one after the other
    have the same fingerprint (nor does the first repeat the one
    recorded before the run), and the recorded fingerprint is that of
    the last book published; a change of focus does not reset it. When
    a second invocation starts before the first has finished, both
    compare with the same recorded fingerprint and the same book is
    published twice. *)
Theorem order_book_repeats_only_on_overlap :
  (forall (steps : list BookStep) (p : MarketDataPusher) (w : World),
      one_at_a_time false steps = true ->
      exists p' evs w',
        bookRun steps p [] w = Some ((p', evs), w')
        /\ no_repeat (lastOrderBookHash p :: fingerprints evs)
        /\ List.last (lastOrderBookHash p :: fingerprints evs) EmptyString
           = lastOrderBookHash p')
  /\ (forall p : MarketDataPusher,
         pushOrderBookData p = bookFinish (bookRead p) p)
  /\ option_map (fun r => fingerprints (snd r))
       (result_of
          (@bookRun decimalStrconv
             [BookBegin; BookBegin; BookEnd 0; BookEnd 0]
             (focused "sh600000") [] quote_world))
     = Some ["10.04:200:10.05:150"; "10.04:200:10.05:150"].
Proof.
  split; [| split].
  - intros steps p w Hseq.
    destruct (bookRun_invariant steps false p [] w [] Hseq eq_refl I)
      as (p' & evs & w' & E & Hno & Hlast).
    exists p', evs, w'. split; [exact E |].
    split; [exact Hno | exact Hlast].
  - exact pushOrderBookData_split.
  - vm_compute. reflexivity.
Qed.

End BookFacts.

(* ------------------------------------------------------------------ *)
(** ** The market phase of the loop and the status on the wire         *)
(* ------------------------------------------------------------------ *)

Lemma GetMarketStatus_total : total GetMarketStatus.
Proof. unfold GetMarketStatus. total_auto. Qed.


(* ------------------------------------------------------------------ *)
(** ** The minute candles of one day                                   *)
(* ------------------------------------------------------------------ *)

Lemma onDay_of_last (klines : list KLineData.t) (k : KLineData.t)
    (day : string) :
  last klines = Some k ->
  first10 (KLineData.Time k) = Some day ->
  List.filter (onDay day) klines <> [].
Proof.
  intros Hlast Hday Hnil.
  apply last_Some_elem_of, list_elem_of_In in Hlast.
  assert (Hin : In k (List.filter (onDay day) klines)).
  { apply filter_In. split; [exact Hlast |].
    unfold onDay. rewrite Hday. apply String.eqb_refl. }
  rewrite Hnil in Hin. exact Hin.
Qed.

(** X22. filterTodayKLines on every input. It panics exactly when no
    bucket carries today's date and the label of the last bucket has
    fewer than ten bytes. Otherwise, for a non-empty list, it returns
    the buckets of one day, in their order and at least one of them:
    those of today (the host's date) when there are any, else those of
    the day of the last bucket. The empty list is returned as it is,
    without a look at the clock. *)
Theorem minute_filter_keeps_one_day (klines : list KLineData.t) (w : World) :
  let today := Time_FormatDate {| unixNano := clock w (clock_reads w);
                                  zoneOffset := hostZone w |} in
  match filterTodayKLines klines w with
  | None =>
      List.filter (onDay today) klines = []
      /\ exists k,
           last klines = Some k
           /\ (String.length (KLineData.Time k) < 10)%nat
  | Some (result, w') =>
      (klines = [] /\ result = [] /\ w' = w)
      \/ (exists day,
             result = List.filter (onDay day) klines
             /\ result <> []
             /\ w' = tick w
             /\ (day = today
                 \/ (List.filter (onDay today) klines = []
                     /\ exists k,
                          last klines = Some k
                          /\ first10 (KLineData.Time k) = Some day)))
  end.
Proof.
  intros today. unfold filterTodayKLines.
  destruct klines as [| k0 rest] eqn:Hk; [left; now repeat split |].
  rewrite <- Hk. unfold bind, time_Now. fold today. fold (tick w).
  destruct (List.filter (onDay today) klines) as [| r rs] eqn:Hf.
  - destruct (last klines) as [k |] eqn:Hlast.
    + unfold first10.
      destruct (Nat.leb_spec 10 (String.length (KLineData.Time k)))
        as [Hlong | Hshort].
      * unfold ret. right. eexists. split; [reflexivity |].
        split; [| split; [reflexivity |]].
        -- apply (onDay_of_last _ k); [exact Hlast |].
           unfold first10. apply Nat.leb_le in Hlong. now rewrite Hlong.
        -- right. split; [reflexivity |]. exists k. split; [reflexivity |].
           unfold first10. apply Nat.leb_le in Hlong. now rewrite Hlong.
      * split; [reflexivity |]. exists k. split; [reflexivity | exact Hshort].
    + apply last_None in Hlast. congruence.
  - unfold ret. right. exists today. rewrite Hf.
    split; [reflexivity |]. split; [discriminate |].
    split; [reflexivity | now left].
Qed.

(* ------------------------------------------------------------------ *)
(** ** The schedule and the status                                     *)
(* ------------------------------------------------------------------ *)

Lemma isTradeDay_name (date : Time) (w w' : World) (name : string) :
  isTradeDay date w = Some ((true, name), w') -> name = EmptyString.
Proof.
  unfold isTradeDay.
  destruct ((Time_Weekday date =? Saturday) || (Time_Weekday date =? Sunday));
    [intros E; cbv [ret] in E; discriminate E |].
  unfold bind.
  destruct (getHolidayStatus date w) as [[[[o i] note] w1] |];
    [| discriminate].
  destruct (i && o); unfold ret; intros E; [discriminate E |].
  now injection E as <- _.
Qed.

Lemma periodAt_schedule (m : Z) :
  0 <= m < 24 * 60 ->
  periodAt m schedulePeriods = schedulePeriods !! periodIndex m.
Proof.
  intros Hm. unfold periodAt, schedulePeriods, periodIndex.
  cbn [List.find tp_StartTime tp_EndTime].
  change (minuteOfLabel "00:00") with (Some 0).
  change (minuteOfLabel "09:15") with (Some (9 * 60 + 15)).
  change (minuteOfLabel "09:30") with (Some (9 * 60 + 30)).
  change (minuteOfLabel "11:30") with (Some (11 * 60 + 30)).
  change (minuteOfLabel "13:00") with (Some (13 * 60)).
  change (minuteOfLabel "15:00") with (Some (15 * 60)).
  change (minuteOfLabel "24:00") with (Some (24 * 60)).
  destruct (Z.ltb_spec m (9 * 60 + 15));
    [| destruct (Z.ltb_spec m (9 * 60 + 30));
       [| destruct (Z.ltb_spec m (11 * 60 + 30));
          [| destruct (Z.ltb_spec m (13 * 60));
             [| destruct (Z.ltb_spec m (15 * 60))]]]];
    repeat match goal with
           | |- context [?a <=? m] =>
               destruct (Z.leb_spec a m); [| lia]
           | |- context [m <? ?b] =>
               destruct (Z.ltb_spec m b); try lia
           end; cbn [andb]; try reflexivity; lia.
Qed.

(** X23. The schedule handed to the presentation layer agrees with the
    status: asked at the same instant, GetTradingSchedule and
    GetMarketStatus report the same trading-day flag and holiday name,
    and on a trading day the status and its text are those of the one
    period of the schedule, read as [start, end) on the minute of the
    day, that contains the current minute. *)
Theorem schedule_agrees_with_status (w : World) :
  exists st sch w',
    GetMarketStatus w = Some (st, w')
    /\ GetTradingSchedule w = Some (sch, w')
    /\ ts_IsTradeDay sch = IsTradeDay st
    /\ ts_HolidayName sch = HolidayName st
    /\ (IsTradeDay st = true ->
        exists per,
          periodAt (minuteOfDay (marketNow w)) (ts_Periods sch) = Some per
          /\ tp_Status per = Status st
          /\ tp_Text per = StatusText st).
Proof.
  unfold GetMarketStatus, GetTradingSchedule, bind, time_Now.
  fold (marketNow w).
  destruct (isTradeDay_total (marketNow w)
              (set_clock_reads (S (clock_reads w)) w))
    as ([td name] & w' & E).
  rewrite E. destruct td; cbn [negb fst snd].
  - apply isTradeDay_name in E. subst name.
    fold (minuteOfDay (marketNow w)).
    pose proof (minuteOfDay_range (marketNow w)) as Hm.
    set (m := minuteOfDay (marketNow w)) in *.
    assert (Hper := periodAt_schedule m Hm). unfold periodIndex in Hper.
    destruct (Z.ltb_spec m (9 * 60 + 15));
      [| destruct (Z.ltb_spec m (9 * 60 + 30));
         [| destruct (Z.ltb_spec m (11 * 60 + 30));
            [| destruct (Z.ltb_spec m (13 * 60));
               [| destruct (Z.ltb_spec m (15 * 60))]]]];
      (eexists _, _, _; split; [reflexivity |]; split; [reflexivity |];
       split; [reflexivity |]; split; [reflexivity |]; intros _;
       cbn [ts_Periods]; rewrite Hper; eexists; split; [reflexivity |];
       split; reflexivity).
  - eexists _, _, _. split; [reflexivity |]. split; [reflexivity |].
    split; [reflexivity |]. split; [reflexivity | discriminate].
Qed.

(* ------------------------------------------------------------------ *)
(** ** Quotes on the wire                                              *)
(* ------------------------------------------------------------------ *)

Section QuoteFacts.
Context `{Strconv}.

Lemma parseSinaStockData_symbols (matches : list (string * string)) :
  exists plain,
    parseSinaStockData matches = Some plain
    /\ map Stock.Symbol plain = map fst (List.filter (keptRecord 32) matches).
Proof.
  induction matches as [| [code text] rest (plain & E & Hs)].
  - now exists [].
  - cbn [parseSinaStockData List.filter]. rewrite keptRecord_cases.
    destruct (String.eqb text EmptyString); [now exists plain |].
    destruct (Nat.ltb_spec (length (strings_Split_comma text)) 32)
      as [Hlt | Hge]; cbn [negb]; [now exists plain |].
    destruct (parseStockFields_fields code (strings_Split_comma text))
      as (s & Hsf & Hsym & _); [lia |].
    rewrite Hsf, E. cbn [mbind option_bind].
    exists (s :: plain). split; [reflexivity |].
    cbn [map fst]. now rewrite Hs, Hsym.
Qed.

(** X24. The quotes on the wire always come from upstream. pushStockData
    never panics and publishes at most one batch. With an empty
    watchlist it publishes nothing and touches nothing; otherwise every
    invocation sends exactly one request, for the whole watchlist, and
    neither reads nor fills the quote cache; the batch it publishes has
    one quote for each well-formed record of the reply, in the reply's
    order. *)
Theorem quotes_always_go_upstream (p : MarketDataPusher) (w : World) :
  exists out w',
    pushStockData p w = Some (out, w')
    /\ (length out <= 1)%nat
    /\ ms_cache w' = ms_cache w
    /\ match subscribedCodes p with
       | [] => out = [] /\ w' = w
       | codes =>
           requests w' = requests w ++ [ReqStock codes]
           /\ match net_stock w (length (requests w)) codes with
              | Err _ => out = []
              | Ok matches =>
                  exists stocks,
                    out = [stocks]
                    /\ map Stock.Symbol stocks
                       = map fst (List.filter (keptRecord 32) matches)
              end
       end.
Proof.
  unfold pushStockData.
  destruct (subscribedCodes p) as [| c cs].
  - exists [], w. cbn. repeat split. lia.
  - unfold GetStockRealTimeData, bind, time_Now, send, get.
    cbn [requests set_requests set_clock_reads net_stock].
    destruct (net_stock w (length (requests w)) (c :: cs)) as [matches | e].
    + destruct (parseSinaStockData_symbols matches) as (plain & E & Hs).
      rewrite E. unfold ret. eexists _, _. split; [reflexivity |].
      cbn. repeat split; [lia |]. now exists plain.
    + unfold ret. eexists _, _. split; [reflexivity |].
      cbn. repeat split. lia.
Qed.

End QuoteFacts.

(* ------------------------------------------------------------------ *)
(** ** The candle tasks                                                *)
(* ------------------------------------------------------------------ *)

Section CandleTasks.
Context `{Strconv} `{TimeParse}.

(** X25. A candle subscription is served by exactly one of the two
    periodic candle tasks: period 1m by pushKLineMinute (five days of
    minute buckets), any other period by pushKLineDay (120 buckets);
    the other task, and both without a subscription, publish nothing,
    send nothing and do not read the clock. pushKLineDay never panics,
    publishes full pushes only and leaves the pusher, hence the
    incremental marker, as it was. pushKLineMinute sends at most one
    request when it returns; it can panic, and then only in a read
    that the cache did not answer. *)
Theorem candle_tasks_split_by_period (p : MarketDataPusher) (w : World) :
  let code := Code (klineSub p) in
  let period := Period (klineSub p) in
  exists evd wd,
    pushKLineDay p w = Some ((p, evd), wd)
    /\ Forall full_push evd
    /\ if String.eqb code EmptyString
       then pushKLineMinute p w = Some ((p, []), w) /\ (evd, wd) = ([], w)
       else if String.eqb period "1m"
            then (evd, wd) = ([], w)
                 /\ match pushKLineMinute p w with
                    | Some (_, wm) =>
                        requests wm = requests w
                        \/ requests wm
                           = requests w ++ [ReqKLine code "1m" 5]
                    | None =>
                        served_kline w (klineCacheKey code "1m" 5) = None
                    end
            else pushKLineMinute p w = Some ((p, []), w)
                 /\ (requests wd = requests w
                     \/ requests wd
                        = requests w ++ [ReqKLine code period 120]).
Proof.
  intros code period. unfold pushKLineMinute, pushKLineDay.
  fold code. fold period.
  destruct (String.eqb code EmptyString); cbn [orb].
  - exists [], w. repeat split. constructor.
  - destruct (String.eqb_spec period "1m") as [Hp | Hp]; cbn [negb].
    + exists [], w. split; [reflexivity |]. split; [constructor |].
      split; [reflexivity |]. unfold bind.
      pose proof (GetKLineData_out code "1m" 5 w) as Hout.
      cbv zeta in Hout.
      destruct (GetKLineData code "1m" 5 w) as [[r w1] |];
        [| apply Hout].
      destruct Hout as [_ Hout].
      assert (Hreq : requests w1 = requests w
                     \/ requests w1 = requests w ++ [ReqKLine code "1m" 5]).
      { destruct (served_kline w (klineCacheKey code "1m" 5));
          [left | right]; apply Hout. }
      destruct r as [klines | e];
        [destruct (last klines) as [latest |];
         [destruct ((lastKLineTime p =? 0)
                    || negb (parseKLineTime (KLineData.Time latest)
                             =? lastKLineTime p)) |] |];
        exact Hreq.
    + unfold bind.
      destruct (GetKLineData_returns code period 120 w Hp)
        as (r & w1 & E & Hreq).
      rewrite E. destruct r as [klines | e]; unfold ret.
      * eexists _, _. split; [reflexivity |].
        split; [repeat constructor |]. split; [reflexivity | exact Hreq].
      * eexists _, _. split; [reflexivity |].
        split; [constructor |]. split; [reflexivity | exact Hreq].
Qed.

End CandleTasks.

(* ------------------------------------------------------------------ *)
(** ** The average line                                                *)
(* ------------------------------------------------------------------ *)





(* ------------------------------------------------------------------ *)
(** ** Key points out of a model's answer                              *)
(* ------------------------------------------------------------------ *)

Section KeyPointFacts.
Variable strings_TrimSpace : string -> string.

(** X27. Whatever the model answered, parseKeyPoints returns trimmed
    lines of the trimmed answer, in their order and at most one per
    line; none of them is empty and none starts with [#]. *)
Theorem key_points_are_plain_lines (result : string) :
  let lines := split_on newline (strings_TrimSpace result) EmptyString in
  let points := parseKeyPoints strings_TrimSpace result in
  sublist points (map strings_TrimSpace lines)
  /\ (length points <= length lines)%nat
  /\ Forall (fun point => point <> EmptyString
                          /\ strings_HasPrefix point "#" = false) points.
Proof.
  intros lines points. unfold points, parseKeyPoints. fold lines.
  assert (Hsub : forall l : list string, sublist (List.filter keepPoint l) l).
  { induction l as [| x l IH]; cbn [List.filter]; [constructor |].
    destruct (keepPoint x); [now apply sublist_skip | now apply sublist_cons]. }
  split; [apply Hsub |]. split.
  - rewrite <- (length_map strings_TrimSpace lines).
    apply sublist_length, Hsub.
  - apply Forall_forall. intros point Hin.
    apply list_elem_of_In, filter_In in Hin as [_ Hkeep].
    unfold keepPoint in Hkeep. apply andb_true_iff in Hkeep as [Hne Hpre].
    apply negb_true_iff in Hne, Hpre. split; [| exact Hpre].
    now apply String.eqb_neq.
Qed.

End KeyPointFacts.

(* ------------------------------------------------------------------ *)
(** ** The calendar and the rest of the service                        *)
(* ------------------------------------------------------------------ *)

(** X28. The calendar keeps to itself. Asking for the market status,
    and computing the window of trading dates, never panic and leave
    the quote cache, the candle cache and the window file on disk
    exactly as they were, whatever the holiday source answers; all they
    write is the holiday memory, the holiday files, the log and the
    list of requests. *)
Theorem calendar_keeps_to_itself (w : World) :
  (exists st w',
      GetMarketStatus w = Some (st, w')
      /\ ms_cache w' = ms_cache w
      /\ ms_klineCache w' = ms_klineCache w
      /\ tradeDatesFile w' = tradeDatesFile w)
  /\ (forall days : Z,
         exists r w',
           fetchTradeDates days w = Some (r, w')
           /\ ms_cache w' = ms_cache w
           /\ ms_klineCache w' = ms_klineCache w
           /\ tradeDatesFile w' = tradeDatesFile w).
Proof.
  split.
  - destruct (GetMarketStatus_total w) as (st & w' & E).
    exists st, w'. split; [exact E |].
    pose proof (keeps_GetMarketStatus _ caches_beside_calendar _ _ _ E) as Hc.
    pose proof (keeps_GetMarketStatus _ tradeDatesFile_beside_calendar
                  _ _ _ E) as Hf.
    injection Hc as Hc1 Hc2. repeat split; assumption.
  - intros days.
    destruct (fetchTradeDates_never_fails days w) as (dates & w' & E).
    exists (Ok dates), w'. split; [exact E |].
    pose proof (keeps_fetchTradeDates _ caches_beside_calendar
                  days _ _ _ E) as Hc.
    pose proof (keeps_fetchTradeDates _ tradeDatesFile_beside_calendar
                  days _ _ _ E) as Hf.
    injection Hc as Hc1 Hc2. repeat split; assumption.
Qed.
